(** * Microsoft 365 mail channel: inbound admission and reply dispatch

    A shallow embedding of [handleIncomingMail] and of the helpers around it
    in [extensions/microsoft365/src/channel.ts], [outbound.ts] and
    [runtime.ts], with the properties of the admission gate, the pairing flow,
    allow-list resolution and reply dispatch.

    Strings are sequences of 8-bit code units.  The ASCII range is modelled
    exactly; code units from 128 upwards are opaque: [toLowerCase] leaves them
    alone and [trim] does not take them for white space. *)

From Stdlib Require Import List String Ascii Bool Arith ZArith Lia.
Import ListNotations.

Local Open Scope string_scope.

(** ** JavaScript string primitives *)

Module JsString.

(** [String.prototype.toLowerCase], one code unit. *)
Definition lowerChar (c : ascii) : ascii :=
  let n := nat_of_ascii c in
  if ((65 <=? n) && (n <=? 90))%nat then ascii_of_nat (n + 32) else c.

Fixpoint toLowerCase (s : string) : string :=
  match s with
  | EmptyString => EmptyString
  | String c s' => String (lowerChar c) (toLowerCase s')
  end.

(** WhiteSpace and LineTerminator code units of the ASCII range:
    TAB, LF, VT, FF, CR and SPACE. *)
Definition isWhiteSpace (c : ascii) : bool :=
  let n := nat_of_ascii c in
  (((9 <=? n) && (n <=? 13)) || (n =? 32))%nat.

Fixpoint trimStart (s : string) : string :=
  match s with
  | EmptyString => EmptyString
  | String c s' => if isWhiteSpace c then trimStart s' else s
  end.

Fixpoint trimEnd (s : string) : string :=
  match s with
  | EmptyString => EmptyString
  | String c s' =>
      match trimEnd s' with
      | EmptyString => if isWhiteSpace c then EmptyString else String c EmptyString
      | t => String c t
      end
  end.

(** [String.prototype.trim]. *)
Definition trim (s : string) : string := trimEnd (trimStart s).

(** JavaScript truthiness of a string: [Boolean(s)], [!s] negated. *)
Definition truthy (s : string) : bool :=
  match s with
  | EmptyString => false
  | String _ _ => true
  end.

(** A string whose first code unit is not white space. *)
Definition headNotSpace (s : string) : bool :=
  match s with
  | EmptyString => true
  | String c _ => negb (isWhiteSpace c)
  end.

End JsString.

Import JsString.

(** ** Configuration and inbound messages *)

(** [z.enum(["open", "pairing", "allowlist"])]. *)
Inductive DmPolicy : Type := Open | Pairing | Allowlist.

Definition dmPolicyName (p : DmPolicy) : string :=
  match p with
  | Open => "open"
  | Pairing => "pairing"
  | Allowlist => "allowlist"
  end.

Definition dmPolicy_eqb (p q : DmPolicy) : bool :=
  match p, q with
  | Open, Open | Pairing, Pairing | Allowlist, Allowlist => true
  | _, _ => false
  end.

Record Webhook : Type := {
  port : option Z;
  path : option string;
  publicUrl : option string
}.

(** [Microsoft365ConfigSchema]: every field is optional. *)
Record Microsoft365Config : Type := {
  enabled : option bool;
  clientId : option string;
  clientSecret : option string;
  tenantId : option string;
  refreshToken : option string;
  accessToken : option string;
  tokenExpiresAt : option Z;
  userEmail : option string;
  webhook : option Webhook;
  pollIntervalMs : option Z;
  folders : option (list string);
  allowFrom : option (list string);
  dmPolicy : option DmPolicy
}.

(** The part of [OpenClawConfig] the channel reads: [cfg.channels?.microsoft365]
    and [cfg.session?.store].  The rest of the configuration is carried as an
    opaque blob for the collaborators that receive [cfg] whole. *)
Record OpenClawConfig : Type := {
  microsoft365 : option Microsoft365Config;
  sessionStore : option string;
  otherSettings : string
}.

(** What [resolveCredentials] returns; the channel only looks at
    [credentials?.refreshToken]. *)
Record Credentials : Type := {
  credRefreshToken : option string
}.

Record EmailAddress : Type := {
  address : option string;
  name : option string
}.

Record Recipient : Type := {
  emailAddress : option EmailAddress
}.

Record ItemBody : Type := {
  contentType : option string;
  content : option string
}.

(** The fields of [GraphMailMessage] that [handleIncomingMail] reads. *)
Record GraphMailMessage : Type := {
  id : string;
  from : option Recipient;
  subject : option string;
  body : option ItemBody;
  bodyPreview : option string;
  receivedDateTime : option string
}.

(** The argument of [handleIncomingMail].  [log] tells whether a log sink was
    passed ([log?.info?.(...)] does nothing without one); the [runtime]
    argument is not used by the function. *)
Record Params : Type := {
  message : GraphMailMessage;
  cfg : OpenClawConfig;
  accountId : string;
  log : bool
}.

(** ** Values exchanged with the core *)

Record AgentRoute : Type := {
  agentId : string;
  routeSessionKey : string;
  routeAccountId : string
}.

(** The object handed to [finalizeInboundContext]. *)
Record InboundContext : Type := {
  Body : string;
  RawBody : option string;
  CommandBody : option string;
  From : string;
  To : string;
  SessionKey : option string;
  AccountId : string;
  ChatType : string;
  ConversationLabel : string;
  SenderName : option string;
  SenderId : string;
  Provider : string;
  Surface : string;
  MessageSid : string;
  Timestamp : Z;
  OriginatingChannel : string;
  OriginatingTo : string
}.

Record EnvelopeArgs : Type := {
  envChannel : string;
  envFrom : string;
  envTimestamp : Z;
  envPreviousTimestamp : option Z;
  envEnvelope : string;
  envBody : option string
}.

(** A reply payload with the [kind] the dispatcher tags it with. *)
Record ReplyFragment : Type := {
  text : option string;
  kind : string
}.

Record PairingRequest : Type := {
  prChannel : string;
  prId : string;
  prCode : string;
  prName : option string;
  prCreatedAt : Z
}.

(** ** Observable effects *)

Inductive LogLevel : Type := Info | Warn | Error | Debug.

Inductive Effect : Type :=
| Log (level : LogLevel) (msg : string)
| PairingUpsert (channel ident : string) (displayName : option string)
                (code : string) (created : bool)
| GraphReplyToMail (messageId body : string)
| GraphMarkAsRead (messageId : string)
| InboundDrop (channel reason target : string)
| RecordInboundSession (storePath sessionKey : string) (ctx : InboundContext)
| AgentInvoke (ctx : InboundContext).

Definition Trace : Type := list Effect.

(** The state the handler runs against: the pending pairing requests and the
    effects performed so far, oldest first. *)
Record World : Type := {
  pairingRequests : list PairingRequest;
  trace : Trace
}.

(** ** Collaborators outside the channel

    Their answers may depend on everything that happened before, so each one
    that talks to the outside takes the trace.  A [Some err] answer of a Graph
    call or of the session write is a rejection with [String(err) = err];
    [None] from the allow-list store is a rejected read. *)

Record PluginRuntime : Type := {
  readAllowFromStore : Trace -> string -> option (list string);
  generateCode : list PairingRequest -> string;
  buildPairingReply : string -> string -> string -> string;
  resolveAgentRoute : OpenClawConfig -> string -> string -> string -> AgentRoute;
  resolveStorePath : option string -> string -> string;
  resolveEnvelopeFormatOptions : OpenClawConfig -> string;
  readSessionUpdatedAt : Trace -> string -> string -> option Z;
  formatAgentEnvelope : EnvelopeArgs -> string;
  finalizeInboundContext : InboundContext -> InboundContext;
  sessionWrite : Trace -> string -> string -> option string;
  agentReply : Trace -> InboundContext -> OpenClawConfig -> list ReplyFragment
}.

(** [graph-client.js] and the clock. *)
Record Externals : Type := {
  resolveCredentials : option Microsoft365Config -> option Credentials;
  graphReply : Trace -> string -> string -> option string;
  graphMarkRead : Trace -> string -> option string;
  dateParse : string -> Z;
  dateNow : Trace -> Z
}.

(** ** A state and exception monad for the handler *)

Inductive Outcome (A : Type) : Type :=
| Returned (a : A)
| Threw (err : string).

Arguments Returned {A} a.
Arguments Threw {A} err.

Definition M (A : Type) : Type := World -> Outcome A * World.

Definition ret {A} (a : A) : M A := fun w => (Returned a, w).

Definition bind {A B} (m : M A) (k : A -> M B) : M B :=
  fun w =>
    match m w with
    | (Returned a, w') => k a w'
    | (Threw e, w') => (Threw e, w')
    end.

Definition throw {A} (err : string) : M A := fun w => (Threw err, w).

(** [try { m } catch (err) { h(err) }], and [promise.catch(h)]. *)
Definition tryCatch {A} (m : M A) (h : string -> M A) : M A :=
  fun w =>
    match m w with
    | (Returned a, w') => (Returned a, w')
    | (Threw e, w') => h e w'
    end.

Definition emit (e : Effect) : M unit :=
  fun w => (Returned tt, {| pairingRequests := pairingRequests w;
                            trace := (trace w ++ [e])%list |}).

Definition history : M Trace := fun w => (Returned (trace w), w).

Declare Scope handler_scope.
Delimit Scope handler_scope with handler.

Notation "x <- m ;; k" := (bind m (fun x => k))
  (at level 61, m at next level, right associativity) : handler_scope.
Notation "m ;; k" := (bind m (fun _ => k))
  (at level 61, right associativity) : handler_scope.

Local Open Scope handler_scope.

(** ** Small JavaScript idioms *)

(** [o ?? d]. *)
Definition orElse {A} (o : option A) (d : A) : A :=
  match o with
  | Some a => a
  | None => d
  end.

(** Truthiness of a [string | undefined]. *)
Definition truthyOpt (o : option string) : bool :=
  match o with
  | Some s => truthy s
  | None => false
  end.

(** [o || undefined]. *)
Definition orUndefined (o : option string) : option string :=
  if truthyOpt o then o else None.

(** A [string | undefined] inside a template literal. *)
Definition interpolate (o : option string) : string := orElse o "undefined".

Definition newline : string := String (ascii_of_nat 10) EmptyString.

(** [credentials?.refreshToken] as a condition. *)
Definition hasRefreshToken (credentials : option Credentials) : bool :=
  match credentials with
  | Some c => truthyOpt (credRefreshToken c)
  | None => false
  end.

(** ** The plugin object: the pure helpers *)

(** [config.formatAllowFrom]. *)
Definition formatAllowFrom (allowFrom : list string) : list string :=
  filter truthy (map (fun entry => toLowerCase (trim entry)) allowFrom).

(** The normal form of an allow-list entry: [String(e).trim().toLowerCase()]. *)
Definition normalizeEntry (e : string) : string := toLowerCase (trim e).

(** [pairing.normalizeAllowEntry]. *)
Definition normalizeAllowEntry (entry : string) : string :=
  trim (toLowerCase entry).

(** [security.collectWarnings]. *)
Definition collectWarnings (cfg : OpenClawConfig) : list string :=
  let m365 := microsoft365 cfg in
  let dmPolicy :=
    orElse (match m365 with Some m => dmPolicy m | None => None end) Pairing in
  if dmPolicy_eqb dmPolicy Open then
    ["- Microsoft 365 Mail: dmPolicy=" ++ String (ascii_of_nat 34) "open"
     ++ String (ascii_of_nat 34) " allows anyone to send emails that trigger the agent. Consider using "
     ++ String (ascii_of_nat 34) "pairing" ++ String (ascii_of_nat 34) " or "
     ++ String (ascii_of_nat 34) "allowlist" ++ String (ascii_of_nat 34) "."]
  else [].

(** ** [runtime.ts] *)

(** [getMicrosoft365Runtime], over the module-level [runtime] variable. *)
Definition getMicrosoft365Runtime (runtime : option PluginRuntime) : M PluginRuntime :=
  match runtime with
  | None => throw "Error: Microsoft365 runtime not initialized"
  | Some r => ret r
  end.

(** ** Effectful primitives *)

Definition CHANNEL_ID : string := "microsoft365".

(** [log?.info?.(msg)] and its siblings. *)
Definition logTo (sink : bool) (level : LogLevel) (msg : string) : M unit :=
  if sink then emit (Log level msg) else ret tt.

(** Modelled from the spec: [logInboundDrop({ log, channel, reason, target })],
    a helper of the plugin SDK.  It emits the structured drop record
    [{channel, reason, target}] to the operational log, that is through the
    [log] callback it is given, and has no other effect.  [sink] says whether
    that callback writes anything: the handler passes
    [(msg) => log?.info?.(msg)], which is silent when the handler was given no
    log. *)
Definition logInboundDrop (sink : bool) (channel reason target : string) : M unit :=
  if sink then emit (InboundDrop channel reason target) else ret tt.

(** [client.replyToMail(messageId, text)]: the call is made, then it resolves
    or rejects. *)
Definition replyToMail (ext : Externals) (messageId body : string) : M unit :=
  h <- history ;;
  emit (GraphReplyToMail messageId body) ;;
  match graphReply ext h messageId body with
  | None => ret tt
  | Some err => throw err
  end.

(** [client.markAsRead(messageId)]. *)
Definition markAsRead (ext : Externals) (messageId : string) : M unit :=
  h <- history ;;
  emit (GraphMarkAsRead messageId) ;;
  match graphMarkRead ext h messageId with
  | None => ret tt
  | Some err => throw err
  end.

(** [core.channel.pairing.readAllowFromStore(channel)], a promise that may
    reject. *)
Definition readAllowFrom (core : PluginRuntime) (channel : string) : M (list string) :=
  h <- history ;;
  match readAllowFromStore core h channel with
  | Some entries => ret entries
  | None => throw "Error: allow-from store unavailable"
  end.

Definition pendingFor (channel ident : string) (r : PairingRequest) : bool :=
  String.eqb (prChannel r) channel && String.eqb (prId r) ident.

(** Modelled from the spec: [core.channel.pairing.upsertPairingRequest], which
    lives in the core's pairing store and is not part of the channel sources.
    If a pending request for (channel, sender identity) exists, its code is
    returned with [created = false]; otherwise a new opaque code is generated,
    the request is persisted, and [created = true] is returned. *)
Definition upsertPairingRequest (core : PluginRuntime) (ext : Externals)
    (channel ident : string) (displayName : option string) : M (string * bool) :=
  fun w =>
    match find (pendingFor channel ident) (pairingRequests w) with
    | Some r =>
        (Returned (prCode r, false),
         {| pairingRequests := pairingRequests w;
            trace := (trace w ++ [PairingUpsert channel ident displayName (prCode r) false])%list |})
    | None =>
        let code := generateCode core (pairingRequests w) in
        let request := {| prChannel := channel; prId := ident; prCode := code;
                          prName := displayName; prCreatedAt := dateNow ext (trace w) |} in
        (Returned (code, true),
         {| pairingRequests := (pairingRequests w ++ [request])%list;
            trace := (trace w ++ [PairingUpsert channel ident displayName code true])%list |})
    end.

(** Modelled from the spec: [core.channel.session.recordInboundSession], part
    of the core's session store.  The write is best effort: when it fails the
    error goes to [onRecordError] and the caller carries on. *)
Definition recordInboundSession (core : PluginRuntime)
    (storePath sessionKey : string) (ctx : InboundContext)
    (onRecordError : string -> M unit) : M unit :=
  h <- history ;;
  emit (RecordInboundSession storePath sessionKey ctx) ;;
  match sessionWrite core h storePath sessionKey with
  | None => ret tt
  | Some err => onRecordError err
  end.

(** Modelled from the spec: the delivery loop of
    [core.channel.reply.dispatchReplyWithBufferedBlockDispatcher], part of the
    core's reply dispatcher.  Fragments are delivered in emission order, each
    delivery awaited before the next; an empty or white-space-only fragment is
    skipped without invoking delivery; a delivery failure is caught, reported
    to the error callback with the fragment's kind, and the loop continues
    with the next fragment. *)
Fixpoint dispatchFragments (deliver : ReplyFragment -> M unit)
    (onError : string -> string -> M unit) (fragments : list ReplyFragment) : M unit :=
  match fragments with
  | [] => ret tt
  | fragment :: rest =>
      (if truthy (trim (orElse (text fragment) ""))
       then tryCatch (deliver fragment) (fun err => onError err (kind fragment))
       else ret tt) ;;
      dispatchFragments deliver onError rest
  end.

(** Modelled from the spec: [dispatchReplyWithBufferedBlockDispatcher] hands
    the context to the agent and dispatches the fragments it produces. *)
Definition dispatchReplyWithBufferedBlockDispatcher (core : PluginRuntime)
    (ctx : InboundContext) (cfg : OpenClawConfig)
    (deliver : ReplyFragment -> M unit) (onError : string -> string -> M unit) : M unit :=
  emit (AgentInvoke ctx) ;;
  h <- history ;;
  dispatchFragments deliver onError (agentReply core h ctx cfg).

(** ** [handleIncomingMail] *)

(** [message.from?.emailAddress?.address?.toLowerCase()]. *)
Definition fromEmailOf (message : GraphMailMessage) : option string :=
  match from message with
  | Some r =>
      match emailAddress r with
      | Some a => option_map toLowerCase (address a)
      | None => None
      end
  | None => None
  end.

(** [message.from?.emailAddress?.name]. *)
Definition fromNameOf (message : GraphMailMessage) : option string :=
  match from message with
  | Some r =>
      match emailAddress r with
      | Some a => name a
      | None => None
      end
  | None => None
  end.

(** [rawBody]: the trimmed text content for a text body, otherwise the trimmed
    preview or the empty string. *)
Definition rawBodyOf (message : GraphMailMessage) : option string :=
  let isText :=
    match body message with
    | Some b => match contentType b with
                | Some t => String.eqb t "text"
                | None => false
                end
    | None => false
    end in
  if isText
  then match body message with
       | Some b => option_map trim (content b)
       | None => None
       end
  else Some (orElse (option_map trim (bodyPreview message)) "").

(** [m365?.dmPolicy ?? "pairing"]. *)
Definition dmPolicyOf (m365 : option Microsoft365Config) : DmPolicy :=
  orElse (match m365 with Some m => dmPolicy m | None => None end) Pairing.

(** The allow-list the gate consults: the configured entries, then the stored
    ones, each trimmed and lower-cased, empty strings dropped. *)
Definition effectiveAllowFrom (configured : option (list string))
    (storeAllowFrom : list string) : list string :=
  let configAllowFrom :=
    filter truthy (map (fun e => toLowerCase (trim e)) (orElse configured [])) in
  let storeAllowList :=
    filter truthy (map (fun e => toLowerCase (trim e)) storeAllowFrom) in
  (configAllowFrom ++ storeAllowList)%list.

(** [effectiveAllowFrom.some((entry) => entry === fromEmail || entry === "*")]. *)
Definition senderAllowed (allowList : list string) (fromEmail : string) : bool :=
  existsb (fun entry => String.eqb entry fromEmail || String.eqb entry "*") allowList.

Section Handler.

Variable runtime : option PluginRuntime.
Variable ext : Externals.

(** The pairing reply: sent only for a newly created request and only with a
    refresh token; a failed send is logged and swallowed. *)
Definition sendPairingReply (core : PluginRuntime) (p : Params)
    (m365 : option Microsoft365Config) (fromEmail code : string) : M unit :=
  tryCatch
    (let credentials := resolveCredentials ext m365 in
     if hasRefreshToken credentials
     then replyToMail ext (id (message p))
            (buildPairingReply core CHANNEL_ID
               ("Your email address: " ++ fromEmail) code)
     else ret tt)
    (fun err =>
       logTo (log p) Error
         ("microsoft365: pairing reply failed for " ++ fromEmail ++ ": " ++ err)).

(** DM policy enforcement.  [true] lets the handler go on; [false] is the
    early [return] after the drop has been logged. *)
Definition enforceDmPolicy (core : PluginRuntime) (p : Params)
    (m365 : option Microsoft365Config) (policy : DmPolicy)
    (allowList : list string) (fromEmail : string)
    (fromName : option string) : M bool :=
  if negb (dmPolicy_eqb policy Open) then
    if negb (senderAllowed allowList fromEmail) then
      (if dmPolicy_eqb policy Pairing then
         r <- upsertPairingRequest core ext CHANNEL_ID fromEmail (orUndefined fromName) ;;
         let (code, created) := r : string * bool in
         if created then sendPairingReply core p m365 fromEmail code else ret tt
       else ret tt) ;;
      logInboundDrop (log p) CHANNEL_ID ("dmPolicy=" ++ dmPolicyName policy) fromEmail ;;
      ret false
    else ret true
  else ret true.

(** The [deliver] callback given to the dispatcher. *)
Definition deliver (p : Params) (m365 : option Microsoft365Config)
    (payload : ReplyFragment) : M unit :=
  let text := orElse (text payload) "" in
  if negb (truthy (trim text)) then ret tt
  else
    let credentials := resolveCredentials ext m365 in
    if negb (hasRefreshToken credentials)
    then logTo (log p) Error "microsoft365: cannot reply, missing refreshToken"
    else replyToMail ext (id (message p)) text.

(** The [onError] callback given to the dispatcher. *)
Definition onError (p : Params) (err infoKind : string) : M unit :=
  logTo (log p) Error ("microsoft365 " ++ infoKind ++ " reply failed: " ++ err).

(** Everything after the gate: mark as read, resolve the route, build the
    envelope, record the session and dispatch the reply. *)
Definition processAdmitted (core : PluginRuntime) (p : Params)
    (m365 : option Microsoft365Config) (fromEmail : string)
    (fromName : option string) (subject : string)
    (rawBody : option string) : M unit :=
  tryCatch
    (let credentials := resolveCredentials ext m365 in
     if hasRefreshToken credentials
     then markAsRead ext (id (message p))
     else ret tt)
    (fun err =>
       logTo (log p) Warn
         ("microsoft365: failed to mark message as read: " ++ err)) ;;
  let route := resolveAgentRoute core (cfg p) CHANNEL_ID (accountId p) fromEmail in
  let storePath := resolveStorePath core (sessionStore (cfg p)) (agentId route) in
  let envelopeOptions := resolveEnvelopeFormatOptions core (cfg p) in
  h <- history ;;
  let previousTimestamp :=
    readSessionUpdatedAt core h storePath (routeSessionKey route) in
  let messageTimestamp :=
    if truthyOpt (receivedDateTime (message p))
    then dateParse ext (orElse (receivedDateTime (message p)) "")
    else dateNow ext h in
  let bodyText :=
    if truthy subject
    then Some ("Subject: " ++ subject ++ newline ++ newline ++ interpolate rawBody)
    else rawBody in
  let sender :=
    if truthyOpt fromName
    then orElse fromName "" ++ " <" ++ fromEmail ++ ">"
    else fromEmail in
  let body :=
    formatAgentEnvelope core
      {| envChannel := "Microsoft 365 Mail";
         envFrom := sender;
         envTimestamp := messageTimestamp;
         envPreviousTimestamp := previousTimestamp;
         envEnvelope := envelopeOptions;
         envBody := bodyText |} in
  let ctxPayload :=
    finalizeInboundContext core
      {| Body := body;
         RawBody := bodyText;
         CommandBody := bodyText;
         From := "microsoft365:" ++ fromEmail;
         To := "microsoft365:" ++ accountId p;
         SessionKey := Some (routeSessionKey route);
         AccountId := routeAccountId route;
         ChatType := "direct";
         ConversationLabel := sender;
         SenderName := orUndefined fromName;
         SenderId := fromEmail;
         Provider := CHANNEL_ID;
         Surface := CHANNEL_ID;
         MessageSid := id (message p);
         Timestamp := messageTimestamp;
         OriginatingChannel := CHANNEL_ID;
         OriginatingTo := "microsoft365:" ++ accountId p |} in
  recordInboundSession core storePath
    (orElse (SessionKey ctxPayload) (routeSessionKey route)) ctxPayload
    (fun err =>
       logTo (log p) Error
         ("microsoft365: failed updating session meta: " ++ err)) ;;
  dispatchReplyWithBufferedBlockDispatcher core ctxPayload (cfg p)
    (deliver p m365) (onError p).

Definition handleIncomingMail (p : Params) : M unit :=
  core <- getMicrosoft365Runtime runtime ;;
  let fromEmail := fromEmailOf (message p) in
  let fromName := fromNameOf (message p) in
  let subject := orElse (subject (message p)) "(no subject)" in
  let rawBody := rawBodyOf (message p) in
  if negb (truthyOpt fromEmail) then
    logTo (log p) Warn "microsoft365: dropping message with no sender address"
  else
    let fromEmail := orElse fromEmail "" in
    logTo (log p) Info ("Incoming email from " ++ fromEmail ++ ": " ++ subject) ;;
    let m365 := microsoft365 (cfg p) in
    let policy := dmPolicyOf m365 in
    storeAllowFrom <- tryCatch (readAllowFrom core CHANNEL_ID) (fun _ => ret []) ;;
    let allowList :=
      effectiveAllowFrom
        (match m365 with Some m => allowFrom m | None => None end)
        storeAllowFrom in
    admitted <- enforceDmPolicy core p m365 policy allowList fromEmail fromName ;;
    if admitted
    then processAdmitted core p m365 fromEmail fromName subject rawBody
    else ret tt.

End Handler.

(** ** A concrete environment

    A runtime, a Graph client and a few messages on which the handler can be
    run.  The Graph client of [flakyExternals] rejects every reply whose body
    is ["B"]; the one of [downExternals] rejects every call. *)

Module Demo.

Definition core (stored : option (list string)) : PluginRuntime :=
  {| readAllowFromStore := fun _ _ => stored;
     generateCode := fun pending =>
       String (ascii_of_nat (65 + List.length pending)) "7KQ2";
     buildPairingReply := fun channel idLine code =>
       idLine ++ newline ++ "Pairing code: " ++ code;
     resolveAgentRoute := fun _ channel account peer =>
       {| agentId := "main";
          routeSessionKey := "agent:main:" ++ channel ++ ":dm:" ++ peer;
          routeAccountId := account |};
     resolveStorePath := fun store agent => orElse store "sessions" ++ "/" ++ agent;
     resolveEnvelopeFormatOptions := fun _ => "utc";
     readSessionUpdatedAt := fun _ _ _ => None;
     formatAgentEnvelope := fun a =>
       "[" ++ envChannel a ++ " " ++ envFrom a ++ "] " ++ interpolate (envBody a);
     finalizeInboundContext := fun c => c;
     sessionWrite := fun _ _ _ => None;
     agentReply := fun _ _ _ =>
       [ {| text := Some "A"; kind := "block" |};
         {| text := Some "B"; kind := "tool" |};
         {| text := Some "C"; kind := "final" |} ] |}.

Definition externals : Externals :=
  {| resolveCredentials := fun m =>
       match m with
       | Some c => Some {| credRefreshToken := refreshToken c |}
       | None => None
       end;
     graphReply := fun _ _ _ => None;
     graphMarkRead := fun _ _ => None;
     dateParse := fun _ => 1700000000000%Z;
     dateNow := fun _ => 1700000000500%Z |}.

Definition flakyExternals : Externals :=
  {| resolveCredentials := resolveCredentials externals;
     graphReply := fun _ _ body =>
       if String.eqb body "B" then Some "Error: 503" else None;
     graphMarkRead := graphMarkRead externals;
     dateParse := dateParse externals;
     dateNow := dateNow externals |}.

Definition downExternals : Externals :=
  {| resolveCredentials := resolveCredentials externals;
     graphReply := fun _ _ _ => Some "Error: 503";
     graphMarkRead := fun _ _ => Some "Error: 503";
     dateParse := dateParse externals;
     dateNow := dateNow externals |}.

Definition config (policy : option DmPolicy) (allow : option (list string))
    : Microsoft365Config :=
  {| enabled := Some true;
     clientId := Some "client";
     clientSecret := Some "secret";
     tenantId := Some "tenant";
     refreshToken := Some "refresh";
     accessToken := None;
     tokenExpiresAt := None;
     userEmail := Some "agent@x.com";
     webhook := None;
     pollIntervalMs := None;
     folders := None;
     allowFrom := allow;
     dmPolicy := policy |}.

Definition mail (ident : string) (sender : option string) : GraphMailMessage :=
  {| id := ident;
     from := Some {| emailAddress :=
                       Some {| address := sender; name := Some "New User" |} |};
     subject := Some "Hello";
     body := Some {| contentType := Some "text"; content := Some " hi " |};
     bodyPreview := Some "hi";
     receivedDateTime := Some "2023-11-14T22:13:20Z" |}.

Definition params (policy : option DmPolicy) (allow : option (list string))
    (ident : string) (sender : option string) : Params :=
  {| message := mail ident sender;
     cfg := {| microsoft365 := Some (config policy allow);
               sessionStore := None;
               otherSettings := "" |};
     accountId := "default";
     log := true |}.

Definition fresh : World := {| pairingRequests := []; trace := [] |}.

End Demo.

(** ** Describing runs

    Worlds, traces and decisions in which the theorems below are stated. *)

Local Open Scope list_scope.

(** *** Worlds and effects *)

(** The world after [added] more effects, pairing store untouched. *)
Definition extend (w : World) (added : Trace) : World :=
  {| pairingRequests := pairingRequests w; trace := (trace w ++ added)%list |}.

(** What a log call leaves in the trace. *)
Definition logged (sink : bool) (level : LogLevel) (msg : string) : Trace :=
  if sink then [Log level msg] else [].

(** What [logInboundDrop] leaves in the trace: the record, when the log
    callback writes. *)
Definition dropped (sink : bool) (record : Effect) : Trace :=
  if sink then [record] else [].

Definition isAgentInvoke (e : Effect) : bool :=
  match e with AgentInvoke _ => true | _ => false end.

Definition isPairingUpsert (e : Effect) : bool :=
  match e with PairingUpsert _ _ _ _ _ => true | _ => false end.

Definition isInboundDrop (e : Effect) : bool :=
  match e with InboundDrop _ _ _ => true | _ => false end.

Definition isGraphReply (e : Effect) : bool :=
  match e with GraphReplyToMail _ _ => true | _ => false end.

Definition isMarkAsRead (e : Effect) : bool :=
  match e with GraphMarkAsRead _ => true | _ => false end.

Definition isSessionWrite (e : Effect) : bool :=
  match e with RecordInboundSession _ _ _ => true | _ => false end.

(** The effects the pairing flow may perform: the upsert, the pairing reply,
    and the error line of a failed reply. *)
Definition isPairingFlow (e : Effect) : bool :=
  match e with
  | PairingUpsert _ _ _ _ _ | GraphReplyToMail _ _ | Log Error _ => true
  | _ => false
  end.

(** The effects that follow admission. *)
Definition isPostAdmission (e : Effect) : bool :=
  match e with
  | PairingUpsert _ _ _ _ _ | InboundDrop _ _ _ => false
  | _ => true
  end.

(** *** Traces of the single steps *)

(** What the pairing reply leaves in the trace when it is attempted at
    history [h]: nothing without a refresh token; otherwise the Graph call,
    followed by the error line when the call is rejected. *)
Definition pairingReplyTrace (ext : Externals) (core : PluginRuntime)
    (p : Params) (m365 : option Microsoft365Config)
    (fromEmail code : string) (h : Trace) : Trace :=
  let reply := buildPairingReply core CHANNEL_ID
                 ("Your email address: " ++ fromEmail)%string code in
  if hasRefreshToken (resolveCredentials ext m365)
  then GraphReplyToMail (id (message p)) reply ::
       match graphReply ext h (id (message p)) reply with
       | None => []
       | Some err =>
           logged (log p) Error
             ("microsoft365: pairing reply failed for " ++ fromEmail ++ ": " ++ err)%string
       end
  else [].

(** What delivering one fragment leaves in the trace at history [h]. *)
Definition deliverTrace (ext : Externals) (p : Params)
    (m365 : option Microsoft365Config) (payload : ReplyFragment) (h : Trace) : Trace :=
  let body := orElse (text payload) "" in
  if negb (truthy (trim body)) then []
  else if negb (hasRefreshToken (resolveCredentials ext m365))
       then logged (log p) Error "microsoft365: cannot reply, missing refreshToken"
       else [GraphReplyToMail (id (message p)) body].

(** What the mark-as-read attempt leaves in the trace at history [h]. *)
Definition markAsReadTrace (ext : Externals) (p : Params)
    (m365 : option Microsoft365Config) (h : Trace) : Trace :=
  if hasRefreshToken (resolveCredentials ext m365)
  then GraphMarkAsRead (id (message p)) ::
       match graphMarkRead ext h (id (message p)) with
       | None => []
       | Some err =>
           logged (log p) Warn
             ("microsoft365: failed to mark message as read: " ++ err)%string
       end
  else [].

(** *** The gate and its decision *)

(** [m365?.allowFrom]. *)
Definition configuredAllowFrom (m365 : option Microsoft365Config) : option (list string) :=
  match m365 with
  | Some m => allowFrom m
  | None => None
  end.

(** [message.from?.emailAddress?.address], as it was received. *)
Definition senderAddressOf (message : GraphMailMessage) : option string :=
  match from message with
  | Some r =>
      match emailAddress r with
      | Some a => address a
      | None => None
      end
  | None => None
  end.

(** The line logged for every mail that has a sender. *)
Definition incomingLine (p : Params) (fromEmail : string) : string :=
  ("Incoming email from " ++ fromEmail ++ ": "
   ++ orElse (subject (message p)) "(no subject)")%string.

(** The world in which the gate runs: the incoming line has been logged. *)
Definition afterIncoming (p : Params) (fromEmail : string) (w : World) : World :=
  extend w (logged (log p) Info (incomingLine p fromEmail)).

(** The allow-list the handler resolves in world [w]; a rejected store read
    counts as an empty store. *)
Definition allowListAt (core : PluginRuntime) (p : Params) (w : World) : list string :=
  effectiveAllowFrom (configuredAllowFrom (microsoft365 (cfg p)))
    (orElse (readAllowFromStore core (trace w) CHANNEL_ID) []).

(** The request a first upsert persists in world [w]. *)
Definition newRequest (core : PluginRuntime) (ext : Externals)
    (channel ident : string) (displayName : option string) (w : World) : PairingRequest :=
  {| prChannel := channel; prId := ident;
     prCode := generateCode core (pairingRequests w);
     prName := displayName; prCreatedAt := dateNow ext (trace w) |}.

(** Whether the handler lets the mail of [p] through in world [w]: there is a
    sender, and the policy is open or the allow-list test succeeds. *)
Definition admits (core : PluginRuntime) (p : Params) (w : World) : bool :=
  match fromEmailOf (message p) with
  | Some fromEmail =>
      truthy fromEmail
      && (dmPolicy_eqb (dmPolicyOf (microsoft365 (cfg p))) Open
          || senderAllowed (allowListAt core p (afterIncoming p fromEmail w)) fromEmail)
  | None => false
  end.

(** The drop record of a mail that has a sender and is not let through, as
    [logInboundDrop] receives it. *)
Definition dropRecord (p : Params) (fromEmail : string) : Effect :=
  InboundDrop CHANNEL_ID
    ("dmPolicy=" ++ dmPolicyName (dmPolicyOf (microsoft365 (cfg p))))%string fromEmail.

(** *** Variations of the environment *)

(** The runtime with another allow-list store. *)
Definition withAllowFromStore (read : Trace -> string -> option (list string))
    (core : PluginRuntime) : PluginRuntime :=
  {| readAllowFromStore := read;
     generateCode := generateCode core;
     buildPairingReply := buildPairingReply core;
     resolveAgentRoute := resolveAgentRoute core;
     resolveStorePath := resolveStorePath core;
     resolveEnvelopeFormatOptions := resolveEnvelopeFormatOptions core;
     readSessionUpdatedAt := readSessionUpdatedAt core;
     formatAgentEnvelope := formatAgentEnvelope core;
     finalizeInboundContext := finalizeInboundContext core;
     sessionWrite := sessionWrite core;
     agentReply := agentReply core |}.

Definition emptyMicrosoft365Config : Microsoft365Config :=
  {| enabled := None; clientId := None; clientSecret := None; tenantId := None;
     refreshToken := None; accessToken := None; tokenExpiresAt := None;
     userEmail := None; webhook := None; pollIntervalMs := None;
     folders := None; allowFrom := None; dmPolicy := None |}.

Definition withDmPolicy (policy : option DmPolicy) (m : Microsoft365Config)
    : Microsoft365Config :=
  {| enabled := enabled m; clientId := clientId m; clientSecret := clientSecret m;
     tenantId := tenantId m; refreshToken := refreshToken m;
     accessToken := accessToken m; tokenExpiresAt := tokenExpiresAt m;
     userEmail := userEmail m; webhook := webhook m;
     pollIntervalMs := pollIntervalMs m; folders := folders m;
     allowFrom := allowFrom m; dmPolicy := policy |}.

(** The same event under the same configuration with [dmPolicy: "pairing"]
    written out. *)
Definition explicitPairing (p : Params) : Params :=
  {| message := message p;
     cfg := {| microsoft365 :=
                 Some (withDmPolicy (Some Pairing)
                         (orElse (microsoft365 (cfg p)) emptyMicrosoft365Config));
               sessionStore := sessionStore (cfg p);
               otherSettings := otherSettings (cfg p) |};
     accountId := accountId p;
     log := log p |}.

(** [m365?.dmPolicy]. *)
Definition configuredDmPolicy (m365 : option Microsoft365Config) : option DmPolicy :=
  match m365 with
  | Some m => dmPolicy m
  | None => None
  end.

(** *** Reply dispatch *)

(** The Graph call that delivers fragment [f] of the reply to [p]. *)
Definition sent (p : Params) (f : ReplyFragment) : Effect :=
  GraphReplyToMail (id (message p)) (orElse (text f) "").

(** A fragment with something to deliver. *)
Definition nonBlank (f : ReplyFragment) : bool :=
  truthy (trim (orElse (text f) "")).

(** The line [onError] logs for a failed fragment. *)
Definition failureLine (p : Params) (f : ReplyFragment) (err : string) : Trace :=
  logged (log p) Error ("microsoft365 " ++ kind f ++ " reply failed: " ++ err)%string.

(** What dispatching one fragment at history [h] leaves in the trace: nothing
    for a blank fragment; the Graph call, followed by the failure line when
    the call is rejected; or the complaint about the missing refresh token. *)
Definition fragmentTrace (ext : Externals) (p : Params)
    (m365 : option Microsoft365Config) (f : ReplyFragment) (h : Trace) : Trace :=
  if nonBlank f then
    if hasRefreshToken (resolveCredentials ext m365) then
      sent p f ::
      match graphReply ext h (id (message p)) (orElse (text f) "") with
      | None => []
      | Some err => failureLine p f err
      end
    else logged (log p) Error "microsoft365: cannot reply, missing refreshToken"
  else [].

(** *** Sequences of events *)




(** ** More string primitives *)

(** [s.startsWith(prefix)]. *)
Definition startsWith (prefix s : string) : bool := String.prefix prefix s.

(** [s.slice(n)] for a non-negative [n]. *)
Fixpoint sliceFrom (n : nat) (s : string) : string :=
  match n, s with
  | O, _ => s
  | S n', String _ s' => sliceFrom n' s'
  | S _, EmptyString => EmptyString
  end.

(** [s.includes(needle)]. *)
Fixpoint includes (needle s : string) : bool :=
  String.prefix needle s
  || match s with
     | EmptyString => false
     | String _ s' => includes needle s'
     end.

(** Whether the code unit [c] occurs in [s]. *)
Fixpoint occurs (c : ascii) (s : string) : bool :=
  match s with
  | EmptyString => false
  | String d s' => Ascii.eqb c d || occurs c s'
  end.

(** A string without white space. *)
Fixpoint solid (s : string) : bool :=
  match s with
  | EmptyString => true
  | String c s' => negb (isWhiteSpace c) && solid s'
  end.

(** ** The plugin object: targets, peers and accounts *)

(** [messaging.normalizeTarget]. *)
Definition normalizeTarget (raw : string) : option string :=
  let trimmed := toLowerCase (trim raw) in
  if startsWith "email:" trimmed then Some (trim (sliceFrom 6 trimmed))
  else if startsWith "mailto:" trimmed then Some (trim (sliceFrom 7 trimmed))
  else if includes "@" trimmed then Some trimmed
  else None.

(** [messaging.targetResolver.looksLikeId]. *)
Definition looksLikeId (raw : string) : bool := includes "@" raw.

(** The result of [resolveTarget]: [{ ok: true, to }] or [{ ok: false, error }]. *)
Inductive TargetResolution : Type :=
| TargetOk (to : string)
| TargetError (reason : string).

(** [microsoft365Outbound.resolveTarget] of [outbound.ts]; the [mode] argument
    is not used. *)
Definition resolveTarget (to : option string) (allowFrom : option (list string))
    : TargetResolution :=
  let trimmed := orElse (option_map (fun t => toLowerCase (trim t)) to) ""%string in
  if truthy trimmed && includes "@" trimmed then TargetOk trimmed
  else
    let allowList :=
      filter (fun entry => negb (String.eqb entry "*"))
        (filter truthy
           (map (fun entry => toLowerCase (trim entry)) (orElse allowFrom []))) in
    match allowList with
    | first :: _ => TargetOk first
    | [] =>
        TargetError
          "Microsoft 365 Mail: no target email address. Provide `to=<email>` or set channels.microsoft365.allowFrom."
    end.

Record Peer : Type := {
  peerKind : string;
  peerId : string
}.

(** [directory.listPeers]. *)
Definition listPeers (cfg : OpenClawConfig) (query : option string)
    (limit : option Z) : list Peer :=
  let m365 := microsoft365 cfg in
  let allowFrom := orElse (match m365 with Some m => allowFrom m | None => None end) [] in
  let q :=
    let lowered := option_map (fun s => toLowerCase (trim s)) query in
    if truthyOpt lowered then orElse lowered ""%string else ""%string in
  let upTo (l : list string) :=
    match limit with
    | Some n => if (0 <? n)%Z then firstn (Z.to_nat n) l else l
    | None => l
    end in
  map (fun ident => {| peerKind := "user"; peerId := ident |})
    (upTo
       (filter (fun email => if truthy q then includes q email else true)
          (filter truthy
             (map (fun email => toLowerCase (trim email)) allowFrom)))).

(** The module-level [runtimeState] of [channel.ts]. *)
Record RuntimeState : Type := {
  rsConnected : bool;
  rsWebhookActive : bool;
  rsSubscriptionId : option string;
  rsLastError : option string;
  rsUserEmail : option string
}.

Record ResolvedMicrosoft365Account : Type := {
  raAccountId : string;
  raEnabled : bool;
  raConfigured : bool;
  raUserEmail : option string
}.

(** [config.resolveAccount].  [defaultAccountId] stands for the SDK constant
    [DEFAULT_ACCOUNT_ID]. *)
Definition resolveAccount (defaultAccountId : string) (ext : Externals)
    (state : RuntimeState) (cfg : OpenClawConfig) : ResolvedMicrosoft365Account :=
  let m365 := microsoft365 cfg in
  let credentials := resolveCredentials ext m365 in
  {| raAccountId := defaultAccountId;
     raEnabled :=
       match m365 with
       | Some m => match enabled m with Some false => false | _ => true end
       | None => true
       end;
     raConfigured := hasRefreshToken credentials;
     raUserEmail :=
       match (match m365 with Some m => userEmail m | None => None end) with
       | Some e => Some e
       | None => rsUserEmail state
       end |}.

(** [config.setAccountEnabled]: the configuration with
    [channels.microsoft365.enabled] set and everything else spread over. *)
Definition setAccountEnabled (cfg : OpenClawConfig) (flag : bool) : OpenClawConfig :=
  let m := orElse (microsoft365 cfg) emptyMicrosoft365Config in
  {| microsoft365 :=
       Some {| enabled := Some flag; clientId := clientId m;
               clientSecret := clientSecret m; tenantId := tenantId m;
               refreshToken := refreshToken m; accessToken := accessToken m;
               tokenExpiresAt := tokenExpiresAt m; userEmail := userEmail m;
               webhook := webhook m; pollIntervalMs := pollIntervalMs m;
               folders := folders m; allowFrom := allowFrom m;
               dmPolicy := dmPolicy m |};
     sessionStore := sessionStore cfg;
     otherSettings := otherSettings cfg |}.

(** The runtime record handed to [status.buildAccountSnapshot]. *)
Record AccountRuntime : Type := {
  arRunning : option bool;
  arLastStartAt : option Z;
  arLastStopAt : option Z;
  arLastError : option string
}.

(** The fields of an account snapshot that the channel writes and reads. *)
Record AccountSnapshot : Type := {
  snAccountId : string;
  snEnabled : bool;
  snConfigured : option bool;
  snUserEmail : option string;
  snConnected : option bool;
  snWebhookActive : option bool;
  snSubscriptionId : option string;
  snRunning : bool;
  snLastStartAt : option Z;
  snLastStopAt : option Z;
  snLastError : option string;
  snProbe : option string
}.

Record ChannelSummary : Type := {
  csConfigured : bool;
  csRunning : bool;
  csLastStartAt : option Z;
  csLastStopAt : option Z;
  csLastError : option string;
  csUserEmail : option string;
  csWebhookActive : bool;
  csSubscriptionId : option string
}.

(** [o ?? d] where [d] may itself be absent. *)
Definition orElseOpt {A} (o d : option A) : option A :=
  match o with
  | Some a => Some a
  | None => d
  end.

(** [status.buildAccountSnapshot]. *)
Definition buildAccountSnapshot (state : RuntimeState)
    (account : ResolvedMicrosoft365Account) (runtime : option AccountRuntime)
    (probe : option string) : AccountSnapshot :=
  {| snAccountId := raAccountId account;
     snEnabled := raEnabled account;
     snConfigured := Some (raConfigured account);
     snUserEmail := orElseOpt (raUserEmail account) (rsUserEmail state);
     snConnected := Some (rsConnected state);
     snWebhookActive := Some (rsWebhookActive state);
     snSubscriptionId := rsSubscriptionId state;
     snRunning :=
       orElse (match runtime with Some r => arRunning r | None => None end) false;
     snLastStartAt := match runtime with Some r => arLastStartAt r | None => None end;
     snLastStopAt := match runtime with Some r => arLastStopAt r | None => None end;
     snLastError :=
       orElseOpt (rsLastError state)
         (match runtime with Some r => arLastError r | None => None end);
     snProbe := probe |}.

(** [status.buildChannelSummary]. *)
Definition buildChannelSummary (snapshot : AccountSnapshot) : ChannelSummary :=
  {| csConfigured := orElse (snConfigured snapshot) false;
     csRunning := orElse (snConnected snapshot) false;
     csLastStartAt := snLastStartAt snapshot;
     csLastStopAt := snLastStopAt snapshot;
     csLastError := snLastError snapshot;
     csUserEmail := snUserEmail snapshot;
     csWebhookActive := orElse (snWebhookActive snapshot) false;
     csSubscriptionId := snSubscriptionId snapshot |}.


(** Whether a Graph call in the trace, if [e] is one, is about message
    [messageId]. *)
Definition isAbout (messageId : string) (e : Effect) : bool :=
  match e with
  | GraphReplyToMail m _ | GraphMarkAsRead m => String.eqb m messageId
  | _ => true
  end.

(** A call to the Graph client. *)
Definition isGraphCall (e : Effect) : bool :=
  match e with
  | GraphReplyToMail _ _ | GraphMarkAsRead _ => true
  | _ => false
  end.

Definition isLog (e : Effect) : bool :=
  match e with Log _ _ => true | _ => false end.

(** ** Calls to the Graph client outside the handler

    [sendText], [notifyApproval] and [probeAccount] talk to a [GraphClient]
    of [graph-client.js].  A thrown value is an [Error] object with its
    message or any other value with its [String(...)] rendering; the answers
    of the client may depend on the calls made before. *)

Inductive JsThrown : Type :=
| ErrorObject (msg : string)
| ThrownValue (rendered : string).

Inductive GraphCall : Type :=
| ReplyToMailCall (messageId body : string)
| SendMailCall (to subject body : string)
| GetMeCall.

Record GraphMe : Type := {
  meMail : option string;
  meUserPrincipalName : option string
}.

Record GraphApi : Type := {
  apiReplyToMail : list GraphCall -> string -> string -> option JsThrown;
  apiSendMail : list GraphCall -> string -> string -> string -> option JsThrown;
  apiGetMe : list GraphCall -> JsThrown + GraphMe
}.

Inductive Completion (A : Type) : Type :=
| Completed (a : A)
| Raised (e : JsThrown).

Arguments Completed {A} a.
Arguments Raised {A} e.

(** A computation over the calls made so far to the Graph client. *)
Definition G (A : Type) : Type := list GraphCall -> Completion A * list GraphCall.

Definition gret {A} (a : A) : G A := fun calls => (Completed a, calls).

Definition gbind {A B} (m : G A) (k : A -> G B) : G B :=
  fun calls =>
    match m calls with
    | (Completed a, calls') => k a calls'
    | (Raised e, calls') => (Raised e, calls')
    end.


(** [client.replyToMail(messageId, text)]. *)
Definition clientReplyToMail (api : GraphApi) (messageId body : string) : G unit :=
  fun calls =>
    (match apiReplyToMail api calls messageId body with
     | None => Completed tt
     | Some e => Raised e
     end, calls ++ [ReplyToMailCall messageId body]).

(** [client.sendMail({ to, subject, body })]. *)
Definition clientSendMail (api : GraphApi) (to subject body : string) : G unit :=
  fun calls =>
    (match apiSendMail api calls to subject body with
     | None => Completed tt
     | Some e => Raised e
     end, calls ++ [SendMailCall to subject body]).


Record SendResult : Type := {
  srChannel : string;
  srError : option string
}.

(** [microsoft365Outbound.sendText] of [outbound.ts]; [threadId] is not
    used. *)
Definition sendText (ext : Externals) (api : GraphApi) (cfg : OpenClawConfig)
    (to body : string) (replyToId : option string) : G SendResult :=
  let m365 := microsoft365 cfg in
  let credentials := resolveCredentials ext m365 in
  if negb (hasRefreshToken credentials) then
    gret {| srChannel := "microsoft365";
            srError := Some "Not configured (missing refreshToken)"%string |}
  else if truthyOpt replyToId then
    gbind (clientReplyToMail api (orElse replyToId ""%string) body)
      (fun _ => gret {| srChannel := "microsoft365"; srError := None |})
  else
    gbind (clientSendMail api to "Re: OpenClaw" body)
      (fun _ => gret {| srChannel := "microsoft365"; srError := None |}).

(** [pairing.notifyApproval].  [approvedMessage] stands for the SDK constant
    [PAIRING_APPROVED_MESSAGE]. *)
Definition notifyApproval (approvedMessage : string) (ext : Externals)
    (api : GraphApi) (cfg : OpenClawConfig) (ident : string) : G unit :=
  let m365 := microsoft365 cfg in
  let credentials := resolveCredentials ext m365 in
  if negb (hasRefreshToken credentials) then gret tt
  else clientSendMail api ident "OpenClaw Access Approved" approvedMessage.




(** A Graph client that accepts every mail to ["friend@x.com"], rejects the
    others, and knows the signed-in user by principal name only. *)
Module DemoGraph.

Definition api : GraphApi :=
  {| apiReplyToMail := fun _ _ _ => None;
     apiSendMail := fun _ to _ _ =>
       if String.eqb to "friend@x.com" then None
       else Some (ErrorObject "recipient rejected");
     apiGetMe := fun _ =>
       inr {| meMail := Some ""%string;
              meUserPrincipalName := Some "agent@x.onmicrosoft.com"%string |} |}.

Definition cfg (token : option string) : OpenClawConfig :=
  {| microsoft365 :=
       Some {| enabled := None; clientId := None; clientSecret := None;
               tenantId := None; refreshToken := token; accessToken := None;
               tokenExpiresAt := None; userEmail := None; webhook := None;
               pollIntervalMs := None; folders := None; allowFrom := None;
               dmPolicy := None |};
     sessionStore := None;
     otherSettings := ""%string |}.

End DemoGraph.

(** ** Provider utilities *)

(** [isReasoningTagProvider]. *)
Definition isReasoningTagProvider (provider : option string) : bool :=
  if negb (truthyOpt provider) then false
  else
    let normalized := toLowerCase (trim (orElse provider ""%string)) in
    if String.eqb normalized "google-gemini-cli"
       || String.eqb normalized "google-generative-ai" then true
    else if includes "google-antigravity" normalized then true
    else if includes "minimax" normalized then true
    else false.

(** ** Extra stream parameters ([extra-params.ts])

    JavaScript values of type [unknown] and objects as key-value lists, keys
    in insertion order.  The [log.debug] lines of this file are not
    modelled. *)

#[warnings="-register-all"]
Inductive JsValue : Type :=
| JsUndefined
| JsNull
| JsBool (b : bool)
| JsNumber (literal : string)
| JsString (s : string)
| JsObject (fields : list (string * JsValue)).

Definition JsObj : Type := list (string * JsValue).

Definition isUndefined (v : JsValue) : bool :=
  match v with JsUndefined => true | _ => false end.

(** [typeof v === "number"]. *)
Definition isNumber (v : JsValue) : bool :=
  match v with JsNumber _ => true | _ => false end.

(** [o[k]]. *)
Fixpoint lookup (k : string) (o : JsObj) : JsValue :=
  match o with
  | [] => JsUndefined
  | (k', v) :: rest => if String.eqb k' k then v else lookup k rest
  end.

(** [k in o]. *)
Definition hasKey (k : string) (o : JsObj) : bool :=
  existsb (fun e => String.eqb (fst e) k) o.

(** [{ ...a, ...b }], also [Object.assign({}, a, b)]: the keys of [a] in
    place with the values of [b] where [b] has them, then the new keys of
    [b]. *)
Definition spread (a b : JsObj) : JsObj :=
  map (fun e => (fst e, if hasKey (fst e) b then lookup (fst e) b else snd e)) a
  ++ filter (fun e => negb (hasKey (fst e) a)) b.

(** [Object.fromEntries(Object.entries(o).filter(([, v]) => v !== undefined))]. *)
Definition dropUndefined (o : JsObj) : JsObj :=
  filter (fun e => negb (isUndefined (snd e))) o.

(** [Object.keys(o).length === 0]. *)
Definition noKeys (o : JsObj) : bool :=
  match o with [] => true | _ => false end.

Definition OPENROUTER_APP_HEADERS : JsObj :=
  [("HTTP-Referer"%string, JsString "https://openclaw.ai");
   ("X-Title"%string, JsString "OpenClaw")].

(** An entry of [cfg.agents.defaults.models]. *)
Record ModelConfig : Type := {
  mcParams : option JsObj
}.

(** [resolveExtraParams], on [cfg?.agents?.defaults?.models]. *)
Definition resolveExtraParams (models : option (list (string * ModelConfig)))
    (provider modelId : string) : option JsObj :=
  let modelKey := (provider ++ "/" ++ modelId)%string in
  let modelConfig :=
    match models with
    | Some ms => option_map snd (find (fun e => String.eqb (fst e) modelKey) ms)
    | None => None
    end in
  match modelConfig with
  | Some mc => match mcParams mc with Some ps => Some ps | None => None end
  | None => None
  end.

Inductive CacheRetention : Type := RetainNone | RetainShort | RetainLong.

Definition cacheRetentionName (r : CacheRetention) : string :=
  match r with
  | RetainNone => "none"
  | RetainShort => "short"
  | RetainLong => "long"
  end.

(** [resolveCacheRetention]. *)
Definition resolveCacheRetention (extraParams : option JsObj) (provider : string)
    : option CacheRetention :=
  if negb (String.eqb provider "anthropic") then None
  else
    let newVal := lookup "cacheRetention" (orElse extraParams []) in
    match newVal with
    | JsString "none" => Some RetainNone
    | JsString "short" => Some RetainShort
    | JsString "long" => Some RetainLong
    | _ =>
        let legacy := lookup "cacheControlTtl" (orElse extraParams []) in
        match legacy with
        | JsString "5m" => Some RetainShort
        | JsString "1h" => Some RetainLong
        | _ => None
        end
    end.

(** A stream function: one of the two library functions, a function of the
    caller's, or one of the wrappers this file builds around another one. *)
Inductive StreamFn : Type :=
| LibStream
| LibStreamSimple
| CallerStream (name : string)
| WithParams (streamParams : JsObj) (underlying : StreamFn)
| WithOpenRouterHeaders (underlying : StreamFn).

(** [v === "auto" || v === "none" || v === "required"]. *)
Definition isToolChoice (v : JsValue) : bool :=
  match v with
  | JsString s => String.eqb s "auto" || String.eqb s "none" || String.eqb s "required"
  | _ => false
  end.

(** The [streamParams] object [createStreamFnWithExtraParams] fills in. *)
Definition streamParamsOf (extraParams : JsObj) (provider : string) : JsObj :=
  (if isNumber (lookup "temperature" extraParams)
   then [("temperature"%string, lookup "temperature" extraParams)] else [])
  ++ (if isNumber (lookup "maxTokens" extraParams)
      then [("maxTokens"%string, lookup "maxTokens" extraParams)] else [])
  ++ (if isToolChoice (lookup "toolChoice" extraParams)
      then [("toolChoice"%string, lookup "toolChoice" extraParams)] else [])
  ++ match resolveCacheRetention (Some extraParams) provider with
     | Some r => [("cacheRetention"%string, JsString (cacheRetentionName r))]
     | None => []
     end.

(** [createStreamFnWithExtraParams]. *)
Definition createStreamFnWithExtraParams (baseStreamFn : option StreamFn)
    (extraParams : option JsObj) (provider : string) : option StreamFn :=
  match extraParams with
  | None => None
  | Some extra =>
      if noKeys extra then None
      else
        let streamParams := streamParamsOf extra provider in
        if noKeys streamParams then None
        else
          let needsFullStream := isToolChoice (lookup "toolChoice" extra) in
          let underlying :=
            if needsFullStream then LibStream
            else orElse baseStreamFn LibStreamSimple in
          Some (WithParams streamParams underlying)
  end.

(** [createOpenRouterHeadersWrapper]. *)
Definition createOpenRouterHeadersWrapper (baseStreamFn : option StreamFn) : StreamFn :=
  WithOpenRouterHeaders (orElse baseStreamFn LibStreamSimple).

(** [options?.headers], spread into an object literal. *)
Definition headersOf (options : option JsObj) : JsObj :=
  match lookup "headers" (orElse options []) with
  | JsObject fields => fields
  | _ => []
  end.

(** The function that finally runs. *)
Inductive Endpoint : Type :=
| StreamEndpoint
| StreamSimpleEndpoint
| CallerEndpoint (name : string).

(** Calling a stream function with [options]: the endpoint it reaches and the
    options the endpoint receives.  [model] and [context] pass through the
    wrappers untouched. *)
Fixpoint callStreamFn (f : StreamFn) (options : option JsObj)
    : Endpoint * option JsObj :=
  match f with
  | LibStream => (StreamEndpoint, options)
  | LibStreamSimple => (StreamSimpleEndpoint, options)
  | CallerStream name => (CallerEndpoint name, options)
  | WithParams streamParams underlying =>
      let filteredOptions :=
        match options with
        | Some o => dropUndefined o
        | None => []
        end in
      callStreamFn underlying (Some (spread streamParams filteredOptions))
  | WithOpenRouterHeaders underlying =>
      callStreamFn underlying
        (Some (spread (orElse options [])
                 [("headers"%string,
                   JsObject (spread OPENROUTER_APP_HEADERS (headersOf options)))]))
  end.

(** The merged parameters of [applyExtraParamsToAgent]: the configured ones
    with the defined entries of a non-empty override on top. *)
Definition mergeExtraParams (extraParams extraParamsOverride : option JsObj) : JsObj :=
  let override :=
    match extraParamsOverride with
    | Some o => if negb (noKeys o) then Some (dropUndefined o) else None
    | None => None
    end in
  spread (orElse extraParams []) (orElse override []).

(** [applyExtraParamsToAgent], as the new value of [agent.streamFn]. *)
Definition applyExtraParamsToAgent (streamFn : option StreamFn)
    (models : option (list (string * ModelConfig))) (provider modelId : string)
    (extraParamsOverride : option JsObj) : option StreamFn :=
  let extraParams := resolveExtraParams models provider modelId in
  let merged := mergeExtraParams extraParams extraParamsOverride in
  let wrappedStreamFn := createStreamFnWithExtraParams streamFn (Some merged) provider in
  let afterParams :=
    match wrappedStreamFn with
    | Some wrapped => Some wrapped
    | None => streamFn
    end in
  if String.eqb provider "openrouter"
  then Some (createOpenRouterHeadersWrapper afterParams)
  else afterParams.

(** ** Facts about the string primitives *)

Section StringFacts.

Lemma lowerChar_idem c : lowerChar (lowerChar c) = lowerChar c.
Proof.
  destruct c as [[] [] [] [] [] [] [] []]; reflexivity.
Qed.

Lemma isWhiteSpace_lowerChar c : isWhiteSpace (lowerChar c) = isWhiteSpace c.
Proof.
  destruct c as [[] [] [] [] [] [] [] []]; reflexivity.
Qed.

Lemma toLowerCase_idem s : toLowerCase (toLowerCase s) = toLowerCase s.
Proof.
  induction s as [|c s IH]; simpl; [reflexivity|].
  now rewrite lowerChar_idem, IH.
Qed.

Lemma trimStart_toLowerCase s :
  trimStart (toLowerCase s) = toLowerCase (trimStart s).
Proof.
  induction s as [|c s IH]; simpl; [reflexivity|].
  rewrite isWhiteSpace_lowerChar.
  destruct (isWhiteSpace c); [exact IH | reflexivity].
Qed.

Lemma trimEnd_toLowerCase s :
  trimEnd (toLowerCase s) = toLowerCase (trimEnd s).
Proof.
  induction s as [|c s IH]; simpl; [reflexivity|].
  rewrite IH, isWhiteSpace_lowerChar.
  destruct (trimEnd s); simpl; [destruct (isWhiteSpace c)|]; reflexivity.
Qed.

(** Lower-casing and trimming commute, so [s.trim().toLowerCase()] and
    [s.toLowerCase().trim()] are the same function. *)
Lemma trim_toLowerCase s : trim (toLowerCase s) = toLowerCase (trim s).
Proof.
  unfold trim. now rewrite trimStart_toLowerCase, trimEnd_toLowerCase.
Qed.

Lemma trimEnd_idem s : trimEnd (trimEnd s) = trimEnd s.
Proof.
  induction s as [|c s IH]; simpl; [reflexivity|].
  destruct (trimEnd s) as [|d t] eqn:E.
  - destruct (isWhiteSpace c) eqn:W; simpl; [reflexivity|now rewrite W].
  - cbn [trimEnd]. cbn [trimEnd] in IH. rewrite IH. reflexivity.
Qed.

Lemma headNotSpace_trimStart s : headNotSpace (trimStart s) = true.
Proof.
  induction s as [|c s IH]; simpl; [reflexivity|].
  destruct (isWhiteSpace c) eqn:W; [exact IH|]. simpl. now rewrite W.
Qed.

Lemma headNotSpace_trimEnd s :
  headNotSpace s = true -> headNotSpace (trimEnd s) = true.
Proof.
  destruct s as [|c s]; simpl; [reflexivity|].
  intros H. destruct (trimEnd s); simpl; [|exact H].
  destruct (isWhiteSpace c) eqn:W; simpl; [reflexivity | now rewrite W].
Qed.

Lemma trimStart_fixed s : headNotSpace s = true -> trimStart s = s.
Proof.
  destruct s as [|c s]; simpl; [reflexivity|].
  intros H. now destruct (isWhiteSpace c).
Qed.

Lemma trim_idem s : trim (trim s) = trim s.
Proof.
  unfold trim.
  rewrite (trimStart_fixed (trimEnd (trimStart s))).
  - apply trimEnd_idem.
  - apply headNotSpace_trimEnd, headNotSpace_trimStart.
Qed.

End StringFacts.

(** ** Allow-list resolution *)

Section AllowList.

Lemma normalizeEntry_idem e : normalizeEntry (normalizeEntry e) = normalizeEntry e.
Proof.
  unfold normalizeEntry.
  now rewrite trim_toLowerCase, trim_idem, toLowerCase_idem.
Qed.

(** [pairing.normalizeAllowEntry] lower-cases first and trims second; the
    result is the one the handler computes for allow-list entries. *)
Lemma normalizeAllowEntry_normalizeEntry e :
  normalizeAllowEntry e = normalizeEntry e.
Proof. apply trim_toLowerCase. Qed.

Lemma truthy_true_iff s : truthy s = true <-> s <> "".
Proof.
  destruct s; simpl; split; intros H; congruence.
Qed.

Lemma formatAllowFrom_app l1 l2 :
  formatAllowFrom (l1 ++ l2)%list = (formatAllowFrom l1 ++ formatAllowFrom l2)%list.
Proof.
  unfold formatAllowFrom. now rewrite map_app, filter_app.
Qed.

Lemma formatAllowFrom_idem l :
  formatAllowFrom (formatAllowFrom l) = formatAllowFrom l.
Proof.
  unfold formatAllowFrom.
  induction l as [|e l IH]; simpl; [reflexivity|].
  fold (normalizeEntry e).
  destruct (truthy (normalizeEntry e)) eqn:T; [|exact IH].
  simpl. fold (normalizeEntry (normalizeEntry e)).
  rewrite normalizeEntry_idem, T. now f_equal.
Qed.

Lemma In_formatAllowFrom x l :
  In x (formatAllowFrom l) <->
  x <> "" /\ exists e, In e l /\ x = normalizeEntry e.
Proof.
  unfold formatAllowFrom.
  rewrite filter_In, in_map_iff, truthy_true_iff.
  split.
  - intros [[e [E I]] N]. split; [exact N|]. exists e. now split.
  - intros [N [e [I E]]]. split; [|exact N]. exists e. now split.
Qed.

Lemma effectiveAllowFrom_format configured stored :
  effectiveAllowFrom configured stored =
  (formatAllowFrom (orElse configured []) ++ formatAllowFrom stored)%list.
Proof. reflexivity. Qed.

End AllowList.

(** C7, as written, fails: duplicates are not dropped.  Resolving
    ["Foo@Bar.com"; " foo@bar.com "] against an empty store gives a list that
    holds "foo@bar.com" twice. *)
Lemma C7_duplicates_are_kept :
  effectiveAllowFrom (Some ["Foo@Bar.com"; " foo@bar.com "]) []
    = ["foo@bar.com"; "foo@bar.com"]
  /\ ~ NoDup (effectiveAllowFrom (Some ["Foo@Bar.com"; " foo@bar.com "]) []).
Proof.
  split; [reflexivity|].
  intros H. change (NoDup ["foo@bar.com"; "foo@bar.com"]) in H.
  inversion H as [|x l NI ND]; subst. apply NI. now left.
Qed.

(** C7, amended: allow-list resolution trims and lower-cases every entry and
    drops the empty ones, and returns the normalized config entries followed
    by the normalized store entries, duplicates included.  An identity is in
    the result exactly when it is the non-empty normal form of a config or
    store entry; resolving ["Foo@Bar.com"; " foo@bar.com "] against an empty
    store gives a list whose only member is "foo@bar.com"; and resolving the
    result again returns it unchanged. *)
Theorem C7_allow_list_resolution (configured : option (list string))
    (stored : list string) :
  effectiveAllowFrom configured stored
    = (formatAllowFrom (orElse configured []) ++ formatAllowFrom stored)%list
  /\ (forall x,
        In x (effectiveAllowFrom configured stored) <->
        x <> "" /\
        exists e, In e (orElse configured [] ++ stored)%list
                  /\ x = toLowerCase (trim e))
  /\ (forall x,
        In x (effectiveAllowFrom (Some ["Foo@Bar.com"; " foo@bar.com "]) [])
        <-> x = "foo@bar.com")
  /\ effectiveAllowFrom (Some (effectiveAllowFrom configured stored)) []
       = effectiveAllowFrom configured stored.
Proof.
  split; [reflexivity|]. split; [|split].
  - intros x. rewrite effectiveAllowFrom_format, <- formatAllowFrom_app.
    apply In_formatAllowFrom.
  - intros x. simpl. split.
    + intros [H|[H|[]]]; now symmetry.
    + intros ->. now left.
  - rewrite !effectiveAllowFrom_format. simpl orElse.
    change (formatAllowFrom []) with (@nil string). rewrite app_nil_r.
    rewrite <- formatAllowFrom_app. apply formatAllowFrom_idem.
Qed.

(** ** Running the monad *)

Section MonadFacts.

Lemma extend_nil w : extend w [] = w.
Proof. destruct w; unfold extend; simpl. now rewrite app_nil_r. Qed.

Lemma extend_extend w t1 t2 : extend (extend w t1) t2 = extend w (t1 ++ t2).
Proof. unfold extend; simpl. now rewrite app_assoc. Qed.

Lemma trace_extend w t : trace (extend w t) = (trace w ++ t)%list.
Proof. reflexivity. Qed.

Lemma pairingRequests_extend w t : pairingRequests (extend w t) = pairingRequests w.
Proof. reflexivity. Qed.

Lemma bind_returned {A B} (m : M A) (k : A -> M B) w a w' :
  m w = (Returned a, w') -> bind m k w = k a w'.
Proof. unfold bind. now intros ->. Qed.

Lemma bind_threw {A B} (m : M A) (k : A -> M B) w e w' :
  m w = (Threw e, w') -> bind m k w = (Threw e, w').
Proof. unfold bind. now intros ->. Qed.

Lemma emit_run e w : emit e w = (Returned tt, extend w [e]).
Proof. reflexivity. Qed.

Lemma logTo_run sink level msg w :
  logTo sink level msg w = (Returned tt, extend w (logged sink level msg)).
Proof.
  destruct sink; simpl; [reflexivity|].
  unfold ret. now rewrite extend_nil.
Qed.

Lemma logInboundDrop_run sink channel reason target w :
  logInboundDrop sink channel reason target w
  = (Returned tt, extend w (dropped sink (InboundDrop channel reason target))).
Proof.
  destruct sink; [apply emit_run|]. unfold logInboundDrop, dropped, ret.
  now rewrite extend_nil.
Qed.

End MonadFacts.

(** ** Events without a sender *)

Lemma handleIncomingMail_no_sender (core : PluginRuntime) (ext : Externals)
    (p : Params) (w : World) :
  truthyOpt (fromEmailOf (message p)) = false ->
  handleIncomingMail (Some core) ext p w
  = (Returned tt,
     extend w (logged (log p) Warn
                 "microsoft365: dropping message with no sender address")).
Proof.
  intros H. unfold handleIncomingMail, getMicrosoft365Runtime.
  unfold bind at 1. unfold ret at 1. cbv beta iota.
  rewrite H. cbn [negb].
  apply logTo_run.
Qed.

(** C9: an inbound event whose sender address is missing (or empty) is logged
    and dropped.  With the runtime in place the handler returns normally; the
    pairing store is untouched and the only effect is the warning line, so no
    pairing request, session record, reply or agent invocation occurs. *)
Theorem C9_missing_sender_dropped (core : PluginRuntime) (ext : Externals)
    (p : Params) (w : World) :
  truthyOpt (fromEmailOf (message p)) = false ->
  handleIncomingMail (Some core) ext p w
  = (Returned tt,
     extend w (logged (log p) Warn
                 "microsoft365: dropping message with no sender address")).
Proof. apply handleIncomingMail_no_sender. Qed.

Lemma C9_missing_sender_dropped_witness :
  truthyOpt (fromEmailOf (message (Demo.params (Some Pairing) None "m1" None))) = false
  /\ handleIncomingMail (Some (Demo.core (Some []))) Demo.externals
       (Demo.params (Some Pairing) None "m1" None) Demo.fresh
     = (Returned tt,
        extend Demo.fresh
          (logged true Warn "microsoft365: dropping message with no sender address")).
Proof.
  split; [reflexivity|].
  apply (C9_missing_sender_dropped (Demo.core (Some [])) Demo.externals
           (Demo.params (Some Pairing) None "m1" None) Demo.fresh).
  reflexivity.
Defined.

(** ** Sender normalization *)

(** C3 at a sender address with a leading space: the allow-list entry
    normalizes to "alice@x.com", and so does the address under
    [normalizeAllowEntry], but the handler only lower-cases the address.  The
    identity it compares is " alice@x.com", the membership test fails where it
    succeeds on the trimmed identity, and the mail of a listed sender is
    dropped. *)
Theorem C3_sender_is_not_trimmed :
  let p := Demo.params (Some Allowlist) (Some ["alice@x.com"]) "m1"
             (Some " Alice@x.com") in
  normalizeAllowEntry " Alice@x.com" = "alice@x.com"
  /\ effectiveAllowFrom (Some ["alice@x.com"]) [] = ["alice@x.com"]
  /\ fromEmailOf (message p) = Some " alice@x.com"
  /\ senderAllowed ["alice@x.com"] " alice@x.com" = false
  /\ senderAllowed ["alice@x.com"] (normalizeAllowEntry " Alice@x.com") = true
  /\ handleIncomingMail (Some (Demo.core (Some []))) Demo.externals p Demo.fresh
     = (Returned tt,
        extend Demo.fresh
          [Log Info "Incoming email from  alice@x.com: Hello";
           InboundDrop "microsoft365" "dmPolicy=allowlist" " alice@x.com"]).
Proof.
  cbv zeta. repeat split.
Qed.

(** ** The stages of the handler, one run at a time *)

Section StageFacts.

Variable ext : Externals.
Variable core : PluginRuntime.
Variable p : Params.
Variable m365 : option Microsoft365Config.

Lemma replyToMail_run messageId body w :
  replyToMail ext messageId body w
  = (match graphReply ext (trace w) messageId body with
     | None => Returned tt
     | Some err => Threw err
     end, extend w [GraphReplyToMail messageId body]).
Proof.
  unfold replyToMail, bind, history, emit. cbv beta iota.
  now destruct (graphReply ext (trace w) messageId body).
Qed.

Lemma markAsRead_run messageId w :
  markAsRead ext messageId w
  = (match graphMarkRead ext (trace w) messageId with
     | None => Returned tt
     | Some err => Threw err
     end, extend w [GraphMarkAsRead messageId]).
Proof.
  unfold markAsRead, bind, history, emit. cbv beta iota.
  now destruct (graphMarkRead ext (trace w) messageId).
Qed.

Lemma sendPairingReply_run fromEmail code w :
  sendPairingReply ext core p m365 fromEmail code w
  = (Returned tt,
     extend w (pairingReplyTrace ext core p m365 fromEmail code (trace w))).
Proof.
  unfold sendPairingReply, pairingReplyTrace, tryCatch. cbv zeta.
  destruct (hasRefreshToken (resolveCredentials ext m365)).
  - rewrite replyToMail_run.
    destruct (graphReply ext (trace w) _ _) as [err|].
    + rewrite logTo_run, extend_extend. reflexivity.
    + reflexivity.
  - unfold ret. now rewrite extend_nil.
Qed.

Lemma pairingReplyTrace_flow fromEmail code h :
  forallb isPairingFlow (pairingReplyTrace ext core p m365 fromEmail code h) = true.
Proof.
  unfold pairingReplyTrace. cbv zeta.
  destruct (hasRefreshToken _); [|reflexivity]. simpl.
  destruct (graphReply ext h _ _); [|reflexivity].
  now destruct (log p).
Qed.


Lemma deliver_run payload w :
  deliver ext p m365 payload w
  = (if truthy (trim (orElse (text payload) ""))
        && hasRefreshToken (resolveCredentials ext m365)
     then match graphReply ext (trace w) (id (message p)) (orElse (text payload) "") with
          | None => Returned tt
          | Some err => Threw err
          end
     else Returned tt,
     extend w (deliverTrace ext p m365 payload (trace w))).
Proof.
  unfold deliver, deliverTrace. cbv zeta.
  destruct (truthy (trim (orElse (text payload) ""))); simpl.
  - destruct (hasRefreshToken (resolveCredentials ext m365)); simpl.
    + apply replyToMail_run.
    + apply logTo_run.
  - unfold ret. now rewrite extend_nil.
Qed.

Lemma deliverTrace_post payload h :
  forallb isPostAdmission (deliverTrace ext p m365 payload h) = true.
Proof.
  unfold deliverTrace. cbv zeta.
  destruct (negb (truthy _)); [reflexivity|].
  destruct (negb (hasRefreshToken _)); [|reflexivity].
  now destruct (log p).
Qed.

Lemma deliverTrace_no_invoke payload h :
  existsb isAgentInvoke (deliverTrace ext p m365 payload h) = false.
Proof.
  unfold deliverTrace. cbv zeta.
  destruct (negb (truthy _)); [reflexivity|].
  destruct (negb (hasRefreshToken _)); [|reflexivity].
  now destruct (log p).
Qed.

(** The dispatcher never throws, and what it adds to the trace are Graph
    replies and error lines. *)
Lemma dispatchFragments_run fragments :
  forall w, exists added,
    dispatchFragments (deliver ext p m365) (onError p) fragments w
    = (Returned tt, extend w added)
    /\ forallb isPostAdmission added = true
    /\ existsb isAgentInvoke added = false.
Proof.
  induction fragments as [|f rest IH]; intros w.
  - exists []. simpl. unfold ret. now rewrite extend_nil.
  - cbn [dispatchFragments].
    assert (exists t,
      (if truthy (trim (orElse (text f) ""))
       then tryCatch (deliver ext p m365 f)
              (fun err => onError p err (kind f))
       else ret tt) w = (Returned tt, extend w t)
      /\ forallb isPostAdmission t = true
      /\ existsb isAgentInvoke t = false) as [t [E [P N]]].
    { destruct (truthy (trim (orElse (text f) ""))) eqn:T.
      - unfold tryCatch. rewrite deliver_run, T. simpl andb.
        pose proof (deliverTrace_post f (trace w)) as DP.
        pose proof (deliverTrace_no_invoke f (trace w)) as DN.
        destruct (hasRefreshToken (resolveCredentials ext m365)).
        + destruct (graphReply ext (trace w) _ _) as [err|].
          * unfold onError. rewrite logTo_run, extend_extend.
            eexists; split; [reflexivity|].
            rewrite forallb_app, existsb_app, DP, DN.
            now destruct (log p).
          * eexists; split; [reflexivity|]. now split.
        + eexists; split; [reflexivity|]. now split.
      - exists []. unfold ret. rewrite extend_nil. now repeat split. }
    destruct (IH (extend w t)) as [t' [E' [P' N']]].
    exists (t ++ t'). split.
    + rewrite (bind_returned _ _ _ _ _ E). rewrite E', extend_extend. reflexivity.
    + now rewrite forallb_app, existsb_app, P, P', N, N'.
Qed.

End StageFacts.

Section AdmittedFacts.

Variable ext : Externals.
Variable core : PluginRuntime.
Variable p : Params.
Variable m365 : option Microsoft365Config.

Lemma history_run w : history w = (Returned (trace w), w).
Proof. reflexivity. Qed.

Lemma markAsRead_stage_run w :
  tryCatch
    (let credentials := resolveCredentials ext m365 in
     if hasRefreshToken credentials
     then markAsRead ext (id (message p))
     else ret tt)
    (fun err =>
       logTo (log p) Warn
         ("microsoft365: failed to mark message as read: " ++ err)%string) w
  = (Returned tt, extend w (markAsReadTrace ext p m365 (trace w))).
Proof.
  unfold tryCatch, markAsReadTrace. cbv zeta.
  destruct (hasRefreshToken (resolveCredentials ext m365)).
  - rewrite markAsRead_run.
    destruct (graphMarkRead ext (trace w) _) as [err|]; [|reflexivity].
    now rewrite logTo_run, extend_extend.
  - unfold ret. now rewrite extend_nil.
Qed.

Lemma markAsReadTrace_post h :
  forallb isPostAdmission (markAsReadTrace ext p m365 h) = true.
Proof.
  unfold markAsReadTrace.
  destruct (hasRefreshToken _); [|reflexivity]. simpl.
  destruct (graphMarkRead ext h _); [|reflexivity].
  now destruct (log p).
Qed.

Lemma recordInboundSession_run storePath sessionKey ctx w :
  recordInboundSession core storePath sessionKey ctx
    (fun err =>
       logTo (log p) Error
         ("microsoft365: failed updating session meta: " ++ err)%string) w
  = (Returned tt,
     extend w (RecordInboundSession storePath sessionKey ctx ::
               match sessionWrite core (trace w) storePath sessionKey with
               | None => []
               | Some err =>
                   logged (log p) Error
                     ("microsoft365: failed updating session meta: " ++ err)%string
               end)).
Proof.
  unfold recordInboundSession, bind, history, emit. cbv beta iota.
  destruct (sessionWrite core (trace w) storePath sessionKey) as [err|].
  - rewrite logTo_run. unfold extend; simpl. now rewrite <- app_assoc.
  - reflexivity.
Qed.

Lemma dispatchReply_run ctx cfg w :
  exists added,
    dispatchReplyWithBufferedBlockDispatcher core ctx cfg
      (deliver ext p m365) (onError p) w
    = (Returned tt, extend w (AgentInvoke ctx :: added))
    /\ forallb isPostAdmission added = true.
Proof.
  unfold dispatchReplyWithBufferedBlockDispatcher.
  rewrite (bind_returned _ _ _ _ _ (emit_run _ w)).
  rewrite (bind_returned _ _ _ _ _ (history_run _)).
  destruct (dispatchFragments_run ext p m365
              (agentReply core (trace (extend w [AgentInvoke ctx])) ctx cfg)
              (extend w [AgentInvoke ctx])) as [t [E [P _]]].
  exists t. rewrite E, extend_extend. now split.
Qed.

(** An admitted mail is processed to the end: the handler returns, the
    pairing store is untouched, the agent is invoked, and nothing of the
    pairing flow or of a drop is performed. *)
Lemma processAdmitted_run fromEmail fromName subject rawBody w :
  exists added,
    processAdmitted ext core p m365 fromEmail fromName subject rawBody w
    = (Returned tt, extend w added)
    /\ forallb isPostAdmission added = true
    /\ existsb isAgentInvoke added = true.
Proof.
  unfold processAdmitted.
  rewrite (bind_returned _ _ _ _ _ (markAsRead_stage_run w)).
  cbv zeta.
  rewrite (bind_returned _ _ _ _ _ (history_run _)).
  rewrite (bind_returned _ _ _ _ _ (recordInboundSession_run _ _ _ _)).
  match goal with
  | |- context [dispatchReplyWithBufferedBlockDispatcher core ?c ?g _ _ ?w0] =>
      destruct (dispatchReply_run c g w0) as [t [E P]]
  end.
  eexists. split.
  - rewrite E, !extend_extend. reflexivity.
  - rewrite !forallb_app, !existsb_app, markAsReadTrace_post. simpl.
    rewrite P. split.
    + destruct (sessionWrite core _ _ _); [|reflexivity]. now destruct (log p).
    + now rewrite !orb_true_r.
Qed.

End AdmittedFacts.

(** ** The gate *)

Section GateFacts.

Variable ext : Externals.
Variable core : PluginRuntime.
Variable p : Params.

Lemma readAllowFrom_caught w :
  tryCatch (readAllowFrom core CHANNEL_ID) (fun _ => ret []) w
  = (Returned (orElse (readAllowFromStore core (trace w) CHANNEL_ID) []), w).
Proof.
  unfold tryCatch, readAllowFrom, bind, history. cbv beta iota.
  now destruct (readAllowFromStore core (trace w) CHANNEL_ID).
Qed.

(** The handler, for a mail with a sender, is the gate followed by the
    processing of an admitted mail. *)
Lemma handleIncomingMail_with_sender fromEmail w :
  fromEmailOf (message p) = Some fromEmail ->
  truthy fromEmail = true ->
  handleIncomingMail (Some core) ext p w
  = bind (enforceDmPolicy ext core p (microsoft365 (cfg p))
            (dmPolicyOf (microsoft365 (cfg p)))
            (allowListAt core p (afterIncoming p fromEmail w))
            fromEmail (fromNameOf (message p)))
      (fun admitted =>
         if admitted
         then processAdmitted ext core p (microsoft365 (cfg p)) fromEmail
                (fromNameOf (message p))
                (orElse (subject (message p)) "(no subject)")
                (rawBodyOf (message p))
         else ret tt)
      (afterIncoming p fromEmail w).
Proof.
  intros F T. unfold handleIncomingMail, getMicrosoft365Runtime.
  unfold bind at 1. unfold ret at 1. cbv beta iota zeta.
  rewrite F. change (truthyOpt (Some fromEmail)) with (truthy fromEmail).
  change (orElse (Some fromEmail) ""%string) with fromEmail.
  rewrite T. cbn [negb].
  rewrite (bind_returned _ _ _ _ _ (logTo_run _ _ _ w)).
  rewrite (bind_returned _ _ _ _ _ (readAllowFrom_caught _)).
  reflexivity.
Qed.

Lemma upsert_existing channel ident displayName r w :
  find (pendingFor channel ident) (pairingRequests w) = Some r ->
  upsertPairingRequest core ext channel ident displayName w
  = (Returned (prCode r, false),
     extend w [PairingUpsert channel ident displayName (prCode r) false]).
Proof. unfold upsertPairingRequest. now intros ->. Qed.

Lemma upsert_new channel ident displayName w :
  find (pendingFor channel ident) (pairingRequests w) = None ->
  upsertPairingRequest core ext channel ident displayName w
  = (Returned (generateCode core (pairingRequests w), true),
     {| pairingRequests :=
          pairingRequests w ++ [newRequest core ext channel ident displayName w];
        trace := trace w ++ [PairingUpsert channel ident displayName
                               (generateCode core (pairingRequests w)) true] |}).
Proof. unfold upsertPairingRequest. now intros ->. Qed.

Variable m365 : option Microsoft365Config.
Variable allowList : list string.
Variable fromEmail : string.
Variable fromName : option string.

Lemma enforce_open w :
  enforceDmPolicy ext core p m365 Open allowList fromEmail fromName w
  = (Returned true, w).
Proof. reflexivity. Qed.

Lemma enforce_allowed policy w :
  senderAllowed allowList fromEmail = true ->
  enforceDmPolicy ext core p m365 policy allowList fromEmail fromName w
  = (Returned true, w).
Proof.
  intros H. unfold enforceDmPolicy. rewrite H.
  now destruct policy.
Qed.

Lemma enforce_allowlist_denied w :
  senderAllowed allowList fromEmail = false ->
  enforceDmPolicy ext core p m365 Allowlist allowList fromEmail fromName w
  = (Returned false,
     extend w (dropped (log p) (InboundDrop CHANNEL_ID "dmPolicy=allowlist" fromEmail))).
Proof.
  intros H. unfold enforceDmPolicy. rewrite H. cbn [negb dmPolicy_eqb dmPolicyName].
  destruct (log p); [reflexivity|].
  unfold dropped. now rewrite extend_nil.
Qed.

(** Pairing, sender not allowed, a request already pending: the code is
    looked up, nothing is sent, the drop is logged. *)
Lemma enforce_pairing_pending r w :
  senderAllowed allowList fromEmail = false ->
  find (pendingFor CHANNEL_ID fromEmail) (pairingRequests w) = Some r ->
  enforceDmPolicy ext core p m365 Pairing allowList fromEmail fromName w
  = (Returned false,
     extend w (PairingUpsert CHANNEL_ID fromEmail (orUndefined fromName) (prCode r) false
               :: dropped (log p) (InboundDrop CHANNEL_ID "dmPolicy=pairing" fromEmail))).
Proof.
  intros H F. unfold enforceDmPolicy. rewrite H. cbn [negb dmPolicy_eqb].
  rewrite (bind_returned _ _ _ _ _
             (bind_returned _ _ _ _ _ (upsert_existing _ _ _ _ _ F))).
  unfold ret at 1. cbn [dmPolicyName].
  rewrite (bind_returned _ _ _ _ _ (logInboundDrop_run _ _ _ _ _)).
  unfold ret. now rewrite extend_extend.
Qed.

(** Pairing, sender not allowed, no request pending: a request is created,
    the pairing reply is attempted, the drop is logged. *)
Lemma enforce_pairing_new w :
  senderAllowed allowList fromEmail = false ->
  find (pendingFor CHANNEL_ID fromEmail) (pairingRequests w) = None ->
  let code := generateCode core (pairingRequests w) in
  let upsert := PairingUpsert CHANNEL_ID fromEmail (orUndefined fromName) code true in
  enforceDmPolicy ext core p m365 Pairing allowList fromEmail fromName w
  = (Returned false,
     {| pairingRequests :=
          pairingRequests w
          ++ [newRequest core ext CHANNEL_ID fromEmail (orUndefined fromName) w];
        trace :=
          trace w
          ++ upsert
             :: pairingReplyTrace ext core p m365 fromEmail code (trace w ++ [upsert])
          ++ dropped (log p) (InboundDrop CHANNEL_ID "dmPolicy=pairing" fromEmail) |}).
Proof.
  intros H F code upsert. unfold enforceDmPolicy. rewrite H. cbn [negb dmPolicy_eqb].
  pose proof (upsert_new CHANNEL_ID fromEmail (orUndefined fromName) w F) as U.
  fold code in U. fold upsert in U.
  match goal with
  | |- bind (bind ?m ?k0) _ w = _ =>
      assert (E : bind m k0 w
                  = (Returned tt,
                     extend
                       {| pairingRequests :=
                            pairingRequests w
                            ++ [newRequest core ext CHANNEL_ID fromEmail
                                  (orUndefined fromName) w];
                          trace := trace w ++ [upsert] |}
                       (pairingReplyTrace ext core p m365 fromEmail code
                          (trace w ++ [upsert]))))
        by (rewrite (bind_returned _ _ _ _ _ U); apply sendPairingReply_run)
  end.
  rewrite (bind_returned _ _ _ _ _ E). cbn [dmPolicyName].
  rewrite (bind_returned _ _ _ _ _ (logInboundDrop_run _ _ _ _ _)).
  unfold ret, extend. simpl.
  f_equal. f_equal. rewrite <- !app_assoc. reflexivity.
Qed.

End GateFacts.

(** ** The decision of the gate *)

Section DecisionFacts.

Variable ext : Externals.
Variable core : PluginRuntime.
Variable p : Params.

Lemma senderAllowed_iff allowList fromEmail :
  senderAllowed allowList fromEmail = true
  <-> In fromEmail allowList \/ In "*"%string allowList.
Proof.
  unfold senderAllowed. rewrite existsb_exists. split.
  - intros [e [I E]]. apply orb_true_iff in E as [E|E];
      apply String.eqb_eq in E; subst; tauto.
  - intros [I|I]; eexists; (split; [exact I|]);
      rewrite String.eqb_refl; [reflexivity | apply orb_true_r].
Qed.

Lemma pairingFlow_filter_drop t :
  forallb isPairingFlow t = true -> filter isInboundDrop t = [].
Proof.
  induction t as [|e t IH]; simpl; [reflexivity|].
  intros H. apply andb_true_iff in H as [E T].
  destruct e as [[]| | | | | |]; simpl in *; try discriminate; auto.
Qed.

Lemma pairingFlow_quiet t :
  forallb isPairingFlow t = true ->
  existsb isAgentInvoke t = false
  /\ existsb isSessionWrite t = false
  /\ existsb isMarkAsRead t = false.
Proof.
  induction t as [|e t IH]; simpl; [now repeat split|].
  intros H. apply andb_true_iff in H as [E T].
  destruct (IH T) as [A [S R]].
  destruct e as [[]| | | | | |]; simpl in *; try discriminate; now repeat split.
Qed.

Lemma postAdmission_quiet t :
  forallb isPostAdmission t = true ->
  existsb isPairingUpsert t = false
  /\ existsb isInboundDrop t = false
  /\ filter isInboundDrop t = [].
Proof.
  induction t as [|e t IH]; simpl; [now repeat split|].
  intros H. apply andb_true_iff in H as [E T].
  destruct (IH T) as [A [S R]].
  destruct e; simpl in *; try discriminate; now repeat split.
Qed.

Lemma logged_quiet sink level msg :
  existsb isAgentInvoke (logged sink level msg) = false
  /\ existsb isSessionWrite (logged sink level msg) = false
  /\ existsb isMarkAsRead (logged sink level msg) = false
  /\ existsb isPairingUpsert (logged sink level msg) = false
  /\ existsb isInboundDrop (logged sink level msg) = false
  /\ existsb isGraphReply (logged sink level msg) = false
  /\ filter isInboundDrop (logged sink level msg) = []
  /\ filter isGraphReply (logged sink level msg) = []
  /\ filter isPairingUpsert (logged sink level msg) = [].
Proof. destruct sink; simpl; now repeat split. Qed.

(** A sender the gate does not allow, under [pairing] or [allowlist]: the
    gate answers [false] after the pairing flow (empty under [allowlist]) and
    the drop record. *)
Lemma enforce_denied m365 policy allowList fromEmail fromName w :
  policy <> Open ->
  senderAllowed allowList fromEmail = false ->
  exists flow requests,
    enforceDmPolicy ext core p m365 policy allowList fromEmail fromName w
    = (Returned false,
       {| pairingRequests := requests;
          trace := trace w ++ flow
                   ++ dropped (log p)
                        (InboundDrop CHANNEL_ID
                           ("dmPolicy=" ++ dmPolicyName policy)%string fromEmail) |})
    /\ forallb isPairingFlow flow = true
    /\ (policy = Allowlist -> flow = [] /\ requests = pairingRequests w).
Proof.
  intros O H. destruct policy; [congruence| |].
  - destruct (find (pendingFor CHANNEL_ID fromEmail) (pairingRequests w)) as [r|] eqn:F.
    + eexists [_], _. split; [|split].
      * rewrite (enforce_pairing_pending ext core p m365 allowList fromEmail fromName r w H F).
        reflexivity.
      * reflexivity.
      * discriminate.
    + eexists (_ :: _), _. split; [|split].
      * rewrite (enforce_pairing_new ext core p m365 allowList fromEmail fromName w H F).
        cbv zeta. rewrite <- app_comm_cons. reflexivity.
      * simpl. apply pairingReplyTrace_flow.
      * discriminate.
  - exists [], (pairingRequests w). split; [|now split].
    now rewrite enforce_allowlist_denied.
Qed.

(** The run of the handler when the runtime is in place: the agent is invoked
    exactly for the mails [admits] lets through, and a mail with a sender that
    is not let through hands exactly one drop record to the log. *)
Lemma handleIncomingMail_decision w :
  exists added requests,
    handleIncomingMail (Some core) ext p w
    = (Returned tt, {| pairingRequests := requests; trace := trace w ++ added |})
    /\ existsb isAgentInvoke added = admits core p w
    /\ filter isInboundDrop added
       = match fromEmailOf (message p) with
         | Some fromEmail =>
             if truthy fromEmail && negb (admits core p w)
             then dropped (log p) (dropRecord p fromEmail) else []
         | None => []
         end.
Proof.
  destruct (truthyOpt (fromEmailOf (message p))) eqn:T.
  - destruct (fromEmailOf (message p)) as [fromEmail|] eqn:F; [|discriminate].
    simpl in T. unfold admits. rewrite F, T. cbn [andb].
    rewrite (handleIncomingMail_with_sender ext core p fromEmail w F T).
    set (w1 := afterIncoming p fromEmail w).
    set (allowList := allowListAt core p w1).
    set (policy := dmPolicyOf (microsoft365 (cfg p))).
    destruct (logged_quiet (log p) Info (incomingLine p fromEmail))
      as [LA [_ [_ [_ [_ [_ [LD _]]]]]]].
    destruct (dmPolicy_eqb policy Open || senderAllowed allowList fromEmail) eqn:D.
    + assert (E : enforceDmPolicy ext core p (microsoft365 (cfg p)) policy allowList
                    fromEmail (fromNameOf (message p)) w1 = (Returned true, w1)).
      { apply orb_true_iff in D as [D|D].
        - destruct policy; try discriminate. apply enforce_open.
        - now apply enforce_allowed. }
      rewrite (bind_returned _ _ _ _ _ E).
      destruct (processAdmitted_run ext core p (microsoft365 (cfg p)) fromEmail
                  (fromNameOf (message p))
                  (orElse (subject (message p)) "(no subject)"%string)
                  (rawBodyOf (message p)) w1) as [t [R [P A]]].
      exists (logged (log p) Info (incomingLine p fromEmail) ++ t), (pairingRequests w).
      split; [|split].
      * rewrite R. unfold w1, afterIncoming. now rewrite extend_extend.
      * now rewrite existsb_app, A, orb_true_r.
      * rewrite filter_app, LD. cbn [negb]. simpl.
        apply (postAdmission_quiet t P).
    + apply orb_false_iff in D as [DO DA].
      assert (O : policy <> Open) by (intros ->; discriminate).
      destruct (enforce_denied (microsoft365 (cfg p)) policy allowList fromEmail
                  (fromNameOf (message p)) w1 O DA) as [flow [requests [E [FL _]]]].
      rewrite (bind_returned _ _ _ _ _ E).
      exists (logged (log p) Info (incomingLine p fromEmail) ++ flow
              ++ dropped (log p) (dropRecord p fromEmail)), requests.
      split; [|split].
      * unfold ret, w1, afterIncoming, extend, dropRecord. simpl.
        fold policy. now rewrite <- !app_assoc.
      * rewrite !existsb_app, LA.
        destruct (pairingFlow_quiet flow FL) as [-> _]. now destruct (log p).
      * rewrite !filter_app, LD, (pairingFlow_filter_drop flow FL).
        now destruct (log p).
  - exists (logged (log p) Warn
              "microsoft365: dropping message with no sender address"%string),
           (pairingRequests w).
    rewrite (handleIncomingMail_no_sender core ext p w T).
    destruct (logged_quiet (log p) Warn
                "microsoft365: dropping message with no sender address"%string)
      as [LA [_ [_ [_ [_ [_ [LD _]]]]]]].
    split; [reflexivity|]. rewrite LA, LD. unfold admits.
    destruct (fromEmailOf (message p)) as [e|]; [|now split].
    simpl in T. rewrite T. now split.
Qed.

End DecisionFacts.

(** ** Policy [pairing] and the wildcard *)

(** C1, as written, fails: under [pairing] an allow-list that holds only the
    wildcard admits a sender whose own identity is not listed. *)
Lemma C1_wildcard_admits_under_pairing :
  let p := Demo.params (Some Pairing) (Some ["*"]) "m1" (Some "new@x.com") in
  let core := Demo.core (Some []) in
  dmPolicyOf (microsoft365 (cfg p)) = Pairing
  /\ ~ In "new@x.com"%string (allowListAt core p (afterIncoming p "new@x.com" Demo.fresh))
  /\ existsb isAgentInvoke
       (trace (snd (handleIncomingMail (Some core) Demo.externals p Demo.fresh))) = true.
Proof.
  cbv zeta. split; [reflexivity|]. split; [|reflexivity].
  vm_compute. intros [H|[]]. discriminate.
Qed.

(** The identity the handler computes is the lower-cased address. *)
Lemma fromEmailOf_address message :
  fromEmailOf message = option_map toLowerCase (senderAddressOf message).
Proof.
  unfold fromEmailOf, senderAddressOf.
  destruct (from message) as [r|]; [|reflexivity].
  now destruct (emailAddress r).
Qed.

Lemma truthy_toLowerCase s : truthy (toLowerCase s) = truthy s.
Proof. now destruct s. Qed.

(** C1, amended: under [pairing] a mail with a sender reaches the agent if and
    only if the normalized sender identity or the wildcard "*" is an element of
    the effective allow-list; for every other sender the handler returns
    without invoking the agent and hands the drop record with reason
    "dmPolicy=pairing" to its log.  The sender address is taken without
    surrounding white space, where the identity the handler computes is the
    normalized one. *)
Theorem C1_pairing_gate (core : PluginRuntime) (ext : Externals) (p : Params)
    (w : World) (address : string) :
  senderAddressOf (message p) = Some address ->
  truthy address = true ->
  trim address = address ->
  dmPolicyOf (microsoft365 (cfg p)) = Pairing ->
  let identity := normalizeEntry address in
  let allowList := allowListAt core p (afterIncoming p identity w) in
  exists added requests,
    handleIncomingMail (Some core) ext p w
    = (Returned tt, {| pairingRequests := requests; trace := trace w ++ added |})
    /\ (existsb isAgentInvoke added = true
        <-> In identity allowList \/ In "*"%string allowList)
    /\ (~ (In identity allowList \/ In "*"%string allowList) ->
        existsb isAgentInvoke added = false
        /\ filter isInboundDrop added
           = dropped (log p) (InboundDrop CHANNEL_ID "dmPolicy=pairing" identity)).
Proof.
  intros A T0 TR P identity allowList.
  assert (I : identity = toLowerCase address)
    by (unfold identity, normalizeEntry; now rewrite TR).
  assert (F : fromEmailOf (message p) = Some identity)
    by (now rewrite fromEmailOf_address, A, I).
  assert (T : truthy identity = true) by (now rewrite I, truthy_toLowerCase).
  destruct (handleIncomingMail_decision ext core p w) as [added [requests [R [G D]]]].
  exists added, requests. split; [exact R|].
  unfold admits in G, D. rewrite F, T, P in G, D. cbn [andb orb dmPolicy_eqb] in G, D.
  fold allowList in G, D. rewrite G. split.
  - apply senderAllowed_iff.
  - intros N. rewrite D.
    destruct (senderAllowed allowList identity) eqn:S.
    + exfalso. apply N. now apply senderAllowed_iff.
    + split; [reflexivity|]. unfold dropRecord. now rewrite P.
Qed.

Lemma C1_pairing_gate_witness :
  exists added requests,
    handleIncomingMail (Some (Demo.core (Some ["Friend@x.com"]))) Demo.externals
      (Demo.params (Some Pairing) None "m1" (Some "New@x.com")) Demo.fresh
    = (Returned tt, {| pairingRequests := requests;
                       trace := trace Demo.fresh ++ added |})
    /\ (existsb isAgentInvoke added = true
        <-> In "new@x.com"%string ["friend@x.com"%string]
            \/ In "*"%string ["friend@x.com"%string])
    /\ (~ (In "new@x.com"%string ["friend@x.com"%string]
           \/ In "*"%string ["friend@x.com"%string]) ->
        existsb isAgentInvoke added = false
        /\ filter isInboundDrop added
           = [InboundDrop CHANNEL_ID "dmPolicy=pairing" "new@x.com"]).
Proof.
  apply (C1_pairing_gate (Demo.core (Some ["Friend@x.com"%string])) Demo.externals
           (Demo.params (Some Pairing) None "m1" (Some "New@x.com"%string))
           Demo.fresh "New@x.com"); reflexivity.
Defined.

(** ** Policy [open] *)

(** C5: under [open] every mail with a non-empty sender is admitted.  The gate
    answers at once, whatever the allow-list holds, without touching the
    world; the handler goes on to invoke the agent, neither a pairing upsert
    nor a drop record occurs and the pairing store is unchanged; and the run
    is the same whatever the allow-list store answers. *)
Theorem C5_open_admits_all (core : PluginRuntime) (ext : Externals) (p : Params)
    (w : World) (fromEmail : string) :
  fromEmailOf (message p) = Some fromEmail ->
  truthy fromEmail = true ->
  dmPolicyOf (microsoft365 (cfg p)) = Open ->
  (forall allowList w',
     enforceDmPolicy ext core p (microsoft365 (cfg p))
       (dmPolicyOf (microsoft365 (cfg p))) allowList fromEmail
       (fromNameOf (message p)) w'
     = (Returned true, w'))
  /\ (exists added,
        handleIncomingMail (Some core) ext p w = (Returned tt, extend w added)
        /\ existsb isAgentInvoke added = true
        /\ existsb isPairingUpsert added = false
        /\ existsb isInboundDrop added = false)
  /\ (forall read,
        handleIncomingMail (Some (withAllowFromStore read core)) ext p w
        = handleIncomingMail (Some core) ext p w).
Proof.
  intros F T P. split; [|split].
  - intros allowList w'. rewrite P. apply enforce_open.
  - rewrite (handleIncomingMail_with_sender ext core p fromEmail w F T), P.
    rewrite (bind_returned _ _ _ _ _ (enforce_open _ _ _ _ _ _ _ _)).
    destruct (processAdmitted_run ext core p (microsoft365 (cfg p)) fromEmail
                (fromNameOf (message p))
                (orElse (subject (message p)) "(no subject)"%string)
                (rawBodyOf (message p)) (afterIncoming p fromEmail w))
      as [t [R [Q A]]].
    exists (logged (log p) Info (incomingLine p fromEmail) ++ t).
    destruct (logged_quiet (log p) Info (incomingLine p fromEmail))
      as [_ [_ [_ [LU [LD _]]]]].
    destruct (postAdmission_quiet t Q) as [TU [TD _]].
    rewrite R. unfold afterIncoming. rewrite extend_extend.
    rewrite !existsb_app, A, LU, LD, TU, TD, orb_true_r. now repeat split.
  - intros read.
    rewrite (handleIncomingMail_with_sender ext core p fromEmail w F T).
    rewrite (handleIncomingMail_with_sender ext _ p fromEmail w F T).
    rewrite P.
    rewrite !(bind_returned _ _ _ _ _ (enforce_open _ _ _ _ _ _ _ _)).
    reflexivity.
Qed.

Lemma C5_open_admits_all_witness :
  exists added,
    handleIncomingMail (Some (Demo.core None)) Demo.externals
      (Demo.params (Some Open) (Some []) "m1" (Some "Anyone@x.com")) Demo.fresh
    = (Returned tt, extend Demo.fresh added)
    /\ existsb isAgentInvoke added = true
    /\ existsb isPairingUpsert added = false
    /\ existsb isInboundDrop added = false.
Proof.
  apply (C5_open_admits_all (Demo.core None) Demo.externals
           (Demo.params (Some Open) (Some []) "m1" (Some "Anyone@x.com"%string))
           Demo.fresh "anyone@x.com"); reflexivity.
Defined.

(** ** Denied mails *)

(** C6, as written, fails: the drop record and the pairing reply are not the
    only effects of a deny.  Under [pairing], with a Graph client that is
    down, a denied mail also persists a pairing request in the pairing store
    and logs the failure of the reply. *)
Lemma C6_deny_has_other_effects :
  let p := Demo.params (Some Pairing) (Some []) "m1" (Some "new@x.com") in
  let w' := snd (handleIncomingMail (Some (Demo.core (Some [])))
                   Demo.downExternals p Demo.fresh) in
  trace w'
  = [Log Info "Incoming email from new@x.com: Hello";
     PairingUpsert "microsoft365" "new@x.com" (Some "New User"%string) "A7KQ2" true;
     GraphReplyToMail "m1"
       ("Your email address: new@x.com" ++ newline ++ "Pairing code: A7KQ2")%string;
     Log Error "microsoft365: pairing reply failed for new@x.com: Error: 503";
     InboundDrop "microsoft365" "dmPolicy=pairing" "new@x.com"]
  /\ List.length (pairingRequests w') = 1
  /\ pairingRequests Demo.fresh = []
  /\ ~ (forall e, In e (skipn 1 (trace w')) ->
          isInboundDrop e = true \/ isGraphReply e = true).
Proof.
  cbv zeta. repeat split.
  intros H.
  destruct (H (Log Error "microsoft365: pairing reply failed for new@x.com: Error: 503"))
    as [D|D]; try discriminate.
  vm_compute. tauto.
Qed.

(** C6, amended: when a mail with a sender is denied (policy [allowlist] or
    [pairing], sender not allowed) the handler returns after these effects and
    no others: the incoming line every mail gets, the pairing flow (the upsert
    of the pairing request, the optional pairing reply and the error line of a
    failed reply; none of it under [allowlist], where the pairing store stays
    as it was), and last the drop record with reason "dmPolicy=<mode>" and the
    sender as target, which goes to the log the handler was given and is
    written when there is one.  No session write, no mark-as-read and no agent
    invocation occur. *)
Theorem C6_deny_effects (core : PluginRuntime) (ext : Externals) (p : Params)
    (w : World) (fromEmail : string) :
  fromEmailOf (message p) = Some fromEmail ->
  truthy fromEmail = true ->
  dmPolicyOf (microsoft365 (cfg p)) <> Open ->
  senderAllowed (allowListAt core p (afterIncoming p fromEmail w)) fromEmail = false ->
  exists flow requests added,
    added = logged (log p) Info (incomingLine p fromEmail) ++ flow
            ++ dropped (log p)
                 (InboundDrop CHANNEL_ID
                    ("dmPolicy=" ++ dmPolicyName (dmPolicyOf (microsoft365 (cfg p))))%string
                    fromEmail)
    /\ handleIncomingMail (Some core) ext p w
       = (Returned tt, {| pairingRequests := requests; trace := trace w ++ added |})
    /\ forallb isPairingFlow flow = true
    /\ (dmPolicyOf (microsoft365 (cfg p)) = Allowlist ->
        flow = [] /\ requests = pairingRequests w)
    /\ existsb isSessionWrite added = false
    /\ existsb isMarkAsRead added = false
    /\ existsb isAgentInvoke added = false.
Proof.
  intros F T O D.
  rewrite (handleIncomingMail_with_sender ext core p fromEmail w F T).
  destruct (enforce_denied ext core p (microsoft365 (cfg p))
              (dmPolicyOf (microsoft365 (cfg p)))
              (allowListAt core p (afterIncoming p fromEmail w)) fromEmail
              (fromNameOf (message p)) (afterIncoming p fromEmail w) O D)
    as [flow [requests [E [FL AL]]]].
  exists flow, requests. eexists. split; [reflexivity|].
  rewrite (bind_returned _ _ _ _ _ E).
  destruct (logged_quiet (log p) Info (incomingLine p fromEmail))
    as [LA [LS [LM _]]].
  destruct (pairingFlow_quiet flow FL) as [FA [FS FM]].
  split; [|split; [exact FL|split; [exact AL|]]].
  - unfold ret, afterIncoming, extend. simpl. now rewrite <- !app_assoc.
  - rewrite !existsb_app, LA, LS, LM, FA, FS, FM.
    destruct (log p); now repeat split.
Qed.

Lemma C6_deny_effects_witness :
  exists flow requests added,
    added = logged true Info "Incoming email from new@x.com: Hello" ++ flow
            ++ [InboundDrop CHANNEL_ID "dmPolicy=pairing" "new@x.com"]
    /\ handleIncomingMail (Some (Demo.core (Some []))) Demo.flakyExternals
         (Demo.params (Some Pairing) (Some ["friend@x.com"]) "m1" (Some "New@x.com"))
         Demo.fresh
       = (Returned tt, {| pairingRequests := requests;
                          trace := trace Demo.fresh ++ added |})
    /\ forallb isPairingFlow flow = true
    /\ (Pairing = Allowlist -> flow = [] /\ requests = pairingRequests Demo.fresh)
    /\ existsb isSessionWrite added = false
    /\ existsb isMarkAsRead added = false
    /\ existsb isAgentInvoke added = false.
Proof.
  apply (C6_deny_effects (Demo.core (Some [])) Demo.flakyExternals
           (Demo.params (Some Pairing) (Some ["friend@x.com"%string]) "m1"
              (Some "New@x.com"%string))
           Demo.fresh "new@x.com"); try reflexivity.
  discriminate.
Defined.

(** ** A failing allow-list store *)

(** C8: when reading the persisted allow-list fails, the failure is caught and
    counts as an empty store: the effective allow-list is the normalized
    static list alone, the handler does exactly what it does with a store that
    answers with no entries, it returns normally, and a sender on the static
    list reaches the agent. *)
Theorem C8_store_failure_is_not_fatal (core : PluginRuntime) (ext : Externals)
    (p : Params) (w : World) :
  (forall h, readAllowFromStore core h CHANNEL_ID = None) ->
  (forall w', tryCatch (readAllowFrom core CHANNEL_ID) (fun _ => ret []) w'
              = (Returned [], w'))
  /\ (forall w', allowListAt core p w'
                 = formatAllowFrom
                     (orElse (configuredAllowFrom (microsoft365 (cfg p))) []))
  /\ handleIncomingMail (Some core) ext p w
     = handleIncomingMail (Some (withAllowFromStore (fun _ _ => Some []) core)) ext p w
  /\ exists added requests,
       handleIncomingMail (Some core) ext p w
       = (Returned tt, {| pairingRequests := requests; trace := trace w ++ added |})
       /\ (forall fromEmail,
             fromEmailOf (message p) = Some fromEmail ->
             In fromEmail
               (formatAllowFrom
                  (orElse (configuredAllowFrom (microsoft365 (cfg p))) [])) ->
             existsb isAgentInvoke added = true).
Proof.
  intros H.
  assert (AL : forall w', allowListAt core p w'
                 = formatAllowFrom
                     (orElse (configuredAllowFrom (microsoft365 (cfg p))) [])).
  { intros w'. unfold allowListAt. rewrite H, effectiveAllowFrom_format.
    simpl. apply app_nil_r. }
  split; [|split; [exact AL|split]].
  - intros w'. rewrite readAllowFrom_caught, H. reflexivity.
  - destruct (truthyOpt (fromEmailOf (message p))) eqn:T.
    + destruct (fromEmailOf (message p)) as [fromEmail|] eqn:F; [|discriminate].
      simpl in T.
      rewrite (handleIncomingMail_with_sender ext core p fromEmail w F T).
      rewrite (handleIncomingMail_with_sender ext _ p fromEmail w F T).
      rewrite AL. unfold allowListAt at 1. cbn [withAllowFromStore readAllowFromStore orElse].
      rewrite effectiveAllowFrom_format. cbn [formatAllowFrom map filter].
      rewrite app_nil_r. reflexivity.
    + now rewrite !handleIncomingMail_no_sender.
  - destruct (handleIncomingMail_decision ext core p w) as [added [requests [R [A _]]]].
    exists added, requests. split; [exact R|].
    intros fromEmail F I. rewrite A. unfold admits. rewrite F, AL.
    assert (S : senderAllowed
                  (formatAllowFrom
                     (orElse (configuredAllowFrom (microsoft365 (cfg p))) []))
                  fromEmail = true) by (apply senderAllowed_iff; now left).
    rewrite S, orb_true_r, andb_true_r.
    apply truthy_true_iff. apply In_formatAllowFrom in I. tauto.
Qed.

Lemma C8_store_failure_is_not_fatal_witness :
  handleIncomingMail (Some (Demo.core None)) Demo.externals
    (Demo.params (Some Allowlist) (Some [" Friend@x.com "]) "m1" (Some "friend@X.com"))
    Demo.fresh
  = handleIncomingMail
      (Some (withAllowFromStore (fun _ _ => Some []) (Demo.core None)))
      Demo.externals
      (Demo.params (Some Allowlist) (Some [" Friend@x.com "]) "m1" (Some "friend@X.com"))
      Demo.fresh.
Proof.
  apply (C8_store_failure_is_not_fatal (Demo.core None) Demo.externals
           (Demo.params (Some Allowlist) (Some [" Friend@x.com "%string]) "m1"
              (Some "friend@X.com"%string)) Demo.fresh).
  intros h. reflexivity.
Defined.

(** ** The default policy *)

Lemma admits_explicitPairing core p w :
  configuredDmPolicy (microsoft365 (cfg p)) = None ->
  admits core (explicitPairing p) w = admits core p w
  /\ forall fromEmail, dropRecord (explicitPairing p) fromEmail = dropRecord p fromEmail.
Proof.
  intros U. unfold admits, dropRecord, allowListAt, afterIncoming, incomingLine, dmPolicyOf.
  destruct p as [msg [[m|] store other] acct sink]; simpl in *.
  - rewrite U. now split.
  - now split.
Qed.

(** C10: when the channel configuration does not set [dmPolicy], the policy in
    force is [pairing].  The handler lets through exactly the mails it lets
    through under the same configuration with [dmPolicy: "pairing"] written
    out, both runs return, the agent is invoked in one exactly when it is in
    the other, and both leave the same drop record; the security warnings are
    those of explicit [pairing], that is none: an unset policy is never
    treated as [open]. *)
Theorem C10_unset_policy_is_pairing (core : PluginRuntime) (ext : Externals)
    (p : Params) (w : World) :
  configuredDmPolicy (microsoft365 (cfg p)) = None ->
  dmPolicyOf (microsoft365 (cfg p)) = Pairing
  /\ admits core p w = admits core (explicitPairing p) w
  /\ (exists added requests added' requests',
        handleIncomingMail (Some core) ext p w
        = (Returned tt, {| pairingRequests := requests; trace := trace w ++ added |})
        /\ handleIncomingMail (Some core) ext (explicitPairing p) w
           = (Returned tt, {| pairingRequests := requests'; trace := trace w ++ added' |})
        /\ existsb isAgentInvoke added = existsb isAgentInvoke added'
        /\ filter isInboundDrop added = filter isInboundDrop added')
  /\ collectWarnings (cfg p) = collectWarnings (cfg (explicitPairing p))
  /\ collectWarnings (cfg p) = [].
Proof.
  intros U.
  destruct (admits_explicitPairing core p w U) as [A D].
  assert (P : dmPolicyOf (microsoft365 (cfg p)) = Pairing).
  { unfold dmPolicyOf. fold (configuredDmPolicy (microsoft365 (cfg p))). now rewrite U. }
  split; [exact P|]. split; [now symmetry|]. split; [|split].
  - destruct (handleIncomingMail_decision ext core p w)
      as [added [requests [R [RA RD]]]].
    destruct (handleIncomingMail_decision ext core (explicitPairing p) w)
      as [added' [requests' [R' [RA' RD']]]].
    exists added, requests, added', requests'.
    split; [exact R|]. split; [exact R'|]. split.
    + now rewrite RA, RA', A.
    + rewrite RD, RD'. cbn [explicitPairing message]. rewrite A.
      destruct (fromEmailOf (message p)); [|reflexivity]. now rewrite D.
  - unfold collectWarnings. fold (dmPolicyOf (microsoft365 (cfg p))). now rewrite P.
  - unfold collectWarnings. fold (dmPolicyOf (microsoft365 (cfg p))). now rewrite P.
Qed.

Lemma C10_unset_policy_is_pairing_witness :
  dmPolicyOf (microsoft365 (cfg (Demo.params None None "m1" (Some "new@x.com"))))
  = Pairing
  /\ collectWarnings (cfg (Demo.params None None "m1" (Some "new@x.com"))) = [].
Proof.
  destruct (C10_unset_policy_is_pairing (Demo.core (Some [])) Demo.externals
              (Demo.params None None "m1" (Some "new@x.com"%string)) Demo.fresh
              eq_refl) as [P [_ [_ [_ W]]]].
  split; [exact P | exact W].
Defined.

(** ** Reply dispatch *)

Section DispatchFacts.

Variable ext : Externals.
Variable p : Params.
Variable m365 : option Microsoft365Config.

(** One step of the dispatcher: whatever happens to the fragment, the loop
    goes on with the rest. *)
Lemma dispatch_step f rest w :
  dispatchFragments (deliver ext p m365) (onError p) (f :: rest) w
  = dispatchFragments (deliver ext p m365) (onError p) rest
      (extend w (fragmentTrace ext p m365 f (trace w))).
Proof.
  cbn [dispatchFragments]. unfold fragmentTrace, nonBlank.
  destruct (truthy (trim (orElse (text f) ""))) eqn:N.
  - assert (E : tryCatch (deliver ext p m365 f) (fun e => onError p e (kind f)) w
                = (Returned tt,
                   extend w
                     (if hasRefreshToken (resolveCredentials ext m365)
                      then sent p f ::
                           match graphReply ext (trace w) (id (message p))
                                   (orElse (text f) "") with
                           | None => []
                           | Some err => failureLine p f err
                           end
                      else logged (log p) Error
                             "microsoft365: cannot reply, missing refreshToken"))).
    { unfold tryCatch. rewrite deliver_run, N. unfold deliverTrace. rewrite N.
      cbn [andb negb].
      destruct (hasRefreshToken (resolveCredentials ext m365)); cbn [negb];
        [|reflexivity].
      destruct (graphReply ext (trace w) _ _) as [err|]; [|reflexivity].
      unfold onError, failureLine. now rewrite logTo_run, extend_extend. }
    now rewrite (bind_returned _ _ _ _ _ E).
  - rewrite (bind_returned _ _ _ _ _ (eq_refl : ret tt w = (Returned tt, w))).
    now rewrite extend_nil.
Qed.

Lemma fragmentTrace_replies f h :
  hasRefreshToken (resolveCredentials ext m365) = true ->
  filter isGraphReply (fragmentTrace ext p m365 f h)
  = if nonBlank f then [sent p f] else [].
Proof.
  intros K. unfold fragmentTrace. rewrite K.
  destruct (nonBlank f); [|reflexivity]. cbn [filter sent isGraphReply].
  destruct (graphReply ext h _ _); [|reflexivity].
  unfold failureLine. now destruct (log p).
Qed.

End DispatchFacts.

(** C4: the dispatcher is ordered and isolates failures.  Take fragments
    [A; B; C], a refresh token, and a Graph client that rejects the delivery
    of a non-blank [B] with [err].  The dispatch returns normally; it performs
    what [A] takes, then the reply for [B] and the error line tagged with
    [B]'s kind, then what [C] takes; and the replies attempted are those of
    the non-blank fragments among [A], [B], [C], in that order, so [C] is
    delivered after the failure of [B]. *)
Theorem C4_dispatch_ordered_and_isolated (ext : Externals) (p : Params)
    (m365 : option Microsoft365Config) (A B C : ReplyFragment) (err : string)
    (w : World) :
  hasRefreshToken (resolveCredentials ext m365) = true ->
  nonBlank B = true ->
  let doneA := fragmentTrace ext p m365 A (trace w) in
  graphReply ext (trace w ++ doneA) (id (message p)) (orElse (text B) "")
    = Some err ->
  let doneB := sent p B :: failureLine p B err in
  let doneC := fragmentTrace ext p m365 C (trace w ++ doneA ++ doneB) in
  dispatchFragments (deliver ext p m365) (onError p) [A; B; C] w
    = (Returned tt, extend w (doneA ++ doneB ++ doneC))
  /\ filter isGraphReply (doneA ++ doneB ++ doneC)
     = map (sent p) (filter nonBlank [A; B; C]).
Proof.
  intros K NB doneA GB doneB doneC.
  assert (EB : fragmentTrace ext p m365 B (trace w ++ doneA) = doneB).
  { unfold fragmentTrace. now rewrite NB, K, GB. }
  split.
  - rewrite !dispatch_step. cbn [dispatchFragments]. unfold ret.
    rewrite !extend_extend, !trace_extend. fold doneA. rewrite EB.
    reflexivity.
  - rewrite !filter_app. unfold doneA, doneC. rewrite <- EB.
    rewrite !(fragmentTrace_replies ext p m365 _ _ K).
    cbn [filter map]. now destruct (nonBlank A), (nonBlank B), (nonBlank C).
Qed.

Lemma C4_dispatch_ordered_and_isolated_witness :
  let p := Demo.params (Some Open) None "m1" (Some "new@x.com") in
  dispatchFragments (deliver Demo.flakyExternals p (microsoft365 (cfg p))) (onError p)
    [ {| text := Some "A"; kind := "block" |};
      {| text := Some "B"; kind := "tool" |};
      {| text := Some "C"; kind := "final" |} ] Demo.fresh
  = (Returned tt,
     extend Demo.fresh
       [GraphReplyToMail "m1" "A"; GraphReplyToMail "m1" "B";
        Log Error "microsoft365 tool reply failed: Error: 503";
        GraphReplyToMail "m1" "C"]).
Proof.
  cbv zeta.
  apply (C4_dispatch_ordered_and_isolated Demo.flakyExternals
           (Demo.params (Some Open) None "m1" (Some "new@x.com"%string))
           (Some (Demo.config (Some Open) None))
           {| text := Some "A"%string; kind := "block" |}
           {| text := Some "B"%string; kind := "tool" |}
           {| text := Some "C"%string; kind := "final" |}
           "Error: 503" Demo.fresh); reflexivity.
Defined.

(** ** Idempotent pairing *)

Section PairingFacts.

Variable core : PluginRuntime.
Variable ext : Externals.
Variable S : string.
Hypothesis S_truthy : truthy S = true.







End PairingFacts.

Section StoreFacts.

Variable f : PairingRequest -> bool.



End StoreFacts.



(** ** More facts about the string primitives *)

Section MoreStringFacts.

Lemma trimEnd_cons_solid c s :
  isWhiteSpace c = false -> trimEnd (String c s) = String c (trimEnd s).
Proof.
  intros W. cbn [trimEnd]. destruct (trimEnd s); [now rewrite W | reflexivity].
Qed.

Lemma trimStart_trimEnd s : trimStart (trimEnd s) = trimEnd (trimStart s).
Proof.
  induction s as [|c s IH]; [reflexivity|].
  destruct (isWhiteSpace c) eqn:W.
  - cbn [trimStart]. rewrite W. cbn [trimEnd].
    destruct (trimEnd s) as [|d t] eqn:E.
    + rewrite W. rewrite <- IH. reflexivity.
    + cbn [trimStart]. rewrite W. exact IH.
  - rewrite (trimEnd_cons_solid c s W). cbn [trimStart]. rewrite W.
    now rewrite (trimEnd_cons_solid c s W).
Qed.

Lemma trim_trimEnd s : trim (trimEnd s) = trim s.
Proof.
  unfold trim. now rewrite trimStart_trimEnd, trimEnd_idem.
Qed.

Lemma trim_fixed_toLowerCase s : trim (toLowerCase (trim s)) = toLowerCase (trim s).
Proof. now rewrite trim_toLowerCase, trim_idem. Qed.

Lemma sliceFrom_toLowerCase n s :
  sliceFrom n (toLowerCase s) = toLowerCase (sliceFrom n s).
Proof.
  revert s. induction n as [|n IH]; intros s; [reflexivity|].
  destruct s as [|c s]; [reflexivity|]. apply IH.
Qed.

Lemma includes_char c s : includes (String c EmptyString) s = occurs c s.
Proof.
  induction s as [|d s IH]; [reflexivity|].
  cbn [includes occurs String.prefix]. rewrite IH.
  destruct (ascii_dec c d) as [->|N].
  - rewrite Ascii.eqb_refl. now destruct s.
  - apply Ascii.eqb_neq in N. now rewrite N.
Qed.

Lemma at_lowerChar d :
  Ascii.eqb "@"%char (lowerChar d) = Ascii.eqb "@"%char d.
Proof. destruct d as [[] [] [] [] [] [] [] []]; reflexivity. Qed.

Lemma at_not_space d : Ascii.eqb "@"%char d = true -> isWhiteSpace d = false.
Proof. intros E. apply Ascii.eqb_eq in E. now subst. Qed.

Lemma occurs_at_toLowerCase s : occurs "@"%char (toLowerCase s) = occurs "@"%char s.
Proof.
  induction s as [|d s IH]; [reflexivity|].
  cbn [toLowerCase occurs]. now rewrite at_lowerChar, IH.
Qed.

Lemma occurs_at_trimStart s : occurs "@"%char (trimStart s) = occurs "@"%char s.
Proof.
  induction s as [|d s IH]; [reflexivity|].
  cbn [trimStart]. destruct (isWhiteSpace d) eqn:W; [|reflexivity].
  rewrite IH. cbn [occurs].
  destruct (Ascii.eqb "@"%char d) eqn:E; [|reflexivity].
  apply at_not_space in E. congruence.
Qed.

Lemma occurs_at_trimEnd s : occurs "@"%char (trimEnd s) = occurs "@"%char s.
Proof.
  induction s as [|d s IH]; [reflexivity|].
  cbn [trimEnd occurs]. rewrite <- IH.
  destruct (trimEnd s) as [|e t].
  - destruct (isWhiteSpace d) eqn:W; cbn [occurs].
    + destruct (Ascii.eqb "@"%char d) eqn:E; [|reflexivity].
      apply at_not_space in E. congruence.
    + reflexivity.
  - reflexivity.
Qed.

(** Trimming and lower-casing neither add nor remove an "@". *)
Lemma includes_at_normalized s :
  includes "@" (toLowerCase (trim s)) = includes "@" s.
Proof.
  rewrite !includes_char, occurs_at_toLowerCase. unfold trim.
  now rewrite occurs_at_trimEnd, occurs_at_trimStart.
Qed.

Lemma includes_nonempty needle s :
  truthy needle = true -> includes needle s = true -> truthy s = true.
Proof.
  intros N I. destruct s; [|reflexivity].
  destruct needle; [discriminate|]. discriminate.
Qed.

Lemma trimEnd_solid_app P x :
  solid P = true -> trimEnd (P ++ x)%string = (P ++ trimEnd x)%string.
Proof.
  induction P as [|c P IH]; [reflexivity|].
  cbn [solid append]. intros H. apply andb_true_iff in H as [C S].
  apply negb_true_iff in C. rewrite (trimEnd_cons_solid c _ C). now rewrite IH.
Qed.

Lemma trim_solid_app P x :
  solid P = true -> truthy P = true ->
  trim (P ++ x)%string = (P ++ trimEnd x)%string.
Proof.
  intros S T. unfold trim. rewrite trimStart_fixed.
  - now apply trimEnd_solid_app.
  - destruct P as [|c P]; [discriminate|]. cbn [solid] in S.
    apply andb_true_iff in S as [C _]. exact C.
Qed.

Lemma toLowerCase_app a b :
  toLowerCase (a ++ b)%string = (toLowerCase a ++ toLowerCase b)%string.
Proof.
  induction a as [|c a IH]; [reflexivity|]. cbn [append toLowerCase]. now rewrite IH.
Qed.

Lemma startsWith_app P x : startsWith P (P ++ x)%string = true.
Proof.
  unfold startsWith. induction P as [|c P IH]; [now destruct x|].
  cbn [append String.prefix]. now destruct (ascii_dec c c).
Qed.

Lemma sliceFrom_app P x : sliceFrom (String.length P) (P ++ x)%string = x.
Proof. induction P as [|c P IH]; [reflexivity | exact IH]. Qed.

Lemma includes_prefix P s : startsWith P s = true -> includes P s = true.
Proof. unfold startsWith. intros H. destruct s; cbn [includes]; now rewrite H. Qed.

(** A lower-case prefix without white space survives normalization. *)
Lemma normalize_solid_prefix P x :
  solid P = true -> truthy P = true -> toLowerCase P = P ->
  toLowerCase (trim (P ++ x)%string) = (P ++ toLowerCase (trimEnd x))%string.
Proof.
  intros S T L. now rewrite (trim_solid_app P x S T), toLowerCase_app, L.
Qed.

End MoreStringFacts.

(** ** Targets *)

Section TargetFacts.

Lemma Some_eq {A} (a b : A) : Some a = Some b -> b = a.
Proof. congruence. Qed.

Lemma normalized_fixed s :
  trim (toLowerCase (trim s)) = toLowerCase (trim s)
  /\ toLowerCase (toLowerCase (trim s)) = toLowerCase (trim s).
Proof. split; [apply trim_fixed_toLowerCase | apply toLowerCase_idem]. Qed.

Lemma trim_sliceFrom_lower n s :
  trim (trim (sliceFrom n (toLowerCase s))) = trim (sliceFrom n (toLowerCase s))
  /\ toLowerCase (trim (sliceFrom n (toLowerCase s)))
     = trim (sliceFrom n (toLowerCase s)).
Proof.
  split; [apply trim_idem|].
  now rewrite sliceFrom_toLowerCase, trim_toLowerCase, toLowerCase_idem.
Qed.

Lemma normalizeTarget_of_normal raw :
  normalizeTarget (toLowerCase (trim raw)) = normalizeTarget raw.
Proof.
  unfold normalizeTarget.
  now rewrite trim_fixed_toLowerCase, toLowerCase_idem.
Qed.

End TargetFacts.

(** X1: a target that [normalizeTarget] accepts comes back trimmed and
    lower-cased, and the answer does not depend on the case of the input or on
    white space around it. *)
Theorem X1_normalizeTarget_normal_form (raw : string) :
  (forall t, normalizeTarget raw = Some t -> trim t = t /\ toLowerCase t = t)
  /\ normalizeTarget (toLowerCase raw) = normalizeTarget raw
  /\ normalizeTarget (trim raw) = normalizeTarget raw.
Proof.
  split; [|split].
  - unfold normalizeTarget. cbv zeta. intros t.
    destruct (startsWith "email:" _).
    { intros H. apply Some_eq in H. subst t. apply trim_sliceFrom_lower. }
    destruct (startsWith "mailto:" _).
    { intros H. apply Some_eq in H. subst t. apply trim_sliceFrom_lower. }
    destruct (includes "@" _); [|discriminate].
    intros H. apply Some_eq in H. subst t. apply normalized_fixed.
  - unfold normalizeTarget. now rewrite trim_toLowerCase, toLowerCase_idem.
  - unfold normalizeTarget. now rewrite trim_idem.
Qed.

(** X2: whatever [looksLikeId] takes for an id, [normalizeTarget] accepts; and
    an input without the "email:" or "mailto:" prefix is accepted only if it
    looks like an id. *)
Theorem X2_looksLikeId_is_accepted (raw : string) :
  (looksLikeId raw = true -> exists t, normalizeTarget raw = Some t)
  /\ (startsWith "email:" (toLowerCase (trim raw)) = false ->
      startsWith "mailto:" (toLowerCase (trim raw)) = false ->
      forall t, normalizeTarget raw = Some t ->
                looksLikeId raw = true /\ t = toLowerCase (trim raw)).
Proof.
  unfold looksLikeId, normalizeTarget. cbv zeta. split.
  - intros L. rewrite includes_at_normalized, L.
    destruct (startsWith "email:" _); [eauto|].
    destruct (startsWith "mailto:" _); eauto.
  - intros -> -> t. rewrite includes_at_normalized.
    destruct (includes "@" raw); [|discriminate].
    intros H. apply Some_eq in H. now split.
Qed.

Lemma X2_looksLikeId_is_accepted_witness :
  exists t, normalizeTarget " Alice@Example.com " = Some t.
Proof.
  apply (X2_looksLikeId_is_accepted " Alice@Example.com "). reflexivity.
Defined.

(** X3: behind an "email:" or "mailto:" prefix the rest of the input is
    returned trimmed and lower-cased without any check: it need not contain an
    "@" and may be empty. *)
Theorem X3_prefixed_target_is_not_validated (rest : string) :
  normalizeTarget ("email:" ++ rest)%string = Some (toLowerCase (trim rest))
  /\ normalizeTarget ("mailto:" ++ rest)%string = Some (toLowerCase (trim rest))
  /\ normalizeTarget "email:" = Some ""%string.
Proof.
  assert (E : trim (toLowerCase (trimEnd rest)) = toLowerCase (trim rest))
    by now rewrite trim_toLowerCase, trim_trimEnd.
  split; [|split; [|reflexivity]].
  - unfold normalizeTarget. cbv zeta.
    rewrite (normalize_solid_prefix "email:" rest) by reflexivity.
    rewrite startsWith_app.
    change 6 with (String.length "email:").
    now rewrite sliceFrom_app, E.
  - unfold normalizeTarget. cbv zeta.
    rewrite (normalize_solid_prefix "mailto:" rest) by reflexivity.
    rewrite startsWith_app.
    assert (N : startsWith "email:" ("mailto:" ++ toLowerCase (trimEnd rest))%string
                = false).
    { unfold startsWith. cbn [append String.prefix].
      now destruct (ascii_dec "e"%char "m"%char). }
    rewrite N.
    change 7 with (String.length "mailto:").
    now rewrite sliceFrom_app, E.
Qed.

Lemma X1_normalizeTarget_normal_form_witness :
  trim "bob@x.com" = "bob@x.com"%string /\ toLowerCase "bob@x.com" = "bob@x.com"%string.
Proof.
  apply (X1_normalizeTarget_normal_form " MailTo: Bob@X.com "). reflexivity.
Defined.

Section ResolveTargetFacts.

Variable to : option string.
Variable allowFrom : option (list string).

(** The address given in [to], as [resolveTarget] sees it. *)
Let given : string := orElse (option_map (fun t => toLowerCase (trim t)) to) ""%string.

Lemma given_has_at : includes "@" given = includes "@" (orElse to ""%string).
Proof.
  unfold given. destruct to as [t|]; [apply includes_at_normalized | reflexivity].
Qed.

Lemma given_normal : trim given = given /\ toLowerCase given = given.
Proof.
  unfold given. destruct to as [t|]; [apply normalized_fixed | now split].
Qed.

Lemma resolveTarget_explicit :
  includes "@" (orElse to ""%string) = true -> resolveTarget to allowFrom = TargetOk given.
Proof.
  intros H. unfold resolveTarget. fold given. cbv zeta.
  rewrite given_has_at, H.
  assert (T : truthy given = true).
  { apply (includes_nonempty "@"); [reflexivity | now rewrite given_has_at]. }
  now rewrite T.
Qed.

Lemma resolveTarget_fallback :
  includes "@" (orElse to ""%string) = false ->
  resolveTarget to allowFrom
  = match filter (fun entry => negb (String.eqb entry "*"))
            (formatAllowFrom (orElse allowFrom [])) with
    | first :: _ => TargetOk first
    | [] =>
        TargetError
          "Microsoft 365 Mail: no target email address. Provide `to=<email>` or set channels.microsoft365.allowFrom."
    end.
Proof.
  intros H. unfold resolveTarget. fold given. cbv zeta.
  rewrite given_has_at, H, andb_false_r. reflexivity.
Qed.

Lemma usable_entry t :
  In t (filter (fun entry => negb (String.eqb entry "*"))
          (formatAllowFrom (orElse allowFrom []))) <->
  t <> ""%string /\ t <> "*"%string
  /\ exists e, In e (orElse allowFrom []) /\ t = normalizeEntry e.
Proof.
  rewrite filter_In, In_formatAllowFrom, negb_true_iff, String.eqb_neq. tauto.
Qed.

End ResolveTargetFacts.

(** X4: a target that [resolveTarget] returns is never empty and never the
    wildcard "*", and it is trimmed and lower-cased. *)
Theorem X4_resolveTarget_result_is_usable (to : option string)
    (allowFrom : option (list string)) (t : string) :
  resolveTarget to allowFrom = TargetOk t ->
  t <> ""%string /\ t <> "*"%string /\ trim t = t /\ toLowerCase t = t.
Proof.
  destruct (includes "@" (orElse to ""%string)) eqn:A.
  - rewrite (resolveTarget_explicit to allowFrom A). intros H.
    assert (E : t = orElse (option_map (fun t => toLowerCase (trim t)) to) ""%string)
      by congruence.
    rewrite <- given_has_at in A. rewrite <- E in A.
    destruct (given_normal to) as [N L]. rewrite <- E in N, L.
    repeat split; trivial; intros ->; discriminate.
  - rewrite (resolveTarget_fallback to allowFrom A).
    destruct (filter _ _) as [|first rest] eqn:F; [discriminate|].
    intros H. assert (E : first = t) by congruence. subst first.
    assert (I : In t (filter (fun entry => negb (String.eqb entry "*"))
                        (formatAllowFrom (orElse allowFrom []))))
      by (rewrite F; now left).
    apply usable_entry in I as [N [W [e [_ ->]]]].
    repeat split; trivial.
    + apply trim_fixed_toLowerCase.
    + apply toLowerCase_idem.
Qed.

Lemma X4_resolveTarget_result_is_usable_witness :
  "ops@x.com"%string <> ""%string /\ "ops@x.com"%string <> "*"%string
  /\ trim "ops@x.com" = "ops@x.com"%string
  /\ toLowerCase "ops@x.com" = "ops@x.com"%string.
Proof.
  apply (X4_resolveTarget_result_is_usable (Some "nobody"%string)
           (Some ["*"%string; "  "%string; " Ops@X.com"%string])).
  reflexivity.
Defined.

(** X5: when [to] carries no address, the target [resolveTarget] falls back
    to is an entry of the configured allow-list, so the gate admits that
    address as a sender whatever the store holds. *)
Theorem X5_fallback_target_is_allowed (to : option string)
    (allowFrom : option (list string)) (t : string) (stored : list string) :
  includes "@" (orElse to ""%string) = false ->
  resolveTarget to allowFrom = TargetOk t ->
  In t (effectiveAllowFrom allowFrom stored)
  /\ senderAllowed (effectiveAllowFrom allowFrom stored) t = true.
Proof.
  intros A. rewrite (resolveTarget_fallback to allowFrom A).
  destruct (filter _ _) as [|first rest] eqn:F; [discriminate|].
  intros H. assert (E : first = t) by congruence. subst first.
  assert (I : In t (formatAllowFrom (orElse allowFrom []))).
  { assert (I : In t (filter (fun entry => negb (String.eqb entry "*"))
                        (formatAllowFrom (orElse allowFrom []))))
      by (rewrite F; now left).
    apply filter_In in I. tauto. }
  assert (M : In t (effectiveAllowFrom allowFrom stored)).
  { rewrite effectiveAllowFrom_format. apply in_or_app. now left. }
  split; [exact M|]. apply senderAllowed_iff. now left.
Qed.

Lemma X5_fallback_target_is_allowed_witness :
  senderAllowed (effectiveAllowFrom (Some ["*"; " Ops@X.com"]) ["zed@x.com"])
    "ops@x.com" = true.
Proof.
  apply (X5_fallback_target_is_allowed None (Some ["*"%string; " Ops@X.com"%string])
           "ops@x.com" ["zed@x.com"%string]); reflexivity.
Defined.

(** X6: [resolveTarget] fails exactly when [to] carries no "@" and every
    configured allow-list entry normalizes to the empty string or to "*". *)
Theorem X6_resolveTarget_error_iff (to : option string)
    (allowFrom : option (list string)) :
  (exists reason, resolveTarget to allowFrom = TargetError reason)
  <-> includes "@" (orElse to ""%string) = false
      /\ forall e, In e (orElse allowFrom []) ->
                   normalizeEntry e = ""%string \/ normalizeEntry e = "*"%string.
Proof.
  split.
  - intros [reason H].
    destruct (includes "@" (orElse to ""%string)) eqn:A.
    { rewrite (resolveTarget_explicit to allowFrom A) in H. discriminate. }
    split; [reflexivity|]. intros e I.
    rewrite (resolveTarget_fallback to allowFrom A) in H.
    destruct (filter _ _) as [|first rest] eqn:F; [|discriminate].
    destruct (string_dec (normalizeEntry e) "") as [?|N]; [now left|].
    destruct (string_dec (normalizeEntry e) "*") as [?|W]; [now right|].
    exfalso.
    assert (U : In (normalizeEntry e)
                  (filter (fun entry => negb (String.eqb entry "*"))
                     (formatAllowFrom (orElse allowFrom []))))
      by (apply usable_entry; eauto).
    now rewrite F in U.
  - intros [A N]. rewrite (resolveTarget_fallback to allowFrom A).
    destruct (filter _ _) as [|first rest] eqn:F; [eauto|].
    exfalso.
    assert (U : In first
                  (filter (fun entry => negb (String.eqb entry "*"))
                     (formatAllowFrom (orElse allowFrom []))))
      by (rewrite F; now left).
    apply usable_entry in U as [NE [NW [e [I ->]]]].
    destruct (N e I); congruence.
Qed.

(** ** Peers *)

Section PeerFacts.

Variable cfg : OpenClawConfig.
Variable query : option string.

Lemma includes_empty s : includes "" s = true.
Proof. now destruct s. Qed.

(** The filter of [listPeers], with the query in normal form. *)
Lemma peer_filter_query :
  (if truthyOpt (option_map (fun s => toLowerCase (trim s)) query)
   then orElse (option_map (fun s => toLowerCase (trim s)) query) ""%string
   else ""%string)
  = toLowerCase (trim (orElse query ""%string)).
Proof.
  destruct query as [s|]; [|reflexivity]. cbn [option_map truthyOpt orElse].
  now destruct (toLowerCase (trim s)).
Qed.

Lemma listPeers_unfold limit :
  listPeers cfg query limit
  = map (fun ident => {| peerKind := "user"; peerId := ident |})
      (match limit with
       | Some n =>
           if (0 <? n)%Z
           then firstn (Z.to_nat n)
                  (filter (fun email =>
                             includes (toLowerCase (trim (orElse query ""%string))) email)
                     (formatAllowFrom
                        (orElse (configuredAllowFrom (microsoft365 cfg)) [])))
           else filter (fun email =>
                          includes (toLowerCase (trim (orElse query ""%string))) email)
                  (formatAllowFrom
                     (orElse (configuredAllowFrom (microsoft365 cfg)) []))
       | None =>
           filter (fun email =>
                     includes (toLowerCase (trim (orElse query ""%string))) email)
             (formatAllowFrom (orElse (configuredAllowFrom (microsoft365 cfg)) []))
       end).
Proof.
  unfold listPeers. cbv zeta. rewrite peer_filter_query.
  set (q := toLowerCase (trim (orElse query ""%string))).
  assert (F : forall l,
            filter (fun email => if truthy q then includes q email else true) l
            = filter (fun email => includes q email) l).
  { intros l. apply filter_ext. intros email.
    destruct q; [now rewrite includes_empty | reflexivity]. }
  rewrite F. unfold configuredAllowFrom, formatAllowFrom.
  now destruct limit as [n|]; [destruct (0 <? n)%Z|].
Qed.

End PeerFacts.

(** X7: every peer [listPeers] returns is a user whose id is a normalized
    entry of the configured allow-list and contains the trimmed, lower-cased
    query; with a positive limit no more than [limit] peers come back. *)
Theorem X7_listPeers_sound_and_bounded (cfg : OpenClawConfig)
    (query : option string) (limit : option Z) :
  (forall peer, In peer (listPeers cfg query limit) ->
     peerKind peer = "user"%string
     /\ In (peerId peer)
          (formatAllowFrom (orElse (configuredAllowFrom (microsoft365 cfg)) []))
     /\ includes (toLowerCase (trim (orElse query ""%string))) (peerId peer) = true)
  /\ (forall n, limit = Some n -> (0 < n)%Z ->
        (Z.of_nat (List.length (listPeers cfg query limit)) <= n)%Z).
Proof.
  rewrite listPeers_unfold. split.
  - intros peer I. apply in_map_iff in I as [ident [<- I]]. cbn [peerKind peerId].
    split; [reflexivity|].
    assert (J : In ident
                  (filter (fun email =>
                             includes (toLowerCase (trim (orElse query ""%string))) email)
                     (formatAllowFrom
                        (orElse (configuredAllowFrom (microsoft365 cfg)) [])))).
    { destruct limit as [n|]; [|exact I].
      destruct (0 <? n)%Z; [|exact I].
      rewrite <- (firstn_skipn (Z.to_nat n)). apply in_or_app. now left. }
    apply filter_In in J. exact J.
  - intros n -> P. apply Z.ltb_lt in P. rewrite P, length_map.
    pose proof (firstn_le_length (Z.to_nat n)
                  (filter (fun email =>
                             includes (toLowerCase (trim (orElse query ""%string))) email)
                     (formatAllowFrom
                        (orElse (configuredAllowFrom (microsoft365 cfg)) [])))).
    apply Z.ltb_lt in P. lia.
Qed.

Lemma X7_listPeers_sound_and_bounded_witness :
  (Z.of_nat (List.length
     (listPeers (cfg (Demo.params None (Some ["a@x.com"; "B@x.com"; "c@y.org"]) "m1" None))
        (Some " X.COM "%string) (Some 1%Z))) <= 1)%Z.
Proof.
  apply (X7_listPeers_sound_and_bounded
           (cfg (Demo.params None (Some ["a@x.com"%string; "B@x.com"%string; "c@y.org"%string])
                   "m1" None))
           (Some " X.COM "%string) (Some 1%Z)); [reflexivity | lia].
Defined.

(** X8: without a positive limit [listPeers] is complete: an id is listed
    exactly when it is a normalized allow-list entry that contains the query;
    with no query either, the ids are the whole normalized allow-list in its
    order, the wildcard "*" included when it is configured. *)
Theorem X8_listPeers_complete_without_limit (cfg : OpenClawConfig)
    (query : option string) (limit : option Z) :
  (forall n, limit = Some n -> (n <= 0)%Z) ->
  (forall ident,
     In ident (map peerId (listPeers cfg query limit))
     <-> In ident
           (formatAllowFrom (orElse (configuredAllowFrom (microsoft365 cfg)) []))
         /\ includes (toLowerCase (trim (orElse query ""%string))) ident = true)
  /\ map peerId (listPeers cfg None limit)
     = formatAllowFrom (orElse (configuredAllowFrom (microsoft365 cfg)) []).
Proof.
  intros L.
  assert (U : forall q,
            map peerId (listPeers cfg q limit)
            = filter (fun email =>
                        includes (toLowerCase (trim (orElse q ""%string))) email)
                (formatAllowFrom
                   (orElse (configuredAllowFrom (microsoft365 cfg)) []))).
  { intros q. rewrite listPeers_unfold, map_map.
    rewrite (map_ext _ (fun x => x)) by reflexivity. rewrite map_id.
    destruct limit as [n|]; [|reflexivity].
    destruct (0 <? n)%Z eqn:P; [|reflexivity].
    apply Z.ltb_lt in P. specialize (L n eq_refl). lia. }
  split.
  - intros ident. rewrite U. apply filter_In.
  - rewrite U. cbn [orElse]. change (toLowerCase (trim "")) with ""%string.
    clear U.
    induction (formatAllowFrom _) as [|e l IH]; [reflexivity|].
    cbn [filter]. rewrite includes_empty. f_equal. exact IH.
Qed.

Lemma X8_listPeers_complete_without_limit_witness :
  map peerId
    (listPeers (cfg (Demo.params None (Some ["*"; " A@x.com "; ""]) "m1" None))
       None (Some 0%Z))
  = ["*"%string; "a@x.com"%string].
Proof.
  apply (X8_listPeers_complete_without_limit
           (cfg (Demo.params None (Some ["*"%string; " A@x.com "%string; ""%string])
                   "m1" None))
           None (Some 0%Z)).
  intros n [= <-]. lia.
Defined.

(** ** Accounts and status *)

(** X9: [setAccountEnabled] followed by [resolveAccount] reads back the flag
    that was written, the last write wins, and the write leaves the DM
    policy, the configured allow-list, the user e-mail and the security
    warnings as they were.  An account nobody wrote to is enabled: it is
    disabled only by an explicit [enabled: false]. *)
Theorem X9_setAccountEnabled_round_trip (defaultAccountId : string)
    (ext : Externals) (state : RuntimeState) (cfg : OpenClawConfig) (flag : bool) :
  raEnabled (resolveAccount defaultAccountId ext state (setAccountEnabled cfg flag)) = flag
  /\ (forall earlier,
        setAccountEnabled (setAccountEnabled cfg earlier) flag
        = setAccountEnabled cfg flag)
  /\ dmPolicyOf (microsoft365 (setAccountEnabled cfg flag))
     = dmPolicyOf (microsoft365 cfg)
  /\ configuredAllowFrom (microsoft365 (setAccountEnabled cfg flag))
     = configuredAllowFrom (microsoft365 cfg)
  /\ raUserEmail (resolveAccount defaultAccountId ext state (setAccountEnabled cfg flag))
     = raUserEmail (resolveAccount defaultAccountId ext state cfg)
  /\ collectWarnings (setAccountEnabled cfg flag) = collectWarnings cfg
  /\ (raEnabled (resolveAccount defaultAccountId ext state cfg) = false
      <-> exists m, microsoft365 cfg = Some m /\ enabled m = Some false).
Proof.
  split; [|split; [|split; [|split; [|split; [|split]]]]].
  - now destruct flag.
  - now destruct cfg as [[m|] store other].
  - now destruct cfg as [[m|] store other].
  - now destruct cfg as [[m|] store other].
  - now destruct cfg as [[m|] store other].
  - now destruct cfg as [[m|] store other].
  - destruct cfg as [[m|] store other]; cbn [resolveAccount raEnabled microsoft365].
    + split.
      * destruct (enabled m) as [[]|] eqn:E; try discriminate. intros _. now exists m.
      * intros [m' [H E]]. assert (m' = m) by congruence. subst m'. now rewrite E.
    + split; [discriminate|]. intros [m' [H _]]. discriminate.
Qed.


(** X11: the channel summary built from an account snapshot reports [running]
    as the connection state of the monitor, whatever the runtime record says
    about [running]; its last error is the monitor's when there is one and the
    runtime's otherwise; [configured] and [webhookActive] pass through. *)
Theorem X11_summary_of_snapshot (state : RuntimeState)
    (account : ResolvedMicrosoft365Account) (runtime : option AccountRuntime)
    (probe : option string) :
  let summary := buildChannelSummary (buildAccountSnapshot state account runtime probe) in
  csRunning summary = rsConnected state
  /\ csLastError summary
     = match rsLastError state with
       | Some e => Some e
       | None => match runtime with Some r => arLastError r | None => None end
       end
  /\ csConfigured summary = raConfigured account
  /\ csWebhookActive summary = rsWebhookActive state
  /\ csSubscriptionId summary = rsSubscriptionId state
  /\ csUserEmail summary
     = match raUserEmail account with
       | Some e => Some e
       | None => rsUserEmail state
       end.
Proof. cbv zeta. repeat split. Qed.

(** ** Reasoning-tag providers *)

(** X12: [isReasoningTagProvider] compares the trimmed, lower-cased provider
    id, so case and surrounding white space do not matter; every id that
    starts with "google-antigravity" or "minimax" is a reasoning-tag provider
    whatever follows, and a missing or empty id is not one. *)
Theorem X12_reasoning_tag_provider (s suffix : string) :
  isReasoningTagProvider (Some (toLowerCase (trim s))) = isReasoningTagProvider (Some s)
  /\ isReasoningTagProvider (Some ("google-antigravity" ++ suffix)%string) = true
  /\ isReasoningTagProvider (Some ("minimax" ++ suffix)%string) = true
  /\ isReasoningTagProvider None = false
  /\ isReasoningTagProvider (Some ""%string) = false.
Proof.
  split; [|split; [|split; [|split; reflexivity]]].
  - unfold isReasoningTagProvider. cbn [truthyOpt orElse].
    rewrite trim_fixed_toLowerCase, toLowerCase_idem.
    destruct (truthy s) eqn:T.
    + destruct (truthy (toLowerCase (trim s))) eqn:N; [reflexivity|].
      destruct (toLowerCase (trim s)); [reflexivity | discriminate].
    + destruct s; [reflexivity | discriminate].
  - unfold isReasoningTagProvider. cbn [truthyOpt orElse].
    change (truthy ("google-antigravity" ++ suffix)%string) with true. cbn [negb].
    rewrite (normalize_solid_prefix "google-antigravity" suffix) by reflexivity.
    rewrite (includes_prefix _ _ (startsWith_app "google-antigravity" _)).
    now destruct (_ || _).
  - unfold isReasoningTagProvider. cbn [truthyOpt orElse].
    change (truthy ("minimax" ++ suffix)%string) with true. cbn [negb].
    rewrite (normalize_solid_prefix "minimax" suffix) by reflexivity.
    rewrite (includes_prefix _ _ (startsWith_app "minimax" _)).
    destruct (_ || _); [reflexivity|]. now destruct (includes "google-antigravity" _).
Qed.

(** ** What the handler's effects have in common *)

Section EffectInvariant.

Variable ext : Externals.
Variable core : PluginRuntime.
Variable p : Params.

(** A property of effects that holds of everything the handler does for [p]
    apart from Graph calls, and of the Graph calls about the message of [p]
    whenever the configuration yields a refresh token. *)
Variable P : Effect -> bool.
Hypothesis P_log : forall level msg, P (Log level msg) = true.
Hypothesis P_upsert : forall c i n k b, P (PairingUpsert c i n k b) = true.
Hypothesis P_drop : forall c r t, P (InboundDrop c r t) = true.
Hypothesis P_session : forall s k c, P (RecordInboundSession s k c) = true.
Hypothesis P_invoke : forall c, P (AgentInvoke c) = true.
Hypothesis P_reply :
  hasRefreshToken (resolveCredentials ext (microsoft365 (cfg p))) = true ->
  forall body, P (GraphReplyToMail (id (message p)) body) = true.
Hypothesis P_mark :
  hasRefreshToken (resolveCredentials ext (microsoft365 (cfg p))) = true ->
  P (GraphMarkAsRead (id (message p))) = true.

Lemma logged_satisfies sink level msg : forallb P (logged sink level msg) = true.
Proof. destruct sink; cbn; [now rewrite P_log | reflexivity]. Qed.

Lemma pairingReplyTrace_satisfies fromEmail code h :
  forallb P (pairingReplyTrace ext core p (microsoft365 (cfg p)) fromEmail code h) = true.
Proof.
  clear P_mark. unfold pairingReplyTrace. cbv zeta.
  destruct (hasRefreshToken _) eqn:K; [|reflexivity].
  cbn [forallb]. rewrite (P_reply eq_refl).
  destruct (graphReply ext h _ _); [apply logged_satisfies | reflexivity].
Qed.

Lemma markAsReadTrace_satisfies h :
  forallb P (markAsReadTrace ext p (microsoft365 (cfg p)) h) = true.
Proof.
  clear P_reply. unfold markAsReadTrace.
  destruct (hasRefreshToken _) eqn:K; [|reflexivity].
  cbn [forallb]. rewrite (P_mark eq_refl).
  destruct (graphMarkRead ext h _); [apply logged_satisfies | reflexivity].
Qed.

Lemma fragmentTrace_satisfies f h :
  forallb P (fragmentTrace ext p (microsoft365 (cfg p)) f h) = true.
Proof.
  clear P_mark. unfold fragmentTrace. destruct (nonBlank f); [|reflexivity].
  destruct (hasRefreshToken _) eqn:K; [|apply logged_satisfies].
  cbn [forallb]. unfold sent. rewrite (P_reply eq_refl).
  destruct (graphReply ext h _ _); [apply logged_satisfies | reflexivity].
Qed.

Lemma dispatchFragments_satisfies fragments :
  forall w, exists added,
    dispatchFragments (deliver ext p (microsoft365 (cfg p))) (onError p) fragments w
    = (Returned tt, extend w added)
    /\ forallb P added = true.
Proof.
  induction fragments as [|f rest IH]; intros w.
  - exists []. cbn. unfold ret. now rewrite extend_nil.
  - rewrite dispatch_step.
    destruct (IH (extend w (fragmentTrace ext p (microsoft365 (cfg p)) f (trace w))))
      as [t [E S]].
    eexists. rewrite E, extend_extend. split; [reflexivity|].
    now rewrite forallb_app, fragmentTrace_satisfies, S.
Qed.

Lemma processAdmitted_satisfies fromEmail fromName subject rawBody w :
  exists added,
    processAdmitted ext core p (microsoft365 (cfg p)) fromEmail fromName subject
      rawBody w
    = (Returned tt, extend w added)
    /\ forallb P added = true.
Proof.
  unfold processAdmitted.
  rewrite (bind_returned _ _ _ _ _ (markAsRead_stage_run ext p _ w)).
  cbv zeta.
  rewrite (bind_returned _ _ _ _ _ (history_run _)).
  rewrite (bind_returned _ _ _ _ _ (recordInboundSession_run core p _ _ _ _)).
  unfold dispatchReplyWithBufferedBlockDispatcher.
  rewrite (bind_returned _ _ _ _ _ (emit_run _ _)).
  rewrite (bind_returned _ _ _ _ _ (history_run _)).
  match goal with
  | |- context [dispatchFragments _ _ ?fs ?w0] =>
      destruct (dispatchFragments_satisfies fs w0) as [t [E S]]
  end.
  eexists. split.
  - rewrite E, !extend_extend. reflexivity.
  - rewrite !forallb_app, markAsReadTrace_satisfies, S. cbn [forallb].
    rewrite P_session, P_invoke.
    destruct (sessionWrite core _ _ _); [|reflexivity].
    now rewrite logged_satisfies.
Qed.

Lemma dropped_satisfies sink channel reason target :
  forallb P (dropped sink (InboundDrop channel reason target)) = true.
Proof.
  clear P_reply P_mark.
  destruct sink; [|reflexivity]. cbn [dropped forallb]. now rewrite P_drop.
Qed.

Lemma handleIncomingMail_satisfies w :
  exists added requests,
    handleIncomingMail (Some core) ext p w
    = (Returned tt, {| pairingRequests := requests; trace := trace w ++ added |})
    /\ forallb P added = true.
Proof.
  destruct (truthyOpt (fromEmailOf (message p))) eqn:T.
  - destruct (fromEmailOf (message p)) as [fromEmail|] eqn:F; [|discriminate].
    cbn [truthyOpt] in T.
    rewrite (handleIncomingMail_with_sender ext core p fromEmail w F T).
    set (w1 := afterIncoming p fromEmail w).
    set (allowList := allowListAt core p w1).
    pose proof (logged_satisfies (log p) Info (incomingLine p fromEmail)) as LI.
    assert (ADM : forall w2,
              w2 = w1 ->
              exists added requests,
                processAdmitted ext core p (microsoft365 (cfg p)) fromEmail
                  (fromNameOf (message p))
                  (orElse (subject (message p)) "(no subject)"%string)
                  (rawBodyOf (message p)) w2
                = (Returned tt,
                   {| pairingRequests := requests; trace := trace w ++ added |})
                /\ forallb P added = true).
    { intros w2 ->.
      destruct (processAdmitted_satisfies fromEmail (fromNameOf (message p))
                  (orElse (subject (message p)) "(no subject)"%string)
                  (rawBodyOf (message p)) w1) as [t [R S]].
      exists (logged (log p) Info (incomingLine p fromEmail) ++ t), (pairingRequests w).
      split.
      - rewrite R. unfold w1, afterIncoming. now rewrite extend_extend.
      - now rewrite forallb_app, LI, S. }
    destruct (dmPolicyOf (microsoft365 (cfg p))) eqn:PO.
    + rewrite (bind_returned _ _ _ _ _ (enforce_open _ _ _ _ _ _ _ _)). now apply ADM.
    + destruct (senderAllowed allowList fromEmail) eqn:SA.
      * rewrite (bind_returned _ _ _ _ _
                   (enforce_allowed ext core p _ allowList fromEmail _ Pairing w1 SA)).
        now apply ADM.
      * destruct (find (pendingFor CHANNEL_ID fromEmail) (pairingRequests w1))
          as [r|] eqn:Q.
        -- rewrite (bind_returned _ _ _ _ _
                      (enforce_pairing_pending ext core p _ allowList fromEmail _ r
                         w1 SA Q)).
           eexists (logged (log p) Info (incomingLine p fromEmail) ++ _ :: _), _.
           split.
           ++ unfold ret, w1, afterIncoming. rewrite extend_extend. reflexivity.
           ++ rewrite forallb_app, LI. cbn [forallb].
              now rewrite P_upsert, dropped_satisfies.
        -- rewrite (bind_returned _ _ _ _ _
                      (enforce_pairing_new ext core p _ allowList fromEmail _ w1 SA Q)).
           eexists (logged (log p) Info (incomingLine p fromEmail) ++ _ :: _ ++ _), _.
           split.
           ++ unfold ret, w1, afterIncoming, extend. cbn [trace pairingRequests].
              rewrite <- app_assoc. reflexivity.
           ++ rewrite forallb_app, LI. cbn [forallb]. rewrite forallb_app.
              now rewrite P_upsert, dropped_satisfies, pairingReplyTrace_satisfies.
    + destruct (senderAllowed allowList fromEmail) eqn:SA.
      * rewrite (bind_returned _ _ _ _ _
                   (enforce_allowed ext core p _ allowList fromEmail _ Allowlist w1 SA)).
        now apply ADM.
      * rewrite (bind_returned _ _ _ _ _
                   (enforce_allowlist_denied ext core p _ allowList fromEmail _ w1 SA)).
        eexists (logged (log p) Info (incomingLine p fromEmail) ++ _), _.
        split.
        -- unfold ret, w1, afterIncoming. rewrite extend_extend. reflexivity.
        -- now rewrite forallb_app, LI, dropped_satisfies.
  - rewrite (handleIncomingMail_no_sender core ext p w T).
    eexists _, _. split; [reflexivity | apply logged_satisfies].
Qed.

End EffectInvariant.

Section AdmittedShape.

Variable ext : Externals.
Variable core : PluginRuntime.
Variable p : Params.

Lemma existsb_false_forallb {A} (f : A -> bool) l :
  existsb f l = false <-> forallb (fun x => negb (f x)) l = true.
Proof.
  induction l as [|x l IH]; cbn; [tauto|].
  rewrite orb_false_iff, andb_true_iff, negb_true_iff, IH. tauto.
Qed.

(** What follows admission, effect by effect: the mark-as-read attempt, the
    session record, the error line of a failed session write, the agent
    invocation on the recorded context, then replies and error lines. *)
Lemma processAdmitted_shape fromEmail fromName subject rawBody w :
  exists storePath sessionKey ctx errors replies,
    processAdmitted ext core p (microsoft365 (cfg p)) fromEmail fromName subject
      rawBody w
    = (Returned tt,
       extend w (markAsReadTrace ext p (microsoft365 (cfg p)) (trace w)
                 ++ RecordInboundSession storePath sessionKey ctx :: errors
                 ++ AgentInvoke ctx :: replies))
    /\ forallb isLog errors = true
    /\ forallb (fun e => isGraphReply e || isLog e) replies = true.
Proof.
  unfold processAdmitted.
  rewrite (bind_returned _ _ _ _ _ (markAsRead_stage_run ext p _ w)).
  cbv zeta.
  rewrite (bind_returned _ _ _ _ _ (history_run _)).
  rewrite (bind_returned _ _ _ _ _ (recordInboundSession_run core p _ _ _ _)).
  unfold dispatchReplyWithBufferedBlockDispatcher.
  rewrite (bind_returned _ _ _ _ _ (emit_run _ _)).
  rewrite (bind_returned _ _ _ _ _ (history_run _)).
  match goal with
  | |- context [dispatchFragments _ _ ?fs ?w0] =>
      destruct (dispatchFragments_satisfies ext p
                  (fun e => isGraphReply e || isLog e)
                  (fun _ _ => eq_refl) (fun _ _ => eq_refl) fs w0) as [t [E S]]
  end.
  do 3 eexists. eexists (match sessionWrite core _ _ _ with
                         | Some err => _ | None => [] end), t.
  split; [|split; [|exact S]].
  - rewrite E, !extend_extend. reflexivity.
  - destruct (sessionWrite core _ _ _); [|reflexivity]. now destruct (log p).
Qed.

(** A mail the gate lets through is processed without touching the pairing
    store and without a drop record. *)
Lemma handle_admitted w :
  admits core p w = true ->
  exists fromEmail rest,
    fromEmailOf (message p) = Some fromEmail
    /\ handleIncomingMail (Some core) ext p w
       = (Returned tt,
          extend w (logged (log p) Info (incomingLine p fromEmail) ++ rest))
    /\ processAdmitted ext core p (microsoft365 (cfg p)) fromEmail
         (fromNameOf (message p))
         (orElse (subject (message p)) "(no subject)"%string)
         (rawBodyOf (message p)) (afterIncoming p fromEmail w)
       = (Returned tt, extend (afterIncoming p fromEmail w) rest)
    /\ forallb isPostAdmission rest = true
    /\ existsb isAgentInvoke rest = true.
Proof.
  unfold admits. destruct (fromEmailOf (message p)) as [fromEmail|] eqn:F;
    [|discriminate].
  intros A. apply andb_true_iff in A as [T D].
  rewrite (handleIncomingMail_with_sender ext core p fromEmail w F T).
  assert (E : enforceDmPolicy ext core p (microsoft365 (cfg p))
                (dmPolicyOf (microsoft365 (cfg p)))
                (allowListAt core p (afterIncoming p fromEmail w)) fromEmail
                (fromNameOf (message p)) (afterIncoming p fromEmail w)
              = (Returned true, afterIncoming p fromEmail w)).
  { apply orb_true_iff in D as [D|D].
    - destruct (dmPolicyOf (microsoft365 (cfg p))); try discriminate.
      apply enforce_open.
    - now apply enforce_allowed. }
  rewrite (bind_returned _ _ _ _ _ E).
  destruct (processAdmitted_run ext core p (microsoft365 (cfg p)) fromEmail
              (fromNameOf (message p))
              (orElse (subject (message p)) "(no subject)"%string)
              (rawBodyOf (message p)) (afterIncoming p fromEmail w))
    as [t [R [Q A]]].
  exists fromEmail, t. split; [reflexivity|]. rewrite R.
  split; [|split; [reflexivity|split; assumption]].
  unfold afterIncoming. now rewrite extend_extend.
Qed.

End AdmittedShape.

(** ** Approved senders *)

(** X14: a sender whose lower-cased address is a normalized entry of the
    stored allow-list reaches the agent under every policy and whatever the
    configured allow-list holds, also when it is absent; the pairing store is
    not touched and no drop is recorded. *)
Theorem X14_stored_sender_is_admitted (core : PluginRuntime) (ext : Externals)
    (p : Params) (w : World) (fromEmail : string) (stored : list string) :
  fromEmailOf (message p) = Some fromEmail ->
  readAllowFromStore core (trace (afterIncoming p fromEmail w)) CHANNEL_ID
    = Some stored ->
  In fromEmail (formatAllowFrom stored) ->
  exists added,
    handleIncomingMail (Some core) ext p w = (Returned tt, extend w added)
    /\ existsb isAgentInvoke added = true
    /\ existsb isPairingUpsert added = false
    /\ existsb isInboundDrop added = false.
Proof.
  intros F R I.
  assert (A : admits core p w = true).
  { unfold admits. rewrite F.
    assert (T : truthy fromEmail = true)
      by (apply truthy_true_iff; apply In_formatAllowFrom in I; tauto).
    rewrite T. cbn [andb]. apply orb_true_iff. right.
    apply senderAllowed_iff. left. unfold allowListAt. rewrite R.
    rewrite effectiveAllowFrom_format. apply in_or_app. now right. }
  destruct (handle_admitted ext core p w A) as [fe [rest [F' [H [_ [Q AI]]]]]].
  assert (fe = fromEmail) by congruence. subst fe.
  exists (logged (log p) Info (incomingLine p fromEmail) ++ rest).
  split; [exact H|].
  destruct (logged_quiet (log p) Info (incomingLine p fromEmail))
    as [_ [_ [_ [LU [LD _]]]]].
  destruct (postAdmission_quiet rest Q) as [TU [TD _]].
  now rewrite !existsb_app, AI, LU, LD, TU, TD, orb_true_r.
Qed.

Lemma X14_stored_sender_is_admitted_witness :
  exists added,
    handleIncomingMail (Some (Demo.core (Some [" Friend@X.com "]))) Demo.externals
      (Demo.params (Some Allowlist) None "m1" (Some "FRIEND@x.com")) Demo.fresh
    = (Returned tt, extend Demo.fresh added)
    /\ existsb isAgentInvoke added = true
    /\ existsb isPairingUpsert added = false
    /\ existsb isInboundDrop added = false.
Proof.
  apply (X14_stored_sender_is_admitted (Demo.core (Some [" Friend@X.com "%string]))
           Demo.externals
           (Demo.params (Some Allowlist) None "m1" (Some "FRIEND@x.com"%string))
           Demo.fresh "friend@x.com" [" Friend@X.com "%string]);
    try reflexivity.
  now left.
Defined.

(** ** Invariants of every run *)

Lemma same_run (w : World) (r1 r2 : list PairingRequest) (a1 a2 : Trace) :
  {| pairingRequests := r1; trace := trace w ++ a1 |}
  = {| pairingRequests := r2; trace := trace w ++ a2 |} ->
  r1 = r2 /\ a1 = a2.
Proof.
  intros H. split.
  - exact (f_equal pairingRequests H).
  - apply (f_equal trace) in H. cbn [trace] in H. now apply app_inv_head in H.
Qed.

(** X15: the pairing store is consulted only for a mail that the gate turns
    away under [pairing].  Under [open] or [allowlist], and for every mail
    that is admitted, the handler performs no upsert and leaves the pairing
    store as it was. *)
Theorem X15_pairing_store_touched_only_by_pairing (core : PluginRuntime)
    (ext : Externals) (p : Params) (w : World) :
  dmPolicyOf (microsoft365 (cfg p)) <> Pairing \/ admits core p w = true ->
  exists added,
    handleIncomingMail (Some core) ext p w = (Returned tt, extend w added)
    /\ existsb isPairingUpsert added = false.
Proof.
  intros H.
  destruct (admits core p w) eqn:A.
  - destruct (handle_admitted ext core p w A) as [fe [rest [_ [R [_ [Q _]]]]]].
    eexists. split; [exact R|].
    destruct (logged_quiet (log p) Info (incomingLine p fe)) as [_ [_ [_ [LU _]]]].
    destruct (postAdmission_quiet rest Q) as [TU _].
    now rewrite existsb_app, LU, TU.
  - destruct H as [N|]; [|discriminate].
    destruct (truthyOpt (fromEmailOf (message p))) eqn:T.
    + destruct (fromEmailOf (message p)) as [fe|] eqn:F; [|discriminate].
      cbn [truthyOpt] in T. unfold admits in A. rewrite F, T in A.
      cbn [andb] in A. apply orb_false_iff in A as [O S].
      rewrite (handleIncomingMail_with_sender ext core p fe w F T).
      destruct (dmPolicyOf (microsoft365 (cfg p))); [discriminate|congruence|].
      rewrite (bind_returned _ _ _ _ _
                 (enforce_allowlist_denied ext core p _ _ fe _ _ S)).
      eexists. unfold ret, afterIncoming. rewrite extend_extend.
      split; [reflexivity|].
      destruct (logged_quiet (log p) Info (incomingLine p fe)) as [_ [_ [_ [LU _]]]].
      rewrite existsb_app, LU. now destruct (log p).
    + rewrite (handleIncomingMail_no_sender core ext p w T).
      eexists. split; [reflexivity|].
      now destruct (log p).
Qed.

Lemma X15_pairing_store_touched_only_by_pairing_witness :
  exists added,
    handleIncomingMail (Some (Demo.core (Some []))) Demo.externals
      (Demo.params (Some Allowlist) (Some ["friend@x.com"]) "m1" (Some "new@x.com"))
      Demo.fresh
    = (Returned tt, extend Demo.fresh added)
    /\ existsb isPairingUpsert added = false.
Proof.
  apply (X15_pairing_store_touched_only_by_pairing (Demo.core (Some []))
           Demo.externals
           (Demo.params (Some Allowlist) (Some ["friend@x.com"%string]) "m1"
              (Some "new@x.com"%string)) Demo.fresh).
  left. discriminate.
Defined.

(** X16: every call the handler makes to the Graph client, be it the pairing
    reply, the mark-as-read or the delivery of a reply fragment, is about the
    inbound message it is handling: replies stay in the thread of that
    message.  This holds of whatever the run has done, however it ends. *)
Theorem X16_graph_calls_stay_on_the_message (core : PluginRuntime)
    (ext : Externals) (p : Params) (w w' : World) (outcome : Outcome unit) :
  handleIncomingMail (Some core) ext p w = (outcome, w') ->
  exists added,
    trace w' = trace w ++ added
    /\ forallb (isAbout (id (message p))) added = true.
Proof.
  intros H.
  destruct (handleIncomingMail_satisfies ext core p (isAbout (id (message p)))
              (fun _ _ => eq_refl) (fun _ _ _ _ _ => eq_refl) (fun _ _ _ => eq_refl)
              (fun _ _ _ => eq_refl) (fun _ => eq_refl)
              (fun _ body => String.eqb_refl _) (fun _ => String.eqb_refl _) w)
    as [added [requests [R S]]].
  rewrite R in H. apply (f_equal snd) in H. cbn [snd] in H. subst w'.
  now exists added.
Qed.

Lemma X16_graph_calls_stay_on_the_message_witness :
  exists added,
    trace (snd (handleIncomingMail (Some (Demo.core (Some []))) Demo.flakyExternals
                  (Demo.params (Some Pairing) (Some ["friend@x.com"]) "m7"
                     (Some "friend@x.com")) Demo.fresh))
    = trace Demo.fresh ++ added
    /\ forallb (isAbout "m7") added = true.
Proof.
  apply (X16_graph_calls_stay_on_the_message (Demo.core (Some []))
           Demo.flakyExternals
           (Demo.params (Some Pairing) (Some ["friend@x.com"%string]) "m7"
              (Some "friend@x.com"%string))
           Demo.fresh _ (Returned tt)).
  reflexivity.
Defined.

(** X17: when the configuration yields no refresh token the handler makes no
    call to the Graph client at all: no pairing reply, no mark-as-read, no
    delivery, whatever the policy and the sender and however the run ends. *)
Theorem X17_no_token_no_graph_call (core : PluginRuntime) (ext : Externals)
    (p : Params) (w w' : World) (outcome : Outcome unit) :
  hasRefreshToken (resolveCredentials ext (microsoft365 (cfg p))) = false ->
  handleIncomingMail (Some core) ext p w = (outcome, w') ->
  exists added,
    trace w' = trace w ++ added
    /\ existsb isGraphCall added = false.
Proof.
  intros K H.
  assert (PR : hasRefreshToken (resolveCredentials ext (microsoft365 (cfg p))) = true ->
               forall body,
                 negb (isGraphCall (GraphReplyToMail (id (message p)) body)) = true)
    by (intros T; congruence).
  assert (PM : hasRefreshToken (resolveCredentials ext (microsoft365 (cfg p))) = true ->
               negb (isGraphCall (GraphMarkAsRead (id (message p)))) = true)
    by (intros T; congruence).
  destruct (handleIncomingMail_satisfies ext core p (fun e => negb (isGraphCall e))
              (fun _ _ => eq_refl) (fun _ _ _ _ _ => eq_refl) (fun _ _ _ => eq_refl)
              (fun _ _ _ => eq_refl) (fun _ => eq_refl) PR PM w)
    as [added [requests [R S]]].
  rewrite R in H. apply (f_equal snd) in H. cbn [snd] in H. subst w'.
  exists added. split; [reflexivity|].
  now apply existsb_false_forallb.
Qed.

Lemma X17_no_token_no_graph_call_witness :
  exists added,
    trace (snd (handleIncomingMail (Some (Demo.core (Some []))) Demo.externals
                  {| message := Demo.mail "m1" (Some "new@x.com");
                     cfg := {| microsoft365 := None; sessionStore := None;
                               otherSettings := "" |};
                     accountId := "default"; log := true |} Demo.fresh))
    = trace Demo.fresh ++ added
    /\ existsb isGraphCall added = false.
Proof.
  apply (X17_no_token_no_graph_call (Demo.core (Some [])) Demo.externals
           {| message := Demo.mail "m1" (Some "new@x.com"%string);
              cfg := {| microsoft365 := None; sessionStore := None;
                        otherSettings := ""%string |};
              accountId := "default"%string; log := true |} Demo.fresh _ (Returned tt));
    reflexivity.
Defined.

(** X18: an admitted mail goes through the same steps in the same order,
    whatever the Graph client and the session store answer: the incoming
    line, the mark-as-read attempt (with its warning when it fails), one
    session record, the error line of a failed session write, one agent
    invocation on the very context that was recorded, then only replies and
    error lines.  A failing mark-as-read or session write never stops the
    dispatch. *)
Theorem X18_admitted_pipeline (core : PluginRuntime) (ext : Externals)
    (p : Params) (w : World) :
  admits core p w = true ->
  exists fromEmail storePath sessionKey ctx errors replies,
    fromEmailOf (message p) = Some fromEmail
    /\ handleIncomingMail (Some core) ext p w
       = (Returned tt,
          extend w
            (logged (log p) Info (incomingLine p fromEmail)
             ++ markAsReadTrace ext p (microsoft365 (cfg p))
                  (trace (afterIncoming p fromEmail w))
             ++ RecordInboundSession storePath sessionKey ctx :: errors
             ++ AgentInvoke ctx :: replies))
    /\ forallb isLog errors = true
    /\ forallb (fun e => isGraphReply e || isLog e) replies = true.
Proof.
  intros A.
  destruct (handle_admitted ext core p w A) as [fe [rest [F [R [PA _]]]]].
  destruct (processAdmitted_shape ext core p fe (fromNameOf (message p))
              (orElse (subject (message p)) "(no subject)"%string)
              (rawBodyOf (message p)) (afterIncoming p fe w))
    as [sp [sk [ctx [errors [replies [SH [EL RL]]]]]]].
  rewrite PA in SH. injection SH as SH.
  assert (E : rest = markAsReadTrace ext p (microsoft365 (cfg p))
                       (trace (afterIncoming p fe w))
                     ++ RecordInboundSession sp sk ctx :: errors
                     ++ AgentInvoke ctx :: replies).
  { now apply app_inv_head in SH. }
  exists fe, sp, sk, ctx, errors, replies.
  split; [exact F|]. split; [|now split]. now rewrite R, E.
Qed.

Lemma X18_admitted_pipeline_witness :
  exists fromEmail storePath sessionKey ctx errors replies,
    fromEmailOf (message (Demo.params (Some Open) None "m1" (Some "new@x.com")))
    = Some fromEmail
    /\ handleIncomingMail (Some (Demo.core None)) Demo.downExternals
         (Demo.params (Some Open) None "m1" (Some "new@x.com")) Demo.fresh
       = (Returned tt,
          extend Demo.fresh
            (logged true Info
               (incomingLine (Demo.params (Some Open) None "m1" (Some "new@x.com"))
                  fromEmail)
             ++ markAsReadTrace Demo.downExternals
                  (Demo.params (Some Open) None "m1" (Some "new@x.com"))
                  (Some (Demo.config (Some Open) None))
                  (trace (afterIncoming
                            (Demo.params (Some Open) None "m1" (Some "new@x.com"))
                            fromEmail Demo.fresh))
             ++ RecordInboundSession storePath sessionKey ctx :: errors
             ++ AgentInvoke ctx :: replies))
    /\ forallb isLog errors = true
    /\ forallb (fun e => isGraphReply e || isLog e) replies = true.
Proof.
  apply (X18_admitted_pipeline (Demo.core None) Demo.downExternals
           (Demo.params (Some Open) None "m1" (Some "new@x.com"%string)) Demo.fresh).
  reflexivity.
Defined.

(** ** Outbound calls *)

(** X19: [sendText] makes at most one call to the Graph client.  It makes
    none exactly when the configuration yields no refresh token, and then it
    completes with an error value instead of raising.  The reply endpoint is
    used only for a non-empty [replyToId], a new mail goes only to [to] with
    subject "Re: OpenClaw", and [sendText] raises only what the client
    rejected the call with. *)
Theorem X19_sendText_one_call (ext : Externals) (api : GraphApi)
    (cfg : OpenClawConfig) (to body : string) (replyToId : option string)
    (calls : list GraphCall) :
  let configured := hasRefreshToken (resolveCredentials ext (microsoft365 cfg)) in
  exists outcome made,
    sendText ext api cfg to body replyToId calls = (outcome, calls ++ made)
    /\ List.length made = (if configured then 1 else 0)
    /\ (forall result, outcome = Completed result ->
          srChannel result = "microsoft365"%string
          /\ (srError result <> None <-> configured = false))
    /\ (configured = false -> exists result, outcome = Completed result)
    /\ (forall e, outcome = Raised e ->
          apiReplyToMail api calls (orElse replyToId ""%string) body = Some e
          \/ apiSendMail api calls to "Re: OpenClaw" body = Some e)
    /\ (forall ident text, In (ReplyToMailCall ident text) made ->
          replyToId = Some ident /\ ident <> ""%string /\ text = body)
    /\ (forall recipient subject text, In (SendMailCall recipient subject text) made ->
          truthyOpt replyToId = false /\ recipient = to
          /\ subject = "Re: OpenClaw"%string /\ text = body).
Proof.
  cbv zeta. unfold sendText. cbv zeta.
  destruct (hasRefreshToken _); cbn [negb].
  - destruct (truthyOpt replyToId) eqn:T.
    + unfold gbind, clientReplyToMail, gret.
      destruct replyToId as [r|]; [|discriminate]. cbn [orElse truthyOpt] in *.
      assert (N : r <> ""%string) by (intros ->; discriminate).
      destruct (apiReplyToMail api calls r body) as [e|] eqn:E;
        do 2 eexists; (split; [reflexivity|]); (split; [reflexivity|]);
        (split; [|split; [|split; [|split]]]).
      all: intros; try discriminate.
      all: try match goal with
               | H : In _ [_] |- _ => destruct H as [H|[]]; try discriminate H;
                                      inversion H; subst; clear H
               end.
      all: try match goal with
               | H : Completed _ = Completed _ |- _ => inversion H; subst; clear H
               | H : Raised _ = Raised _ |- _ => inversion H; subst; clear H
               end.
      all: cbn [srChannel srError]; try (now repeat split); try tauto.
      all: try (split; [reflexivity | split; congruence]).
    + unfold gbind, clientSendMail, gret.
      destruct (apiSendMail api calls to _ body) as [e|] eqn:E;
        do 2 eexists; (split; [reflexivity|]); (split; [reflexivity|]);
        (split; [|split; [|split; [|split]]]).
      all: intros; try discriminate.
      all: try match goal with
               | H : In _ [_] |- _ => destruct H as [H|[]]; try discriminate H;
                                      inversion H; subst; clear H
               end.
      all: try match goal with
               | H : Completed _ = Completed _ |- _ => inversion H; subst; clear H
               | H : Raised _ = Raised _ |- _ => inversion H; subst; clear H
               end.
      all: cbn [srChannel srError]; try (now repeat split); try tauto.
      all: try (split; [reflexivity | split; congruence]).
  - exists (Completed {| srChannel := "microsoft365";
                         srError := Some "Not configured (missing refreshToken)"%string |}),
           [].
    unfold gret. rewrite app_nil_r. split; [reflexivity|]. split; [reflexivity|].
    split; [|split; [|split; [|split]]].
    all: intros; try discriminate; try contradiction.
    + match goal with
      | H : Completed _ = Completed _ |- _ => inversion H; subst; clear H
      end.
      cbn [srChannel srError]. split; [reflexivity|]. split; congruence.
    + eauto.
Qed.


(** X21: [notifyApproval] is silent without a refresh token: no call, no
    exception.  With one it sends exactly one mail, to the approved identity,
    and a rejection by the client is not caught: it reaches the caller. *)
Theorem X21_notifyApproval (approvedMessage : string) (ext : Externals)
    (api : GraphApi) (cfg : OpenClawConfig) (ident : string)
    (calls : list GraphCall) :
  (hasRefreshToken (resolveCredentials ext (microsoft365 cfg)) = false ->
   notifyApproval approvedMessage ext api cfg ident calls = (Completed tt, calls))
  /\ (hasRefreshToken (resolveCredentials ext (microsoft365 cfg)) = true ->
      forall outcome calls',
        notifyApproval approvedMessage ext api cfg ident calls = (outcome, calls') ->
        calls' = calls ++ [SendMailCall ident "OpenClaw Access Approved" approvedMessage]
        /\ forall e,
             apiSendMail api calls ident "OpenClaw Access Approved" approvedMessage
             = Some e <-> outcome = Raised e).
Proof.
  unfold notifyApproval. cbv zeta. split; intros K; rewrite K; cbn [negb].
  - reflexivity.
  - intros outcome calls'. unfold clientSendMail. intros H.
    injection H as <- <-. split; [reflexivity|]. intros e.
    destruct (apiSendMail api calls _ _ _); split; congruence.
Qed.

(** ** Objects *)

Section ObjectFacts.

Lemma lookup_absent k o : hasKey k o = false -> lookup k o = JsUndefined.
Proof.
  induction o as [|[k' v] o IH]; [reflexivity|].
  cbn [hasKey existsb fst lookup]. intros H. apply orb_false_iff in H as [E R].
  rewrite E. now apply IH.
Qed.

Lemma lookup_app k a b :
  lookup k (a ++ b) = if hasKey k a then lookup k a else lookup k b.
Proof.
  induction a as [|[k' v] a IH]; [reflexivity|].
  cbn [app lookup hasKey existsb fst].
  destruct (String.eqb k' k); [reflexivity | exact IH].
Qed.

Lemma hasKey_app k a b : hasKey k (a ++ b) = hasKey k a || hasKey k b.
Proof. apply existsb_app. Qed.

Lemma lookup_overridden k a b :
  lookup k (map (fun e => (fst e, if hasKey (fst e) b then lookup (fst e) b else snd e)) a)
  = if hasKey k a then (if hasKey k b then lookup k b else lookup k a) else JsUndefined.
Proof.
  induction a as [|[k' v] a IH]; [reflexivity|].
  cbn [map lookup hasKey existsb fst snd].
  destruct (String.eqb k' k) eqn:E; [|exact IH].
  apply String.eqb_eq in E. subst k'. reflexivity.
Qed.

Lemma hasKey_overridden k a b :
  hasKey k (map (fun e => (fst e, if hasKey (fst e) b then lookup (fst e) b else snd e)) a)
  = hasKey k a.
Proof.
  induction a as [|[k' v] a IH]; [reflexivity|].
  cbn [map hasKey existsb fst]. f_equal. exact IH.
Qed.

Lemma lookup_new_keys k a b :
  hasKey k a = false ->
  lookup k (filter (fun e => negb (hasKey (fst e) a)) b) = lookup k b.
Proof.
  intros N. induction b as [|[k' v] b IH]; [reflexivity|].
  cbn [filter fst lookup].
  destruct (String.eqb k' k) eqn:E.
  - apply String.eqb_eq in E. subst k'. rewrite N. cbn [negb lookup].
    now rewrite String.eqb_refl.
  - destruct (negb (hasKey k' a)); [cbn [lookup]; now rewrite E | exact IH].
Qed.

(** Reading a key of [{ ...a, ...b }]: [b] wins where it has the key. *)
Lemma lookup_spread k a b :
  lookup k (spread a b) = if hasKey k b then lookup k b else lookup k a.
Proof.
  unfold spread. rewrite lookup_app, hasKey_overridden, lookup_overridden.
  destruct (hasKey k a) eqn:A; [reflexivity|].
  rewrite (lookup_new_keys k a b A), (lookup_absent k a A).
  destruct (hasKey k b) eqn:B; [reflexivity | now apply lookup_absent].
Qed.

Lemma hasKey_spread k a b : hasKey k (spread a b) = hasKey k a || hasKey k b.
Proof.
  unfold spread. rewrite hasKey_app, hasKey_overridden.
  destruct (hasKey k a) eqn:A; [reflexivity|]. cbn [orb].
  induction b as [|[k' v] b IH]; [reflexivity|].
  cbn [filter fst hasKey existsb].
  destruct (String.eqb k' k) eqn:E.
  - apply String.eqb_eq in E. subst k'. rewrite A. cbn [negb hasKey existsb fst].
    now rewrite String.eqb_refl.
  - destruct (negb (hasKey k' a)); cbn [hasKey existsb fst orb];
      [rewrite E|]; exact IH.
Qed.

Lemma hasKey_In k o : hasKey k o = true <-> In k (map fst o).
Proof.
  unfold hasKey. rewrite existsb_exists, in_map_iff. split.
  - intros [e [I E]]. apply String.eqb_eq in E. eauto.
  - intros [e [E I]]. exists e. split; [exact I|]. now apply String.eqb_eq.
Qed.

(** In an object, where keys are unique, dropping the undefined entries
    changes no reading. *)
Lemma lookup_dropUndefined k o :
  NoDup (map fst o) -> lookup k (dropUndefined o) = lookup k o.
Proof.
  induction o as [|[k' v] o IH]; [reflexivity|].
  cbn [map fst]. intros N. inversion N as [|? ? NI ND]; subst.
  cbn [dropUndefined filter snd lookup]. fold (dropUndefined o).
  destruct (String.eqb k' k) eqn:E.
  - apply String.eqb_eq in E. subst k'.
    destruct v; cbn [isUndefined negb lookup]; rewrite ?String.eqb_refl; try reflexivity.
    rewrite (IH ND). apply lookup_absent.
    destruct (hasKey k o) eqn:H; [|reflexivity].
    apply hasKey_In in H. contradiction.
  - destruct (negb (isUndefined v)); cbn [lookup]; rewrite ?E; now apply IH.
Qed.

Lemma hasKey_dropUndefined k o :
  NoDup (map fst o) ->
  hasKey k (dropUndefined o) = negb (isUndefined (lookup k o)).
Proof.
  induction o as [|[k' v] o IH]; [reflexivity|].
  cbn [map fst]. intros N. inversion N as [|? ? NI ND]; subst.
  cbn [dropUndefined filter snd lookup]. fold (dropUndefined o).
  destruct (String.eqb k' k) eqn:E.
  - apply String.eqb_eq in E. subst k'.
    destruct v; cbn [isUndefined negb hasKey existsb fst];
      rewrite ?String.eqb_refl; try reflexivity.
    fold (hasKey k (dropUndefined o)). rewrite (IH ND).
    rewrite (lookup_absent k o); [reflexivity|].
    destruct (hasKey k o) eqn:H; [|reflexivity].
    apply hasKey_In in H. contradiction.
  - destruct (negb (isUndefined v)); cbn [hasKey existsb fst]; rewrite ?E;
      now apply IH.
Qed.

(** Defined options on top of parameters: an option wins where it is defined. *)
Lemma lookup_defined_over k params o :
  NoDup (map fst o) ->
  lookup k (spread params (dropUndefined o))
  = if isUndefined (lookup k o) then lookup k params else lookup k o.
Proof.
  intros N. rewrite lookup_spread, (hasKey_dropUndefined k o N),
    (lookup_dropUndefined k o N).
  now destruct (isUndefined (lookup k o)).
Qed.

End ObjectFacts.

(** ** Extra stream parameters *)

Section StreamParamFacts.

Variable extra : JsObj.
Variable provider : string.

Lemma streamParams_temperature :
  lookup "temperature" (streamParamsOf extra provider)
  = if isNumber (lookup "temperature" extra)
    then lookup "temperature" extra else JsUndefined.
Proof.
  unfold streamParamsOf.
  destruct (isNumber (lookup "temperature" extra)); [reflexivity|].
  cbn [app].
  destruct (isNumber (lookup "maxTokens" extra));
    destruct (isToolChoice (lookup "toolChoice" extra));
    destruct (resolveCacheRetention (Some extra) provider); reflexivity.
Qed.

Lemma streamParams_keys k :
  hasKey k (streamParamsOf extra provider) = true ->
  In k ["temperature"; "maxTokens"; "toolChoice"; "cacheRetention"]%string.
Proof.
  unfold streamParamsOf. rewrite !hasKey_app, !orb_true_iff.
  intros [H|[H|[H|H]]].
  - destruct (isNumber _); [|discriminate]. cbn [hasKey existsb fst] in H.
    rewrite orb_false_r in H. apply String.eqb_eq in H. now left.
  - destruct (isNumber _); [|discriminate]. cbn [hasKey existsb fst] in H.
    rewrite orb_false_r in H. apply String.eqb_eq in H. right. now left.
  - destruct (isToolChoice _); [|discriminate]. cbn [hasKey existsb fst] in H.
    rewrite orb_false_r in H. apply String.eqb_eq in H. right. right. now left.
  - destruct (resolveCacheRetention _ _); [|discriminate]. cbn [hasKey existsb fst] in H.
    rewrite orb_false_r in H. apply String.eqb_eq in H. right. right. right. now left.
Qed.

Lemma streamParams_cacheRetention :
  hasKey "cacheRetention" (streamParamsOf extra provider) = true ->
  provider = "anthropic"%string.
Proof.
  unfold streamParamsOf. rewrite !hasKey_app, !orb_true_iff.
  intros [H|[H|[H|H]]].
  - destruct (isNumber _); discriminate.
  - destruct (isNumber _); discriminate.
  - destruct (isToolChoice _); discriminate.
  - unfold resolveCacheRetention in H.
    destruct (String.eqb provider "anthropic") eqn:E; [|discriminate].
    now apply String.eqb_eq in E.
Qed.

Lemma streamParams_empty_iff :
  noKeys (streamParamsOf extra provider) = true
  <-> isNumber (lookup "temperature" extra) = false
      /\ isNumber (lookup "maxTokens" extra) = false
      /\ isToolChoice (lookup "toolChoice" extra) = false
      /\ resolveCacheRetention (Some extra) provider = None.
Proof.
  unfold streamParamsOf.
  destruct (isNumber (lookup "temperature" extra));
    destruct (isNumber (lookup "maxTokens" extra));
    destruct (isToolChoice (lookup "toolChoice" extra));
    destruct (resolveCacheRetention (Some extra) provider);
    cbn; split; try discriminate; try tauto;
    intros [? [? [? ?]]]; discriminate.
Qed.

End StreamParamFacts.

(** X22: a wrapper built from stream parameters passes on the caller's
    options on top of the parameters: for every key, an option the caller
    defines wins, and an option that is missing or explicitly [undefined]
    leaves the configured parameter in place.  Without options the endpoint
    receives the parameters. *)
Theorem X22_options_override_stream_params (streamParams : JsObj)
    (underlying : StreamFn) (options : JsObj) :
  NoDup (map fst options) ->
  exists merged,
    callStreamFn (WithParams streamParams underlying) (Some options)
    = callStreamFn underlying (Some merged)
    /\ (forall k,
          lookup k merged
          = if isUndefined (lookup k options)
            then lookup k streamParams else lookup k options)
    /\ exists bare,
         callStreamFn (WithParams streamParams underlying) None
         = callStreamFn underlying (Some bare)
         /\ forall k, lookup k bare = lookup k streamParams.
Proof.
  intros N. exists (spread streamParams (dropUndefined options)).
  split; [reflexivity|]. split.
  - intros k. now apply lookup_defined_over.
  - exists (spread streamParams []). split; [reflexivity|].
    intros k. now rewrite lookup_spread.
Qed.

Lemma X22_options_override_stream_params_witness :
  exists merged,
    callStreamFn
      (WithParams [("temperature"%string, JsNumber "0.2"); ("maxTokens"%string, JsNumber "512")]
         LibStreamSimple)
      (Some [("temperature"%string, JsUndefined); ("maxTokens"%string, JsNumber "64")])
    = callStreamFn LibStreamSimple (Some merged)
    /\ lookup "temperature" merged = JsNumber "0.2"
    /\ lookup "maxTokens" merged = JsNumber "64".
Proof.
  destruct (X22_options_override_stream_params
              [("temperature"%string, JsNumber "0.2"); ("maxTokens"%string, JsNumber "512")]
              LibStreamSimple
              [("temperature"%string, JsUndefined); ("maxTokens"%string, JsNumber "64")])
    as [merged [E [L _]]].
  - repeat constructor; cbn; intuition discriminate.
  - exists merged. split; [exact E|]. now rewrite !L.
Defined.

(** X23: [createStreamFnWithExtraParams] forwards four parameters and nothing
    else: the wrapper it returns carries no key besides [temperature],
    [maxTokens], [toolChoice] and [cacheRetention], and [cacheRetention] only
    for provider "anthropic".  A valid [toolChoice] forces the library's
    [stream] even when a base stream function is given; otherwise the base is
    used, or [streamSimple] without one.  No wrapper is returned exactly when
    none of the four parameters is recognised. *)
Theorem X23_only_known_params_are_forwarded (baseStreamFn : option StreamFn)
    (extraParams : option JsObj) (provider : string) :
  (forall wrapped,
     createStreamFnWithExtraParams baseStreamFn extraParams provider = Some wrapped ->
     exists streamParams,
       wrapped
       = WithParams streamParams
           (if isToolChoice (lookup "toolChoice" (orElse extraParams []))
            then LibStream else orElse baseStreamFn LibStreamSimple)
       /\ (forall k, hasKey k streamParams = true ->
             In k ["temperature"; "maxTokens"; "toolChoice"; "cacheRetention"]%string)
       /\ (hasKey "cacheRetention" streamParams = true ->
           provider = "anthropic"%string))
  /\ (createStreamFnWithExtraParams baseStreamFn extraParams provider = None
      <-> isNumber (lookup "temperature" (orElse extraParams [])) = false
          /\ isNumber (lookup "maxTokens" (orElse extraParams [])) = false
          /\ isToolChoice (lookup "toolChoice" (orElse extraParams [])) = false
          /\ resolveCacheRetention extraParams provider = None).
Proof.
  unfold createStreamFnWithExtraParams. split.
  - intros wrapped. destruct extraParams as [extra|]; [|discriminate].
    destruct (noKeys extra); [discriminate|].
    destruct (noKeys (streamParamsOf extra provider)); [discriminate|].
    cbv zeta. intros H. apply Some_eq in H. subst wrapped.
    exists (streamParamsOf extra provider). split; [reflexivity|]. split.
    + apply streamParams_keys.
    + apply streamParams_cacheRetention.
  - destruct extraParams as [extra|].
    + cbn [orElse].
      assert (R : resolveCacheRetention (Some extra) provider
                  = resolveCacheRetention (Some extra) provider) by reflexivity.
      destruct extra as [|e extra].
      * cbn [noKeys]. split; [intros _|reflexivity].
        unfold resolveCacheRetention. cbn. now destruct (String.eqb provider "anthropic").
      * cbn [noKeys]. rewrite <- (streamParams_empty_iff (e :: extra) provider).
        destruct (noKeys (streamParamsOf (e :: extra) provider)); split;
          try reflexivity; discriminate.
    + split; [intros _|reflexivity]. cbn [orElse].
      unfold resolveCacheRetention. cbn. now destruct (String.eqb provider "anthropic").
Qed.

Lemma X23_only_known_params_are_forwarded_witness :
  exists streamParams,
    WithParams [("toolChoice"%string, JsString "auto")] LibStream
    = WithParams streamParams LibStream
    /\ (forall k, hasKey k streamParams = true ->
          In k ["temperature"; "maxTokens"; "toolChoice"; "cacheRetention"]%string)
    /\ (hasKey "cacheRetention" streamParams = true -> "ollama"%string = "anthropic"%string).
Proof.
  apply (X23_only_known_params_are_forwarded (Some (CallerStream "custom"))
           (Some [("toolChoice"%string, JsString "auto"); ("topP"%string, JsNumber "1")])
           "ollama").
  reflexivity.
Defined.

(** X24: in [applyExtraParamsToAgent] the override sits on top of the
    configured parameters: for every key an override entry that is defined
    wins, and one that is missing or [undefined] leaves the configured value
    in place.  For the temperature this means: a numeric override is the
    temperature that is forwarded, an absent one forwards the configured
    number, and an override that is defined but not a number suppresses the
    temperature altogether. *)
Theorem X24_override_precedence (configured : option JsObj) (override : JsObj)
    (provider : string) :
  NoDup (map fst override) ->
  (forall k,
     lookup k (mergeExtraParams configured (Some override))
     = if isUndefined (lookup k override)
       then lookup k (orElse configured []) else lookup k override)
  /\ (forall k,
        lookup k (mergeExtraParams configured None) = lookup k (orElse configured []))
  /\ lookup "temperature"
       (streamParamsOf (mergeExtraParams configured (Some override)) provider)
     = match lookup "temperature" override with
       | JsNumber t => JsNumber t
       | JsUndefined =>
           if isNumber (lookup "temperature" (orElse configured []))
           then lookup "temperature" (orElse configured []) else JsUndefined
       | _ => JsUndefined
       end.
Proof.
  intros N.
  assert (M : forall k,
            lookup k (mergeExtraParams configured (Some override))
            = if isUndefined (lookup k override)
              then lookup k (orElse configured []) else lookup k override).
  { intros k. unfold mergeExtraParams. cbv zeta.
    destruct override as [|e override'] eqn:O.
    - cbn [noKeys negb orElse lookup isUndefined]. now rewrite lookup_spread.
    - cbn [noKeys negb orElse]. rewrite <- O in *. now apply lookup_defined_over. }
  split; [exact M|]. split.
  - intros k. unfold mergeExtraParams. cbn [orElse]. now rewrite lookup_spread.
  - rewrite streamParams_temperature, M.
    destruct (lookup "temperature" override); reflexivity.
Qed.

Lemma X24_override_precedence_witness :
  lookup "temperature"
    (streamParamsOf
       (mergeExtraParams (Some [("temperature"%string, JsNumber "0.7")])
          (Some [("temperature"%string, JsString "hot")])) "openai")
  = JsUndefined.
Proof.
  apply (X24_override_precedence (Some [("temperature"%string, JsNumber "0.7")])
           [("temperature"%string, JsString "hot")] "openai").
  repeat constructor. intros [].
Defined.

(** X25: for provider "openrouter" the agent always ends up with the
    attribution wrapper as its outermost stream function, with or without
    extra parameters.  The wrapper passes on the caller's options with a
    [headers] object in which the caller's headers win over the two
    attribution headers and every other option is untouched.  For any other
    provider with no configured parameters and no override the agent's stream
    function is left as it was. *)
Theorem X25_openrouter_attribution (streamFn : option StreamFn)
    (models : option (list (string * ModelConfig))) (provider modelId : string)
    (override options : option JsObj) (underlying : StreamFn) :
  (provider = "openrouter"%string ->
   exists inner,
     applyExtraParamsToAgent streamFn models provider modelId override
     = Some (WithOpenRouterHeaders inner))
  /\ (exists passed headers,
        callStreamFn (WithOpenRouterHeaders underlying) options
        = callStreamFn underlying (Some passed)
        /\ lookup "headers" passed = JsObject headers
        /\ (forall k,
              lookup k headers
              = if hasKey k (headersOf options)
                then lookup k (headersOf options)
                else lookup k OPENROUTER_APP_HEADERS)
        /\ (forall k, k <> "headers"%string ->
              lookup k passed = lookup k (orElse options [])))
  /\ (provider <> "openrouter"%string ->
      resolveExtraParams models provider modelId = None ->
      override = None ->
      applyExtraParamsToAgent streamFn models provider modelId override = streamFn).
Proof.
  split; [|split].
  - intros ->. unfold applyExtraParamsToAgent. cbv zeta.
    change (String.eqb "openrouter" "openrouter") with true. cbv iota.
    unfold createOpenRouterHeadersWrapper. eauto.
  - do 2 eexists. split; [reflexivity|]. split; [|split].
    + rewrite lookup_spread. reflexivity.
    + intros k. apply lookup_spread.
    + intros k N. rewrite lookup_spread. cbn [hasKey existsb fst].
      apply not_eq_sym in N. apply String.eqb_neq in N. now rewrite N.
  - intros N R ->. unfold applyExtraParamsToAgent. cbv zeta. rewrite R.
    apply String.eqb_neq in N. rewrite N.
    unfold mergeExtraParams, createStreamFnWithExtraParams. cbn. reflexivity.
Qed.

Lemma X25_openrouter_attribution_witness :
  exists inner,
    applyExtraParamsToAgent None None "openrouter" "anthropic/claude" None
    = Some (WithOpenRouterHeaders inner).
Proof.
  apply (X25_openrouter_attribution None None "openrouter" "anthropic/claude"
           None None LibStream).
  reflexivity.
Defined.

(** X26: cache retention is resolved for provider "anthropic" only.  There a
    valid [cacheRetention] wins over the legacy [cacheControlTtl], which
    otherwise maps "5m" to short and "1h" to long; any other pair of values
    gives none. *)
Theorem X26_cache_retention (extraParams : option JsObj) (provider : string) :
  (provider <> "anthropic"%string -> resolveCacheRetention extraParams provider = None)
  /\ (forall r,
        lookup "cacheRetention" (orElse extraParams []) = JsString (cacheRetentionName r) ->
        resolveCacheRetention extraParams "anthropic" = Some r)
  /\ ((forall r, lookup "cacheRetention" (orElse extraParams [])
                 <> JsString (cacheRetentionName r)) ->
      resolveCacheRetention extraParams "anthropic"
      = match lookup "cacheControlTtl" (orElse extraParams []) with
        | JsString "5m" => Some RetainShort
        | JsString "1h" => Some RetainLong
        | _ => None
        end).
Proof.
  split; [|split].
  - intros N. unfold resolveCacheRetention. apply String.eqb_neq in N. now rewrite N.
  - intros r H. unfold resolveCacheRetention.
    change (String.eqb "anthropic" "anthropic") with true. cbv zeta. cbn [negb].
    rewrite H. now destruct r.
  - intros H. unfold resolveCacheRetention.
    change (String.eqb "anthropic" "anthropic") with true. cbv zeta. cbn [negb].
    pose proof (H RetainNone) as H1. pose proof (H RetainShort) as H2.
    pose proof (H RetainLong) as H3. cbn [cacheRetentionName] in H1, H2, H3.
    destruct (lookup "cacheRetention" (orElse extraParams [])) as [| | | |s|];
      try reflexivity.
    destruct (string_dec s "none") as [->|N1]; [congruence|].
    destruct (string_dec s "short") as [->|N2]; [congruence|].
    destruct (string_dec s "long") as [->|N3]; [congruence|].
    clear H H1 H2 H3.
    repeat match goal with
           | |- context [match ?x with EmptyString => _ | String _ _ => _ end] =>
               is_var x; destruct x; try reflexivity; try congruence
           | |- context [match ?c with Ascii _ _ _ _ _ _ _ _ => _ end] =>
               is_var c; destruct c as [[] [] [] [] [] [] [] []];
               try reflexivity; try congruence
           end.
Qed.

Lemma X21_notifyApproval_witness :
  notifyApproval "approved" Demo.externals DemoGraph.api (DemoGraph.cfg None)
    "friend@x.com" []
  = (Completed tt, [])
  /\ forall outcome calls',
       notifyApproval "approved" Demo.externals DemoGraph.api
         (DemoGraph.cfg (Some "token"%string)) "stranger@x.com" [] = (outcome, calls') ->
       calls' = [SendMailCall "stranger@x.com" "OpenClaw Access Approved" "approved"]
       /\ forall e,
            apiSendMail DemoGraph.api [] "stranger@x.com" "OpenClaw Access Approved"
              "approved" = Some e <-> outcome = Raised e.
Proof.
  split.
  - apply (X21_notifyApproval "approved" Demo.externals DemoGraph.api
             (DemoGraph.cfg None) "friend@x.com" []).
    reflexivity.
  - apply (X21_notifyApproval "approved" Demo.externals DemoGraph.api
             (DemoGraph.cfg (Some "token"%string)) "stranger@x.com" []).
    reflexivity.
Defined.

Lemma X26_cache_retention_witness :
  resolveCacheRetention (Some [("cacheControlTtl"%string, JsString "1h")]) "openai" = None
  /\ resolveCacheRetention
       (Some [("cacheRetention"%string, JsString "short");
              ("cacheControlTtl"%string, JsString "1h")]) "anthropic"
     = Some RetainShort
  /\ resolveCacheRetention (Some [("cacheControlTtl"%string, JsString "1h")]) "anthropic"
     = Some RetainLong.
Proof.
  split; [|split].
  - apply (X26_cache_retention (Some [("cacheControlTtl"%string, JsString "1h")]) "openai").
    discriminate.
  - apply (X26_cache_retention
             (Some [("cacheRetention"%string, JsString "short");
                    ("cacheControlTtl"%string, JsString "1h")]) "anthropic" ).
    reflexivity.
  - apply (proj2 (proj2 (X26_cache_retention
             (Some [("cacheControlTtl"%string, JsString "1h")]) "anthropic"))).
    intros r. discriminate.
Defined.


